(** * CorinEE trading server: matching engine, asset repository and worker pool

    A shallow embedding of
      - [packages/server/src/asset/utils/util.ts]          (ensureMax8Decimals)
      - [packages/server/src/asset/asset.repository.ts]    (AssetRepository)
      - [packages/server/src/trade/trade-bid.service.ts]   (BidService)
      - [packages/server/src/trade/worker-pool.service.ts] (WorkerPoolService)
    and the properties the specification states about them, followed by
    further properties of the same code.

    The first part holds the embedding, the second part the properties.

    Conventions.
      - A JavaScript [number] is NaN, an infinity or an exact decimal
        [m * 10^e]; [toString] follows ECMA-262 on that decimal.  The sum
        and the product the services compute are parameters of the
        environment, so that nothing proved of them rests on how doubles
        round.
      - An [async] method is a computation in the state-and-exception monad
        [M S]: a rejected promise is [Err], a resolved one is [Ok].
      - A promise that is created but not awaited is a [Task] put on the
        [detached] queue of the world; the event loop ([settle]) runs it later
        and records a rejection nobody handles.
      - An [await] of the per-order attempt is a suspension point at which
        other code ([meanwhile]) may run.
      - A query runner holds its transaction's view of the rows; what a
        transaction wrote and neither committed nor rolled back before its
        connection was released is kept in [abandoned].
      - Logger and console output that no control flow depends on is left out,
        except [console.log(error)] in [createBidTrade], which is the only
        place that error goes. *)

From Stdlib Require Import ZArith String Ascii List Bool Lia DecimalString.
From stdpp Require Import gmap strings list.

(** ** JavaScript numbers and strings *)

Module JS.

Local Open Scope Z_scope.

(** A [number] is NaN, an infinity, or a finite value [m * 10^e].  The
    arithmetic of this module is exact decimal arithmetic, with the special
    values kept; it does not round as doubles do, and only the scenarios
    compute with it. *)
Inductive number : Type :=
| NaN
| Infinity (negative : bool)
| Finite (m e : Z).

Definition zero : number := Finite 0 0.
Definition ofZ (z : Z) : number := Finite z 0.

(** Both mantissas over the smaller exponent. *)
Definition align (m1 e1 m2 e2 : Z) : Z * Z * Z :=
  let e := Z.min e1 e2 in (m1 * 10 ^ (e1 - e), m2 * 10 ^ (e2 - e), e).

Definition neg (x : number) : number :=
  match x with
  | NaN => NaN
  | Infinity s => Infinity (negb s)
  | Finite m e => Finite (- m) e
  end.

Definition add (x y : number) : number :=
  match x, y with
  | NaN, _ | _, NaN => NaN
  | Infinity a, Infinity b => if Bool.eqb a b then Infinity a else NaN
  | Infinity a, Finite _ _ => Infinity a
  | Finite _ _, Infinity b => Infinity b
  | Finite m1 e1, Finite m2 e2 =>
      let '(a, b, e) := align m1 e1 m2 e2 in Finite (a + b) e
  end.

Definition sub (x y : number) : number := add x (neg y).

Definition mul (x y : number) : number :=
  match x, y with
  | NaN, _ | _, NaN => NaN
  | Infinity a, Infinity b => Infinity (xorb a b)
  | Infinity a, Finite m _ | Finite m _, Infinity a =>
      if m =? 0 then NaN else Infinity (xorb a (m <? 0))
  | Finite m1 e1, Finite m2 e2 => Finite (m1 * m2) (e1 + e2)
  end.

(** ECMA-262 IsLessThan: [Some true], [Some false], or [None] (undefined)
    when an operand is NaN. *)
Definition isLessThan (x y : number) : option bool :=
  match x, y with
  | NaN, _ | _, NaN => None
  | Infinity a, Infinity b => Some (a && negb b)
  | Infinity a, Finite _ _ => Some a
  | Finite _ _, Infinity b => Some (negb b)
  | Finite m1 e1, Finite m2 e2 =>
      let '(a, b, _) := align m1 e1 m2 e2 in Some (a <? b)
  end.

(** The four relational operators, as ECMA-262 derives them from IsLessThan. *)
Definition ltb (x y : number) : bool :=
  match isLessThan x y with Some true => true | _ => false end.
Definition gtb (x y : number) : bool :=
  match isLessThan y x with Some true => true | _ => false end.
Definition leb (x y : number) : bool :=
  match isLessThan y x with Some false => true | _ => false end.
Definition geb (x y : number) : bool :=
  match isLessThan x y with Some false => true | _ => false end.

Definition isNaN (x : number) : bool :=
  match x with NaN => true | _ => false end.
Definition isFinite (x : number) : bool :=
  match x with Finite _ _ => true | _ => false end.

(** *** Number.prototype.toString (radix 10), ECMA-262 6.1.6.1.20 *)

Definition digitsOf (n : N) : list ascii :=
  list_ascii_of_string (NilZero.string_of_uint (N.to_uint n)).

Fixpoint dropZeros (l : list ascii) : list ascii :=
  match l with
  | "0"%char :: l' => dropZeros l'
  | _ => l
  end.

(** The digits [s] of the shortest decimal significand of [m] (no trailing
    zero) and the number of zeros removed. *)
Definition significand (m : Z) : list ascii * Z :=
  let ds := digitsOf (Z.abs_N m) in
  let s := rev (dropZeros (rev ds)) in
  (s, Z.of_nat (length ds) - Z.of_nat (length s)).

(** Steps 6 to 10 of Number::toString for the digits [s] (there are [k] of
    them) of a value [s * 10^(n-k)]. *)
Definition render (s : list ascii) (n : Z) : list ascii :=
  let k := Z.of_nat (length s) in
  if (k <=? n) && (n <=? 21) then
    s ++ replicate (Z.to_nat (n - k)) "0"%char
  else if (0 <? n) && (n <=? 21) then
    take (Z.to_nat n) s ++ "."%char :: drop (Z.to_nat n) s
  else if (-6 <? n) && (n <=? 0) then
    "0"%char :: "."%char :: replicate (Z.to_nat (- n)) "0"%char ++ s
  else
    let ex := n - 1 in
    let es := (if ex <? 0 then "-"%char else "+"%char) :: digitsOf (Z.abs_N ex) in
    if k =? 1 then s ++ "e"%char :: es
    else take 1 s ++ "."%char :: drop 1 s ++ "e"%char :: es.

Definition toString (x : number) : string :=
  match x with
  | NaN => "NaN"
  | Infinity false => "Infinity"
  | Infinity true => "-Infinity"
  | Finite m e =>
      if m =? 0 then "0"
      else
        let '(s, z) := significand m in
        let n := e + z + Z.of_nat (length s) in
        string_of_list_ascii ((if m <? 0 then ["-"%char] else []) ++ render s n)
  end.

(** The number of digits after the decimal point in the plain decimal
    expansion of a finite value: the least [d >= 0] with [x * 10^d] an
    integer. *)
Definition fractionDigits (x : number) : Z :=
  match x with
  | Finite m e =>
      if m =? 0 then 0 else let '(_, z) := significand m in Z.max 0 (- (e + z))
  | _ => 0
  end.

(** *** String.prototype.includes / split with a one-character argument *)

Fixpoint includes (s : string) (c : ascii) : bool :=
  match s with
  | EmptyString => false
  | String a s' => Ascii.eqb a c || includes s' c
  end.

Fixpoint split (s : string) (sep : ascii) : list string :=
  match s with
  | EmptyString => [EmptyString]
  | String a s' =>
      if Ascii.eqb a sep then EmptyString :: split s' sep
      else match split s' sep with
           | [] => [String a EmptyString]
           | h :: t => String a h :: t
           end
  end.

End JS.

Import JS.


(** ** Exceptions, promises and the monad of [async] methods *)

Inductive exn : Type :=
| InternalServerErrorException (message : string)
| BadRequestException (message : string)
| UnprocessableEntityException (message : string)
| TradeNotFoundException
| TypeError (message : string)
| Error (message : string).

Inductive Result (A : Type) : Type :=
| Ok (a : A)
| Err (e : exn).
Arguments Ok {A} a.
Arguments Err {A} e.

Definition isOk {A} (r : Result A) : bool :=
  match r with Ok _ => true | Err _ => false end.

(** [error instanceof TradeNotFoundException] *)
Definition instanceofTradeNotFound (error : exn) : bool :=
  match error with TradeNotFoundException => true | _ => false end.

Definition M (S A : Type) : Type := S -> Result A * S.

Definition ret {S A} (a : A) : M S A := fun s => (Ok a, s).
Definition throw {S A} (e : exn) : M S A := fun s => (Err e, s).
Definition bind {S A B} (m : M S A) (k : A -> M S B) : M S B :=
  fun s => match m s with
           | (Ok a, s') => k a s'
           | (Err e, s') => (Err e, s')
           end.
Definition get {S} : M S S := fun s => (Ok s, s).
Definition modify {S} (f : S -> S) : M S unit := fun s => (Ok tt, f s).
Definition liftResult {S A} (r : Result A) : M S A := fun s => (r, s).

(** [try { m } catch (error) { handler error }] *)
Definition try_catch {S A} (m : M S A) (handler : exn -> M S A) : M S A :=
  fun s => match m s with
           | (Ok a, s') => (Ok a, s')
           | (Err e, s') => handler e s'
           end.

(** [try { m } finally { cleanup }]: the cleanup always runs; the outcome of
    [m] stands unless the cleanup itself throws. *)
Definition try_finally {S A} (m : M S A) (cleanup : M S unit) : M S A :=
  fun s => let '(r, s') := m s in
           match cleanup s' with
           | (Ok _, s'') => (r, s'')
           | (Err e, s'') => (Err e, s'')
           end.

Declare Scope async_scope.
Delimit Scope async_scope with async.
Notation "x <- m ;; k" := (bind m (fun x => k))
  (at level 100, m at next level, right associativity) : async_scope.
Notation "m ;; k" := (bind m (fun _ => k))
  (at level 100, right associativity) : async_scope.
Local Open Scope async_scope.

(** ** Entities and DTOs *)

(** account.entity.ts is not part of the sources at hand; the columns are the
    ones the services and the tests use. *)
Module Account.
Record t : Type := mk {
  id : Z;
  user : Z;
  KRW : number;
  availableKRW : number;
  USDT : number;
  BTC : number }.

(** [account[column]]; [None] is [undefined]. *)
Definition get (a : t) (column : string) : option number :=
  if String.eqb column "KRW" then Some (KRW a)
  else if String.eqb column "availableKRW" then Some (availableKRW a)
  else if String.eqb column "USDT" then Some (USDT a)
  else if String.eqb column "BTC" then Some (BTC a)
  else None.

Definition set_KRW (v : number) (a : t) : t :=
  mk (id a) (user a) v (availableKRW a) (USDT a) (BTC a).
Definition set_availableKRW (v : number) (a : t) : t :=
  mk (id a) (user a) (KRW a) v (USDT a) (BTC a).
Definition set_USDT (v : number) (a : t) : t :=
  mk (id a) (user a) (KRW a) (availableKRW a) v (BTC a).
Definition set_BTC (v : number) (a : t) : t :=
  mk (id a) (user a) (KRW a) (availableKRW a) (USDT a) v.

(** SQL [SET column = column + change], with [plus] for the sum; [None] when
    there is no such column. *)
Definition increase (plus : number -> number -> number) (column : string) (change : number)
    (a : t) : option t :=
  if String.eqb column "KRW" then Some (set_KRW (plus (KRW a) change) a)
  else if String.eqb column "availableKRW" then
    Some (set_availableKRW (plus (availableKRW a) change) a)
  else if String.eqb column "USDT" then Some (set_USDT (plus (USDT a) change) a)
  else if String.eqb column "BTC" then Some (set_BTC (plus (BTC a) change) a)
  else None.
End Account.

(** asset.entity.ts: [price] is the cumulative cost of the holding.  The
    [account] relation is stored as the account id. *)
Module Asset.
Record t : Type := mk {
  assetId : Z;
  assetName : string;
  price : number;
  quantity : number;
  availableQuantity : number;
  account : Z }.
End Asset.

(** trade.entity.ts: a pending order.  [buyData] in [executeBidTrade] is a copy
    of such a row with [quantity] and [price] overwritten. *)
Module Trade.
Record t : Type := mk {
  tradeId : Z;
  user : Z;
  tradeType : string;
  tradeCurrency : string;
  assetName : string;
  price : number;
  quantity : number }.

Definition set_quantity (q : number) (r : t) : t :=
  mk (tradeId r) (user r) (tradeType r) (tradeCurrency r) (assetName r) (price r) q.
Definition set_price (p : number) (r : t) : t :=
  mk (tradeId r) (user r) (tradeType r) (tradeCurrency r) (assetName r) p (quantity r).
End Trade.

(** The read-only part of a [TradeData] ([bidDto]).  The two members the
    service assigns, [bidDto.accountBalance] and [bidDto.account], live in the
    [World], keyed by the order the dto stands for. *)
Module TradeData.
Record t : Type := mk {
  tradeId : Z;
  userId : Z;
  typeGiven : string;
  typeReceived : string;
  receivedPrice : number;
  receivedAmount : number;
  krw : number }.
End TradeData.

Module OrderBookEntry.
Record t : Type := mk {
  ask_price : number;
  ask_size : number;
  bid_price : number;
  bid_size : number }.
End OrderBookEntry.

(** user.entity.ts, as far as the bid service looks at it. *)
Module User.
Record t : Type := mk { id : Z }.
End User.

Record TradeResponse : Type := mkTradeResponse {
  statusCode : Z;
  message : string }.

Record TradeDataRedis : Type := mkTradeDataRedis {
  redis_tradeId : Z;
  redis_userId : Z;
  redis_tradeType : string;
  redis_tradeCurrency : string;
  redis_assetName : string;
  redis_price : number;
  redis_quantity : number }.

Definition TRADE_TYPES_BUY : string := "buy".

(** ** Storage *)

(** The committed rows of the three tables.  A transaction (a TypeORM
    [QueryRunner] between [startTransaction] and [commitTransaction]) works on
    a copy of them. *)
Record Tables : Type := mkTables {
  trades : list Trade.t;
  accounts : list Account.t;
  assets : list Asset.t }.

Definition set_trades (v : list Trade.t) (t : Tables) : Tables :=
  mkTables v (accounts t) (assets t).
Definition set_accounts (v : list Account.t) (t : Tables) : Tables :=
  mkTables (trades t) v (assets t).
Definition set_assets (v : list Asset.t) (t : Tables) : Tables :=
  mkTables (trades t) (accounts t) v.

(** The calls that reach the storage layer; any of them can fail. *)
Inductive StorageOp : Type :=
| OpFindAsset | OpSaveAsset | OpUpdateAsset
| OpFindTradeWithLock | OpUpdateTrade | OpInsertTrade | OpCommit
| OpGetUser | OpGetAccount | OpUpdateAccount
| OpCreateTradeHistory | OpRedis.

(** What the service is given from outside the sources at hand:
    [trade/helpers/trade.helper.ts] ([formatQuantity], [isMinimumQuantity]),
    the order-book cache of [CoinDataUpdaterService], and the storage layer's
    verdict on each call ([storageFails op rows] says that [op] issued on
    [rows] throws); and the sum and the product of two numbers, [+] and [*]
    of JavaScript, which round their result to a double.  Nothing is assumed
    of them: what is proved of the services holds whatever they compute.
    The scenarios run with the exact decimal [JS.add] and [JS.mul], which
    are the sum and the product of doubles on the values they meet there. *)
Class Environment : Type := {
  add : number -> number -> number;
  mul : number -> number -> number;
  formatQuantity : number -> number;
  isMinimumQuantity : number -> bool;
  getCoinOrderbookByBid : TradeData.t -> list OrderBookEntry.t;
  storageFails : StorageOp -> Tables -> bool }.

(** [x - y] is [x + (-y)], for doubles as well. *)
Definition sub `{Environment} (x y : number) : number := add x (neg y).

Definition DB (A : Type) : Type := M Tables A.

Definition storage `{Environment} (op : StorageOp) : DB unit :=
  fun rows => if storageFails op rows then (Err (Error "DB Error"), rows)
              else (Ok tt, rows).

(** ** asset/utils/util.ts *)

(** The second message is in Korean in the source ("<field> cannot exceed 8
    decimal places (input: <value>)"). *)
Definition ensureMax8Decimals (value : number) (fieldName : string) : Result unit :=
  if isNaN value || negb (isFinite value) then
    Err (InternalServerErrorException
           ("Invalid " +:+ fieldName +:+ ": " +:+ toString value))
  else
    let valueStr := toString value in
    if includes valueStr "."%char then
      match split valueStr "."%char with
      | _ :: decimalPart :: _ =>
          if (8 <? String.length decimalPart)%nat then
            Err (InternalServerErrorException
                   (fieldName +:+ " cannot exceed 8 decimal places (input: "
                      +:+ toString value +:+ ")"))
          else Ok tt
      | _ => Err (TypeError "Cannot read properties of undefined (reading 'length')")
      end
    else Ok tt.

(** ** asset/asset.repository.ts *)

Section AssetRepository.
Context `{Environment}.

(** TypeORM [Repository.save] of an entity without a primary key: an INSERT
    that gives the row the next generated [assetId]. *)
Definition nextAssetId (rows : list Asset.t) : Z :=
  (1 + fold_right Z.max 0 (map Asset.assetId rows))%Z.

Definition save (asset : Asset.t) : DB Asset.t :=
  storage OpSaveAsset ;;
  rows <- get ;;
  let saved :=
    Asset.mk (nextAssetId (assets rows)) (Asset.assetName asset) (Asset.price asset)
      (Asset.quantity asset) (Asset.availableQuantity asset) (Asset.account asset) in
  modify (set_assets (assets rows ++ [saved])) ;;
  ret saved.

(** [createQueryBuilder().update(Asset).set(...).where('assetId = :assetId')] *)
Definition updateWhereAssetId (assetId : Z) (f : Asset.t -> Asset.t) : DB unit :=
  storage OpUpdateAsset ;;
  modify (fun rows =>
    set_assets (map (fun r => if (Asset.assetId r =? assetId)%Z then f r else r)
                    (assets rows)) rows).

Definition findOneAsset (id : Z) (assetName : string) : DB (option Asset.t) :=
  storage OpFindAsset ;;
  rows <- get ;;
  ret (find (fun r => (Asset.account r =? id)%Z && String.eqb (Asset.assetName r) assetName)
            (assets rows)).

Definition createAsset (typeReceived : string) (account : Account.t)
    (price quantity : number) : DB Asset.t :=
  try_catch
    (liftResult (ensureMax8Decimals price "price") ;;
     liftResult (ensureMax8Decimals quantity "quantity") ;;
     let asset := Asset.mk 0 typeReceived price quantity quantity (Account.id account) in
     savedAsset <- save asset ;;
     ret savedAsset)
    (fun error => throw (InternalServerErrorException "asset creation failed")).

Definition updateAssetQuantityPrice (asset : Asset.t) : DB unit :=
  try_catch
    (liftResult (ensureMax8Decimals (Asset.price asset) "price") ;;
     liftResult (ensureMax8Decimals (Asset.quantity asset) "quantity") ;;
     liftResult (ensureMax8Decimals (Asset.availableQuantity asset) "availableQuantity") ;;
     updateWhereAssetId (Asset.assetId asset) (fun r =>
       Asset.mk (Asset.assetId r) (Asset.assetName r) (Asset.price asset)
         (Asset.quantity asset) (Asset.availableQuantity asset) (Asset.account r)))
    (fun error => throw (InternalServerErrorException "asset update failed")).

(** Same statement, issued through the caller's query runner: in the model
    the caller applies it to the view of that query runner. *)
Definition updateAssetQuantityPriceWithQR (asset : Asset.t) : DB unit :=
  try_catch
    (liftResult (ensureMax8Decimals (Asset.price asset) "price") ;;
     liftResult (ensureMax8Decimals (Asset.quantity asset) "quantity") ;;
     liftResult (ensureMax8Decimals (Asset.availableQuantity asset) "availableQuantity") ;;
     updateWhereAssetId (Asset.assetId asset) (fun r =>
       Asset.mk (Asset.assetId r) (Asset.assetName r) (Asset.price asset)
         (Asset.quantity asset) (Asset.availableQuantity asset) (Asset.account r)))
    (fun error => throw (InternalServerErrorException "asset update failed")).

Definition updateAssetQuantity (asset : Asset.t) : DB unit :=
  try_catch
    (liftResult (ensureMax8Decimals (Asset.quantity asset) "quantity") ;;
     updateWhereAssetId (Asset.assetId asset) (fun r =>
       Asset.mk (Asset.assetId r) (Asset.assetName r) (Asset.price r)
         (Asset.quantity asset) (Asset.availableQuantity r) (Asset.account r)))
    (fun error => throw (InternalServerErrorException "asset quantity update failed")).

Definition updateAssetAvailableQuantity (asset : Asset.t) : DB unit :=
  try_catch
    (liftResult (ensureMax8Decimals (Asset.availableQuantity asset) "availableQuantity") ;;
     updateWhereAssetId (Asset.assetId asset) (fun r =>
       Asset.mk (Asset.assetId r) (Asset.assetName r) (Asset.price r)
         (Asset.quantity r) (Asset.availableQuantity asset) (Asset.account r)))
    (fun error => throw (InternalServerErrorException "available quantity update failed")).

Definition updateAssetPrice (asset : Asset.t) : DB unit :=
  try_catch
    (liftResult (ensureMax8Decimals (Asset.price asset) "price") ;;
     liftResult (ensureMax8Decimals (Asset.quantity asset) "quantity") ;;
     updateWhereAssetId (Asset.assetId asset) (fun r =>
       Asset.mk (Asset.assetId r) (Asset.assetName r) (Asset.price asset)
         (Asset.quantity asset) (Asset.availableQuantity r) (Asset.account r)))
    (fun error => throw (InternalServerErrorException "asset price update failed")).

Definition getAsset (id : Z) (assetName : string) : DB (option Asset.t) :=
  try_catch
    (asset <- findOneAsset id assetName ;;
     ret asset)
    (fun error => throw (InternalServerErrorException "asset lookup failed")).

Definition getAssetWithQR (id : Z) (assetName : string) : DB (option Asset.t) :=
  try_catch
    (asset <- findOneAsset id assetName ;;
     ret asset)
    (fun error => throw (InternalServerErrorException "asset lookup failed")).

End AssetRepository.

(** ** asset/asset.repository.ts: the listing *)

(** dtos/asset.interface.ts: [Coin] *)
Record Coin : Type := mkCoin {
  coin_code : string;
  coin_price : number;
  coin_quantity : number }.

Section AssetListing.
Context `{Environment}.

(** [this.find({ where: { account: { id: accountId } } })] *)
Definition findAssets (accountId : Z) : DB (list Asset.t) :=
  storage OpFindAsset ;;
  rows <- get ;;
  ret (List.filter (fun r => (Asset.account r =? accountId)%Z) (assets rows)).

Definition getAssets (accountId : Z) : DB (list Coin) :=
  try_catch
    (assets <- findAssets accountId ;;
     let assetsWithPrices :=
       map (fun asset => mkCoin ("KRW-" +:+ Asset.assetName asset) (Asset.price asset)
                           (Asset.quantity asset))
           assets in
     ret assetsWithPrices)
    (fun error => throw (InternalServerErrorException "asset price lookup failed")).

End AssetListing.

(** ** The world of the bid service *)

(** A promise that was started and never awaited. *)
Inductive Task : Type :=
| CreateTradeHistory (user : User.t) (buyData : Trade.t)
| ProcessAssetUpdate (bidDto : TradeData.t) (accountId : Z) (buyData : Trade.t)
| UpdateAccountBalances (bidDto : TradeData.t) (buyData : Trade.t) (userAccount : Account.t).

Record World : Type := mkWorld {
  isProcessing : gmap Z bool;          (* BidService.isProcessing *)
  db : Tables;                          (* committed rows *)
  tradeHistory : list (User.t * Trade.t);
  redis : list TradeDataRedis;
  bidDtoAccountBalance : gmap Z number; (* bidDto.accountBalance, per order *)
  bidDtoAccount : gmap Z Account.t;     (* bidDto.account, per order *)
  detached : list Task;                 (* promises nobody awaits, oldest first *)
  unhandledRejections : list exn;
  console : list exn;
  abandoned : list Tables }.            (* writes left uncommitted on a released connection *)

Definition set_isProcessing (f : gmap Z bool -> gmap Z bool) (w : World) : World :=
  mkWorld (f (isProcessing w)) (db w) (tradeHistory w) (redis w) (bidDtoAccountBalance w)
    (bidDtoAccount w) (detached w) (unhandledRejections w) (console w)
    (abandoned w).
Definition set_db (rows : Tables) (w : World) : World :=
  mkWorld (isProcessing w) rows (tradeHistory w) (redis w) (bidDtoAccountBalance w)
    (bidDtoAccount w) (detached w) (unhandledRejections w) (console w)
    (abandoned w).
Definition set_tradeHistory (h : list (User.t * Trade.t)) (w : World) : World :=
  mkWorld (isProcessing w) (db w) h (redis w) (bidDtoAccountBalance w)
    (bidDtoAccount w) (detached w) (unhandledRejections w) (console w)
    (abandoned w).
Definition set_redis (r : list TradeDataRedis) (w : World) : World :=
  mkWorld (isProcessing w) (db w) (tradeHistory w) r (bidDtoAccountBalance w)
    (bidDtoAccount w) (detached w) (unhandledRejections w) (console w)
    (abandoned w).
Definition set_bidDtoAccountBalance (f : gmap Z number -> gmap Z number) (w : World) : World :=
  mkWorld (isProcessing w) (db w) (tradeHistory w) (redis w) (f (bidDtoAccountBalance w))
    (bidDtoAccount w) (detached w) (unhandledRejections w) (console w)
    (abandoned w).
Definition set_bidDtoAccount (f : gmap Z Account.t -> gmap Z Account.t) (w : World) : World :=
  mkWorld (isProcessing w) (db w) (tradeHistory w) (redis w) (bidDtoAccountBalance w)
    (f (bidDtoAccount w)) (detached w) (unhandledRejections w) (console w)
    (abandoned w).
Definition set_detached (d : list Task) (w : World) : World :=
  mkWorld (isProcessing w) (db w) (tradeHistory w) (redis w) (bidDtoAccountBalance w)
    (bidDtoAccount w) d (unhandledRejections w) (console w)
    (abandoned w).
Definition set_unhandledRejections (u : list exn) (w : World) : World :=
  mkWorld (isProcessing w) (db w) (tradeHistory w) (redis w) (bidDtoAccountBalance w)
    (bidDtoAccount w) (detached w) u (console w) (abandoned w).
Definition set_console (c : list exn) (w : World) : World :=
  mkWorld (isProcessing w) (db w) (tradeHistory w) (redis w) (bidDtoAccountBalance w)
    (bidDtoAccount w) (detached w) (unhandledRejections w) c (abandoned w).
Definition set_abandoned (a : list Tables) (w : World) : World :=
  mkWorld (isProcessing w) (db w) (tradeHistory w) (redis w) (bidDtoAccountBalance w)
    (bidDtoAccount w) (detached w) (unhandledRejections w) (console w) a.

(** A repository call made without a query runner: one statement on the
    committed rows. *)
Definition autocommit {A} (stmt : DB A) : M World A :=
  fun w => let '(r, rows) := stmt (db w) in (r, set_db rows w).

(** *** The query runner

    A query runner is one connection.  While its transaction is open its
    statements see the committed rows as they were when the transaction
    started together with what the transaction itself wrote, in [view];
    [commitTransaction] makes the view the committed rows,
    [rollbackTransaction] drops it.  [release] hands the connection back to
    the pool as it is: a transaction that is still open then stays open on
    it, and what it wrote, neither committed nor undone, is kept in
    [abandoned]. *)
Record QueryRunner : Type := mkQueryRunner {
  isTransactionActive : bool;
  view : Tables;
  hasWritten : bool }.        (* a writing statement was issued in the open transaction *)

(** The state of a method that holds a query runner. *)
Definition Session : Type := (World * QueryRunner)%type.

(** What the method does to the world meanwhile. *)
Definition onWorld {A} (m : M World A) : M Session A :=
  fun s => let '(r, w') := m (fst s) in (r, (w', snd s)).

(** [const queryRunner = this.dataSource.createQueryRunner();
    await queryRunner.connect()]: the rest of the method runs with a query
    runner of its own. *)
Definition withQueryRunner {A} (body : M Session A) : M World A :=
  fun w => let '(r, s) := body (w, mkQueryRunner false (db w) false) in (r, fst s).

(** [queryRunner.startTransaction('READ COMMITTED')] *)
Definition startTransaction : M Session unit :=
  fun s => (Ok tt, (fst s, mkQueryRunner true (db (fst s)) false)).

(** A reading repository call made with the query runner. *)
Definition queryOn {A} (stmt : DB A) : M Session A :=
  fun s => (fst (stmt (view (snd s))), s).

(** A writing repository call made with the query runner: it changes the
    view only. *)
Definition executeOn {A} (stmt : DB A) : M Session A :=
  fun s => let '(r, rows) := stmt (view (snd s)) in
           (r, (fst s, mkQueryRunner (isTransactionActive (snd s)) rows true)).

(** A commit that fails leaves the transaction open. *)
Definition commitTransaction `{Environment} : M Session unit :=
  fun s => if storageFails OpCommit (view (snd s)) then (Err (Error "DB Error"), s)
           else (Ok tt, (set_db (view (snd s)) (fst s),
                         mkQueryRunner false (view (snd s)) false)).

Definition rollbackTransaction : M Session unit :=
  fun s => (Ok tt, (fst s, mkQueryRunner false (db (fst s)) false)).

Definition release : M Session unit :=
  fun s => if isTransactionActive (snd s) && hasWritten (snd s)
           then (Ok tt, (set_abandoned (abandoned (fst s) ++ [view (snd s)]) (fst s), snd s))
           else (Ok tt, s).

(** Calling an [async] method without [await]. *)
Definition spawn (t : Task) : M World unit :=
  modify (fun w => set_detached (detached w ++ [t]) w).

Definition consoleLog (error : exn) : M World unit :=
  modify (fun w => set_console (console w ++ [error]) w).

(** [this.isProcessing[tradeId]] in a condition. *)
Definition truthy (v : option bool) : bool :=
  match v with Some true => true | _ => false end.

(** ** Collaborators of the bid service that are not among the sources *)

Section Collaborators.
Context `{Environment}.

(** Modelled from the spec: Order Store [lockAndLoad(orderId) -> Order |
    not-found] ([TradeRepository.findTradeWithLock] is absent). *)
Definition findTradeWithLock (tradeId : Z) : DB (option Trade.t) :=
  storage OpFindTradeWithLock ;;
  rows <- get ;;
  ret (find (fun r => (Trade.tradeId r =? tradeId)%Z) (trades rows)).

(** Modelled from the spec: step 4.3.d, "update the order's remaining
    quantity by subtracting the fill quantity, persist inside the same
    transaction", and the Order lifecycle, "terminal when remaining quantity
    drops below the minimum-fillable threshold ... removed from future
    matching cycles" ([TradeAskBidService.updateTradeData] is absent).  The
    result is the remaining quantity. *)
Definition updateTradeData (tradeData buyData : Trade.t) : DB number :=
  let remaining := formatQuantity (sub (Trade.quantity tradeData) (Trade.quantity buyData)) in
  storage OpUpdateTrade ;;
  modify (fun rows =>
    set_trades
      (if isMinimumQuantity remaining then
         List.filter (fun r => negb (Trade.tradeId r =? Trade.tradeId tradeData)%Z)
                     (trades rows)
       else
         map (fun r => if (Trade.tradeId r =? Trade.tradeId tradeData)%Z
                       then Trade.set_quantity remaining r else r)
             (trades rows))
      rows) ;;
  ret remaining.

(** Modelled from the spec: Order Store [insertPending(order)]
    ([TradeRepository.createTrade] is absent). *)
Definition nextTradeId (rows : list Trade.t) : Z :=
  (1 + fold_right Z.max 0 (map Trade.tradeId rows))%Z.

Definition createTrade (bidDto : TradeData.t) (userId : Z) (tradeType : string)
    : DB Trade.t :=
  storage OpInsertTrade ;;
  rows <- get ;;
  let row :=
    Trade.mk (nextTradeId (trades rows)) userId tradeType (TradeData.typeGiven bidDto)
      (TradeData.typeReceived bidDto) (TradeData.receivedPrice bidDto)
      (TradeData.receivedAmount bidDto) in
  modify (set_trades (trades rows ++ [row])) ;;
  ret row.

(** Modelled from the spec: "re-validate the owner's account exists"
    (section 4.4), and from test/account/account.service.spec.ts, where a
    missing account is an UnprocessableEntityException
    ([AccountRepository.validateUserAccount] is absent). *)
Definition validateUserAccount (userId : Z) : DB Account.t :=
  storage OpGetAccount ;;
  rows <- get ;;
  match find (fun a => (Account.user a =? userId)%Z) (accounts rows) with
  | Some account => ret account
  | None => throw (UnprocessableEntityException "user account not found")
  end.

(** Modelled from the spec: Balance Ledger [getAccount]: the owner's row, or
    nothing ([AccountRepository.getAccount] is absent). *)
Definition getAccount (userId : Z) : DB (option Account.t) :=
  storage OpGetAccount ;;
  rows <- get ;;
  ret (find (fun a => (Account.user a =? userId)%Z) (accounts rows)).

Definition updateAccountRow (accountId : Z) (f : Account.t -> option Account.t)
    : DB unit :=
  rows <- get ;;
  match find (fun a => (Account.id a =? accountId)%Z) (accounts rows) with
  | None => ret tt
  | Some a =>
      match f a with
      | None => throw (Error "unknown column")
      | Some a' =>
          modify (set_accounts
            (map (fun r => if (Account.id r =? accountId)%Z then a' else r)
                 (accounts rows)))
      end
  end.

(** Modelled from the spec: Balance Ledger [adjustAvailable / adjustTotal
    (accountId, currency, delta)], a signed delta on one column; the delta is
    checked for 8 decimals as test/account/account.service.spec.ts expects
    ([AccountRepository.updateAccountCurrency] is absent). *)
Definition updateAccountCurrency (typeGiven : string) (change : number) (accountId : Z)
    : DB unit :=
  liftResult (ensureMax8Decimals change "change") ;;
  storage OpUpdateAccount ;;
  updateAccountRow accountId (Account.increase add typeGiven change).

(** Modelled from the spec: Balance Ledger [adjustTotal] and
    [adjustAvailable] in one statement: [change] goes to the total column
    named by [typeGiven], [availableChange] to the available balance
    ([AccountRepository.updateAccountCurrencyWithBid] is absent). *)
Definition updateAccountCurrencyWithBid (typeGiven : string)
    (change availableChange : number) (accountId : Z) : DB unit :=
  storage OpUpdateAccount ;;
  updateAccountRow accountId (fun a =>
    match Account.increase add typeGiven change a with
    | Some a' => Account.increase add "availableKRW" availableChange a'
    | None => None
    end).

(** Modelled from the spec: the owner of an order, looked up once per
    attempt ([UserRepository.getUser] is absent). *)
Definition getUser (userId : Z) : DB User.t :=
  storage OpGetUser ;;
  ret (User.mk userId).

(** Modelled from the spec: History Recorder [append(fill)]
    ([TradeHistoryRepository.createTradeHistory] is absent).  The time stamp
    is left out. *)
Definition createTradeHistory (user : User.t) (buyData : Trade.t) : M World unit :=
  autocommit (storage OpCreateTradeHistory) ;;
  modify (fun w => set_tradeHistory (tradeHistory w ++ [(user, buyData)]) w).

(** Modelled from the spec: "publish a lightweight order-created fact"
    (section 4.4) ([RedisRepository.createTrade] is absent). *)
Definition redisCreateTrade (tradeData : TradeDataRedis) : M World unit :=
  autocommit (storage OpRedis) ;;
  modify (fun w => set_redis (redis w ++ [tradeData]) w).

(** Modelled from the spec: "inside one transaction ..." (section 4.4): the
    callback's writes are committed together, or dropped together when it
    throws, and the error is passed on
    ([TradeAskBidService.executeTransaction] is absent). *)
Definition executeTransaction {A} (callback : DB A) : M World A :=
  withQueryRunner
    (startTransaction ;;
     try_finally
       (try_catch
          (r <- executeOn callback ;;
           commitTransaction ;;
           ret r)
          (fun error => rollbackTransaction ;; throw error))
       release).

End Collaborators.

(** ** trade/trade-bid.service.ts *)

Section BidService.
Context `{Environment}.

Definition checkCurrencyBalance (bidDto : TradeData.t) (account : Account.t)
    : Result number :=
  let receivedPrice := TradeData.receivedPrice bidDto in
  let receivedAmount := TradeData.receivedAmount bidDto in
  let balance := Account.availableKRW account in
  let givenAmount := formatQuantity (mul receivedPrice receivedAmount) in
  let remaining := formatQuantity (sub balance givenAmount) in
  if ltb remaining zero then Err (UnprocessableEntityException "insufficient assets")
  else Ok remaining.

(** The callback handed to [executeTransaction]; [userTrade], which the
    source assigns to a variable of the enclosing function, is returned next
    to the response. *)
Definition createBidTradeCallback (userId : Z) (bidDto : TradeData.t)
    : DB (Trade.t * TradeResponse) :=
  (if leb (TradeData.receivedAmount bidDto) zero
   then throw (BadRequestException "quantity must be greater than 0")
   else ret tt) ;;
  userAccount <- validateUserAccount userId ;;
  liftResult (checkCurrencyBalance bidDto userAccount) ;;
  let receivedPrice := TradeData.receivedPrice bidDto in
  let receivedAmount := TradeData.receivedAmount bidDto in
  updateAccountCurrency "availableKRW"
    (neg (formatQuantity (mul receivedPrice receivedAmount)))
    (Account.id userAccount) ;;
  userTrade <- createTrade bidDto userId TRADE_TYPES_BUY ;;
  ret (userTrade, mkTradeResponse 200 "trade registered").

(** [Ok None] is a promise resolved with [undefined]. *)
Definition createBidTrade (userId : Z) (bidDto : TradeData.t)
    : M World (option TradeResponse) :=
  if isMinimumQuantity (mul (TradeData.receivedAmount bidDto) (TradeData.receivedPrice bidDto))
  then throw (BadRequestException "below the minimum trade amount")
  else
    try_catch
      (r <- executeTransaction (createBidTradeCallback userId bidDto) ;;
       let userTrade := fst r in
       let transactionResult := snd r in
       (if (statusCode transactionResult =? 200)%Z then
          redisCreateTrade
            (mkTradeDataRedis (Trade.tradeId userTrade) userId TRADE_TYPES_BUY
               (TradeData.typeGiven bidDto) (TradeData.typeReceived bidDto)
               (TradeData.receivedPrice bidDto) (TradeData.receivedAmount bidDto))
        else ret tt) ;;
       ret (Some transactionResult))
      (fun error => consoleLog error ;; ret None).

Definition processAssetUpdate (bidDto : TradeData.t) (accountId : Z) (buyData : Trade.t)
    : M World unit :=
  asset <- autocommit (getAsset accountId (TradeData.typeReceived bidDto)) ;;
  match asset with
  | Some asset =>
      let price :=
        formatQuantity (add (Asset.price asset)
                            (mul (Trade.price buyData) (Trade.quantity buyData))) in
      let quantity := formatQuantity (add (Asset.quantity asset) (Trade.quantity buyData)) in
      let availableQuantity :=
        formatQuantity (add (Asset.availableQuantity asset) (Trade.quantity buyData)) in
      autocommit (updateAssetQuantityPrice
        (Asset.mk (Asset.assetId asset) (Asset.assetName asset) price quantity
           availableQuantity (Asset.account asset)))
  | None =>
      w <- get ;;
      match bidDtoAccount w !! TradeData.tradeId bidDto with
      | None => throw (TypeError "Cannot read properties of undefined (reading 'id')")
      | Some account =>
          autocommit (createAsset (TradeData.typeReceived bidDto) account
            (formatQuantity (mul (Trade.price buyData) (Trade.quantity buyData)))
            (formatQuantity (Trade.quantity buyData))) ;;
          ret tt
      end
  end.

Definition updateAccountBalances (bidDto : TradeData.t) (buyData : Trade.t)
    (userAccount : Account.t) : M World unit :=
  let typeGiven := TradeData.typeGiven bidDto in
  let returnChange := formatQuantity (mul (Trade.price buyData) (Trade.quantity buyData)) in
  let change :=
    formatQuantity (mul (sub (TradeData.receivedPrice bidDto) (Trade.price buyData))
                        (Trade.quantity buyData)) in
  autocommit (updateAccountCurrencyWithBid typeGiven (neg returnChange) change
                (Account.id userAccount)).

(** The two statements after the commit that change [bidDto.account]. *)
Definition settleInMemory (bidDto : TradeData.t) (buyData : Trade.t) (account : Account.t)
    : Account.t :=
  let account1 :=
    Account.set_availableKRW
      (add (Account.availableKRW account)
           (formatQuantity (mul (sub (TradeData.receivedPrice bidDto) (Trade.price buyData))
                                (Trade.quantity buyData))))
      account in
  Account.set_KRW
    (sub (Account.KRW account1)
         (formatQuantity (mul (Trade.price buyData) (Trade.quantity buyData))))
    account1.

(** [buyData] of [executeBidTrade]: the locked row with the fill quantity
    and the fill price. *)
Definition makeBuyData (bidDto : TradeData.t) (order : OrderBookEntry.t)
    (tradeData : Trade.t) : Trade.t :=
  let ask_price := OrderBookEntry.ask_price order in
  let ask_size := OrderBookEntry.ask_size order in
  let krw := TradeData.krw bidDto in
  let quantity :=
    formatQuantity (if geb (Trade.quantity tradeData) ask_size then ask_size
                    else Trade.quantity tradeData) in
  Trade.set_price (formatQuantity (mul ask_price krw))
    (Trade.set_quantity quantity tradeData).

Definition executeBidTrade (bidDto : TradeData.t) (order : OrderBookEntry.t)
    (user : User.t) : M World number :=
  withQueryRunner
    (startTransaction ;;
     try_finally
       (try_catch
          (tradeData <- queryOn (findTradeWithLock (TradeData.tradeId bidDto)) ;;
           match tradeData with
           | None => ret zero
           | Some tradeData =>
               if isMinimumQuantity (Trade.quantity tradeData) then ret zero
               else
                 let buyData := makeBuyData bidDto order tradeData in
                 if isMinimumQuantity (Trade.quantity buyData) then ret zero
                 else
                   onWorld (spawn (CreateTradeHistory user buyData)) ;;
                   result <- executeOn (updateTradeData tradeData buyData) ;;
                   commitTransaction ;;
                   w <- onWorld get ;;
                   match bidDtoAccount w !! TradeData.tradeId bidDto with
                   | None =>
                       throw (TypeError
                         "Cannot read properties of undefined (reading 'availableKRW')")
                   | Some account =>
                       let account' := settleInMemory bidDto buyData account in
                       onWorld (modify (set_bidDtoAccount
                                          (<[TradeData.tradeId bidDto := account']>))) ;;
                       onWorld (spawn (ProcessAssetUpdate bidDto (Account.id account')
                                         buyData)) ;;
                       onWorld (spawn (UpdateAccountBalances bidDto buyData account')) ;;
                       ret result
                   end
           end)
          (fun error => rollbackTransaction ;; throw error))
       release).

(** *** Suspension points

    At an [await] the method is suspended until the awaited call has settled,
    and whatever else is ready runs in between: [meanwhile] stands for it.
    It runs before and after the awaited call takes effect, and what it
    returns or throws does not reach the suspended method. *)
Section Meanwhile.
Variable meanwhile : M World unit.

Definition await {A} (m : M World A) : M World A :=
  fun w => let '(r, w') := m (snd (meanwhile w)) in (r, snd (meanwhile w')).

(** One turn of [for (const order of orderbook)]: [true] is [break]. *)
Definition bidLevelAmid (bidDto : TradeData.t) (user : User.t) (order : OrderBookEntry.t)
    : M World bool :=
  try_catch
    (if gtb (OrderBookEntry.ask_price order) (TradeData.receivedPrice bidDto) then ret true
     else
       remainingQuantity <- await (executeBidTrade bidDto order user) ;;
       let tradeResult := negb (isMinimumQuantity remainingQuantity) in
       if negb tradeResult then ret true else ret false)
    (fun error => if instanceofTradeNotFound error then ret true else throw error).

Fixpoint bidLoopAmid (bidDto : TradeData.t) (user : User.t)
    (orderbook : list OrderBookEntry.t) : M World unit :=
  match orderbook with
  | [] => ret tt
  | order :: rest =>
      stop <- bidLevelAmid bidDto user order ;;
      if stop then ret tt else bidLoopAmid bidDto user rest
  end.

(** The body of the outer [try] of [bidTradeService]. *)
Definition bidAttemptAmid (bidDto : TradeData.t) : M World unit :=
  let userId := TradeData.userId bidDto in
  let typeGiven := TradeData.typeGiven bidDto in
  let orderbook := getCoinOrderbookByBid bidDto in
  user <- await (autocommit (getUser (TradeData.userId bidDto))) ;;
  account <- await (autocommit (getAccount userId)) ;;
  match account with
  | None => throw (TypeError "Cannot read properties of null")
  | Some account =>
      modify (set_bidDtoAccountBalance (fun m =>
        match Account.get account typeGiven with
        | Some v => <[TradeData.tradeId bidDto := v]> m
        | None => delete (TradeData.tradeId bidDto) m
        end)) ;;
      modify (set_bidDtoAccount (<[TradeData.tradeId bidDto := account]>)) ;;
      bidLoopAmid bidDto user orderbook
  end.

Definition bidTradeServiceAmid (bidDto : TradeData.t) : M World unit :=
  w <- get ;;
  if truthy (isProcessing w !! TradeData.tradeId bidDto) then ret tt
  else
    modify (set_isProcessing (<[TradeData.tradeId bidDto := true]>)) ;;
    try_finally
      (bidAttemptAmid bidDto)
      (modify (set_isProcessing (delete (TradeData.tradeId bidDto)))).

End Meanwhile.

(** The same methods when nothing else runs while they are suspended. *)
Definition bidLevel (bidDto : TradeData.t) (user : User.t) (order : OrderBookEntry.t)
    : M World bool :=
  bidLevelAmid (ret tt) bidDto user order.

Definition bidLoop (bidDto : TradeData.t) (user : User.t)
    (orderbook : list OrderBookEntry.t) : M World unit :=
  bidLoopAmid (ret tt) bidDto user orderbook.

Definition bidAttempt (bidDto : TradeData.t) : M World unit :=
  bidAttemptAmid (ret tt) bidDto.

Definition bidTradeService (bidDto : TradeData.t) : M World unit :=
  bidTradeServiceAmid (ret tt) bidDto.

(** *** The event loop's part: promises nobody awaits *)

Definition runTask (t : Task) : M World unit :=
  match t with
  | CreateTradeHistory user buyData => createTradeHistory user buyData
  | ProcessAssetUpdate bidDto accountId buyData => processAssetUpdate bidDto accountId buyData
  | UpdateAccountBalances bidDto buyData userAccount =>
      updateAccountBalances bidDto buyData userAccount
  end.

(** A detached promise that rejects has no handler: the rejection is
    recorded and goes nowhere else. *)
Definition settleTask (t : Task) (w : World) : World :=
  match runTask t w with
  | (Ok _, w') => w'
  | (Err e, w') => set_unhandledRejections (unhandledRejections w' ++ [e]) w'
  end.

(** Runs the detached promises, oldest first. *)
Definition settle (w : World) : World :=
  fold_left (fun w t => settleTask t w) (detached w) (set_detached [] w).

End BidService.

(** ** trade/worker-pool.service.ts *)

Module WorkerPool.
Section Pool.
(** [user], [taskData] and what a worker sends back are [any] in the
    source. *)
Context {UserT TaskData Reply : Type}.

(** What [postMessage] hands to a worker: [{ user, data: taskData }] from
    [executeTask], or [task.data] from the 'message' listener. *)
Inductive Message : Type :=
| UserAndData (user : UserT) (data : TaskData)
| DataOnly (data : TaskData).

(** The worker script is outside the pool: a worker answers the messages
    posted to it one at a time, oldest first, with [work message]. *)
Context (work : Message -> Reply).

(** An entry of [taskQueue]; [promise] stands for the [resolve] and [reject]
    of the promise [executeTask] returned for it. *)
Record QueuedTask : Type := mkQueuedTask {
  task_user : UserT;
  task_data : TaskData;
  task_promise : nat }.

Inductive Settlement : Type :=
| Resolved (value : Reply)
| Rejected (error : string).

Record Pool : Type := mkPool {
  pool : list nat;                       (* idle workers; push and pop at the end *)
  taskQueue : list QueuedTask;           (* push at the end, shift at the front *)
  inbox : gmap nat (list Message);       (* posted to a worker, not yet answered *)
  onMessageResolve : gmap nat (list nat);(* worker.on('message', resolve), per worker *)
  onErrorReject : gmap nat (list nat);   (* worker.on('error', reject), per worker *)
  promises : gmap nat Settlement;        (* settled promises *)
  nextPromise : nat }.

(** After the constructor: [createWorker] registers listeners and does not
    put the worker into [pool]. *)
Definition init : Pool := mkPool [] [] ∅ ∅ ∅ ∅ 0.

Definition postMessage (worker : nat) (m : Message) (s : Pool) : Pool :=
  mkPool (pool s) (taskQueue s)
    (<[worker := default [] (inbox s !! worker) ++ [m]]> (inbox s))
    (onMessageResolve s) (onErrorReject s) (promises s) (nextPromise s).

(** A promise settles once; later calls of [resolve] or [reject] do nothing. *)
Definition settlePromise (p : nat) (v : Settlement) (s : Pool) : Pool :=
  match promises s !! p with
  | Some _ => s
  | None =>
      mkPool (pool s) (taskQueue s) (inbox s) (onMessageResolve s) (onErrorReject s)
        (<[p := v]> (promises s)) (nextPromise s)
  end.

(** [Array.prototype.pop] *)
Definition pop {A} (l : list A) : option A * list A :=
  match rev l with
  | [] => (None, [])
  | x :: r => (Some x, rev r)
  end.

(** [executeTask(user, taskData)]; the result is the promise. *)
Definition executeTask (user : UserT) (taskData : TaskData) (s : Pool) : nat * Pool :=
  let p := nextPromise s in
  let s := mkPool (pool s) (taskQueue s) (inbox s) (onMessageResolve s) (onErrorReject s)
             (promises s) (S p) in
  match pop (pool s) with
  | (Some availableWorker, rest) =>
      let s := mkPool rest (taskQueue s) (inbox s) (onMessageResolve s) (onErrorReject s)
                 (promises s) (nextPromise s) in
      let s := postMessage availableWorker (UserAndData user taskData) s in
      (p, mkPool (pool s) (taskQueue s) (inbox s)
            (<[availableWorker := default [] (onMessageResolve s !! availableWorker) ++ [p]]>
               (onMessageResolve s))
            (<[availableWorker := default [] (onErrorReject s !! availableWorker) ++ [p]]>
               (onErrorReject s))
            (promises s) (nextPromise s))
  | (None, _) =>
      (p, mkPool (pool s) (taskQueue s ++ [mkQueuedTask user taskData p]) (inbox s)
            (onMessageResolve s) (onErrorReject s) (promises s) (nextPromise s))
  end.

(** The listener [createWorker] registers for 'message'. *)
Definition poolOnMessage (worker : nat) (result : Reply) (s : Pool) : Pool :=
  match taskQueue s with
  | task :: rest =>
      let s := mkPool (pool s) rest (inbox s) (onMessageResolve s) (onErrorReject s)
                 (promises s) (nextPromise s) in
      let s := postMessage worker (DataOnly (task_data task)) s in
      settlePromise (task_promise task) (Resolved result) s
  | [] =>
      mkPool (pool s ++ [worker]) (taskQueue s) (inbox s) (onMessageResolve s)
        (onErrorReject s) (promises s) (nextPromise s)
  end.

(** A 'message' event on [worker]: the listeners run in the order they were
    registered, [createWorker]'s first. *)
Definition emitMessage (worker : nat) (result : Reply) (s : Pool) : Pool :=
  let s := poolOnMessage worker result s in
  fold_left (fun s p => settlePromise p (Resolved result) s)
            (default [] (onMessageResolve s !! worker)) s.

(** An 'error' event on [worker]: [createWorker]'s listener only logs. *)
Definition emitError (worker : nat) (error : string) (s : Pool) : Pool :=
  fold_left (fun s p => settlePromise p (Rejected error) s)
            (default [] (onErrorReject s !! worker)) s.

Inductive Event : Type :=
| Submit (user : UserT) (taskData : TaskData)  (* a caller invokes executeTask *)
| Announce (worker : nat) (value : Reply)      (* a 'message' that answers no posted task *)
| Answer (worker : nat)                        (* the worker answers its oldest message *)
| Crash (worker : nat) (error : string).       (* an 'error' event *)

Definition step (s : Pool) (ev : Event) : Pool :=
  match ev with
  | Submit user taskData => snd (executeTask user taskData s)
  | Announce worker value => emitMessage worker value s
  | Answer worker =>
      match default [] (inbox s !! worker) with
      | [] => s
      | m :: rest =>
          emitMessage worker (work m)
            (mkPool (pool s) (taskQueue s) (<[worker := rest]> (inbox s))
               (onMessageResolve s) (onErrorReject s) (promises s) (nextPromise s))
      end
  | Crash worker error => emitError worker error s
  end.

Definition run (events : list Event) (s : Pool) : Pool := fold_left step events s.

End Pool.
End WorkerPool.

(** ** A concrete environment for worked examples *)

(** Modelled from the spec: FixedPoint Rules [truncate]: "truncates to at
    most 8 fractional digits" ([formatQuantity] of trade.helper.ts is absent).
    On NaN and the infinities, where the spec's [truncate] fails, this total
    function is the identity; the examples apply it to finite values only. *)
Definition truncate8 (x : number) : number :=
  match x with
  | Finite m e => if (e <? -8)%Z then Finite (Z.quot m (10 ^ (-8 - e))) (-8) else x
  | _ => x
  end.

(** Modelled from the spec: FixedPoint Rules [isBelowMinimumFillable]:
    "quantities under a configured epsilon are treated as dust", with the
    epsilon 0.00000001 of the spec's example ([isMinimumQuantity] of
    trade.helper.ts is absent). *)
Definition belowEpsilon (quantity : number) : bool := ltb quantity (Finite 1 (-8)).

(** Truncation to 8 digits, epsilon 1e-8, a fixed order book, and a storage
    layer that never fails. *)
Definition calmMarket (book : list OrderBookEntry.t) : Environment :=
  {| add := JS.add;
     mul := JS.mul;
     formatQuantity := truncate8;
     isMinimumQuantity := belowEpsilon;
     getCoinOrderbookByBid := fun _ => book;
     storageFails := fun _ _ => false |}.

(** The same, with the storage layer failing on the calls [broken] names. *)
Definition roughMarket (book : list OrderBookEntry.t) (broken : StorageOp -> bool)
    : Environment :=
  {| add := JS.add;
     mul := JS.mul;
     formatQuantity := truncate8;
     isMinimumQuantity := belowEpsilon;
     getCoinOrderbookByBid := fun _ => book;
     storageFails := fun op _ => broken op |}.

(** ** Vocabulary of the properties *)

(** The [n] of Number::toString: the value [m * 10^e] is [0.d1d2...dk * 10^n]
    for its significand digits [d1 ... dk]. *)
Definition decimalExponent (m e : Z) : Z :=
  let '(s, z) := significand m in (e + z + Z.of_nat (length s))%Z.

Definition isDigit (c : ascii) : bool :=
  existsb (Ascii.eqb c) (list_ascii_of_string "0123456789").

Definition notPoint (c : ascii) : bool := negb (Ascii.eqb c "."%char).

(** The levels of a snapshot an order with limit price [limit] can reach: the
    ones before the first level whose ask price exceeds the limit. *)
Fixpoint eligibleLevels (limit : number) (book : list OrderBookEntry.t)
    : list OrderBookEntry.t :=
  match book with
  | [] => []
  | level :: rest =>
      if gtb (OrderBookEntry.ask_price level) limit then []
      else level :: eligibleLevels limit rest
  end.

(** [m] is the smaller of [a] and [b]. *)
Definition isMinOf (m a b : number) : Prop :=
  (m = a \/ m = b) /\ leb m a = true /\ leb m b = true.

(** The fills among a list of detached promises: the [buyData] handed to the
    history recorder. *)
Definition fillsOf (tasks : list Task) : list Trade.t :=
  omap (fun t => match t with CreateTradeHistory _ buyData => Some buyData | _ => None end)
       tasks.



(** Two environments that differ at most in the storage layer's verdict on
    the calls of the post-commit reconciliation (asset look-up and upsert,
    ledger update, history append). *)
Definition sameUpToReconciliation (E1 E2 : Environment) : Prop :=
  @add E1 = @add E2 /\
  @mul E1 = @mul E2 /\
  @formatQuantity E1 = @formatQuantity E2 /\
  @isMinimumQuantity E1 = @isMinimumQuantity E2 /\
  @getCoinOrderbookByBid E1 = @getCoinOrderbookByBid E2 /\
  forall op rows,
    op <> OpFindAsset -> op <> OpSaveAsset -> op <> OpUpdateAsset ->
    op <> OpUpdateAccount -> op <> OpCreateTradeHistory ->
    @storageFails E1 op rows = @storageFails E2 op rows.

(** What one call of [executeBidTrade] can come to. *)

Section FillOutcomes.
Context `{Environment}.

(** The row of the order in the [trades] table. *)
Definition orderRow (bidDto : TradeData.t) (rows : Tables) : option Trade.t :=
  find (fun r => (Trade.tradeId r =? TradeData.tradeId bidDto)%Z) (trades rows).

(** The remaining quantity of the order after the fill [buyData]. *)
Definition remainingAfter (tradeData buyData : Trade.t) : number :=
  formatQuantity (sub (Trade.quantity tradeData) (Trade.quantity buyData)).

(** The tables after the order's row took the fill [buyData]. *)
Definition rowsAfterFill (tradeData buyData : Trade.t) (rows : Tables) : Tables :=
  set_trades
    (if isMinimumQuantity (remainingAfter tradeData buyData) then
       List.filter (fun r => negb (Trade.tradeId r =? Trade.tradeId tradeData)%Z)
                   (trades rows)
     else
       map (fun r => if (Trade.tradeId r =? Trade.tradeId tradeData)%Z
                     then Trade.set_quantity (remainingAfter tradeData buyData) r else r)
           (trades rows))
    rows.

(** Only the history append was started. *)
Definition withHistory (user : User.t) (buyData : Trade.t) (w : World) : World :=
  set_detached (detached w ++ [CreateTradeHistory user buyData]) w.

(** The fill is committed, [bidDto.account] is [account'] and the three
    detached promises are started. *)
Definition worldAfterFill (bidDto : TradeData.t) (user : User.t) (buyData : Trade.t)
    (rows : Tables) (account' : Account.t) (w : World) : World :=
  set_detached
    (detached w ++ [CreateTradeHistory user buyData;
                    ProcessAssetUpdate bidDto (Account.id account') buyData;
                    UpdateAccountBalances bidDto buyData account'])
    (set_bidDtoAccount (<[TradeData.tradeId bidDto := account']>) (set_db rows w)).

Inductive FillOutcome (bidDto : TradeData.t) (order : OrderBookEntry.t) (user : User.t)
    (w : World) : Result number * World -> Prop :=
| NothingToDo :
    FillOutcome bidDto order user w (Ok zero, w)
| LoadFailed e :
    storageFails OpFindTradeWithLock (db w) = true ->
    FillOutcome bidDto order user w (Err e, w)
| RolledBack tradeData e :
    orderRow bidDto (db w) = Some tradeData ->
    FillOutcome bidDto order user w
      (Err e, withHistory user (makeBuyData bidDto order tradeData) w)
| Filled tradeData account :
    orderRow bidDto (db w) = Some tradeData ->
    isMinimumQuantity (Trade.quantity tradeData) = false ->
    isMinimumQuantity (Trade.quantity (makeBuyData bidDto order tradeData)) = false ->
    bidDtoAccount w !! TradeData.tradeId bidDto = Some account ->
    FillOutcome bidDto order user w
      (Ok (remainingAfter tradeData (makeBuyData bidDto order tradeData)),
       worldAfterFill bidDto user (makeBuyData bidDto order tradeData)
         (rowsAfterFill tradeData (makeBuyData bidDto order tradeData) (db w))
         (settleInMemory bidDto (makeBuyData bidDto order tradeData) account) w)
| CommittedThenThrew tradeData e :
    orderRow bidDto (db w) = Some tradeData ->
    bidDtoAccount w !! TradeData.tradeId bidDto = None ->
    FillOutcome bidDto order user w
      (Err e, set_db (rowsAfterFill tradeData (makeBuyData bidDto order tradeData) (db w))
                (withHistory user (makeBuyData bidDto order tradeData) w)).

End FillOutcomes.

(** The world an attempt starts its walk in: [bidDto.accountBalance] and
    [bidDto.account] are assigned. *)
Definition withAccountContext (bidDto : TradeData.t) (account : Account.t) (w : World)
    : World :=
  set_bidDtoAccount (<[TradeData.tradeId bidDto := account]>)
    (set_bidDtoAccountBalance (fun m =>
       match Account.get account (TradeData.typeGiven bidDto) with
       | Some v => <[TradeData.tradeId bidDto := v]> m
       | None => delete (TradeData.tradeId bidDto) m
       end) w).

(** ** Scenarios *)

Definition level (price size : Z) : OrderBookEntry.t :=
  OrderBookEntry.mk (ofZ price) (ofZ size) (ofZ 0) (ofZ 0).

(** The snapshot of the price-crossing rule: levels at 9000, 9500 and 10000. *)
Definition book3 : list OrderBookEntry.t := [level 9000 1; level 9500 5; level 10000 2].

(** Order 7 of user 1: BUY 3 BTC at a limit of 9500 KRW. *)
Definition order7 : TradeData.t :=
  TradeData.mk 7 1 "KRW" "BTC" (ofZ 9500) (ofZ 3) (ofZ 1).
Definition row7 : Trade.t := Trade.mk 7 1 "buy" "KRW" "BTC" (ofZ 9500) (ofZ 3).

(** User 1's account 10 after 3 * 9500 KRW were reserved. *)
Definition account10 : Account.t :=
  Account.mk 10 1 (ofZ 1000000) (ofZ 971500) (ofZ 0) (ofZ 0).

Definition emptyWorld (rows : Tables) : World := mkWorld ∅ rows [] [] ∅ ∅ [] [] [] [].

Definition world7 : World := emptyWorld (mkTables [row7] [account10] []).

(** [world7] in the middle of an attempt on order 7: the guard is set and the
    account context is loaded. *)
Definition world7InFlight : World :=
  set_bidDtoAccount (<[7%Z := account10]>)
    (set_isProcessing (<[7%Z := true]>) world7).

(** User 2 holds 100 KRW and asks for 3 BTC at 9500. *)
Definition account20 : Account.t := Account.mk 20 2 (ofZ 100) (ofZ 100) (ofZ 0) (ofZ 0).
Definition request2 : TradeData.t :=
  TradeData.mk 0 2 "KRW" "BTC" (ofZ 9500) (ofZ 3) (ofZ 1).
Definition world20 : World := emptyWorld (mkTables [] [account20] []).

(** The storage layer refuses every call of the reconciliation. *)
Definition reconciliationDown (op : StorageOp) : bool :=
  match op with
  | OpFindAsset | OpSaveAsset | OpUpdateAsset | OpUpdateAccount | OpCreateTradeHistory => true
  | _ => false
  end.

(** A level of size 0.000000004 at 9000. *)
Definition thinLevel : OrderBookEntry.t :=
  OrderBookEntry.mk (ofZ 9000) (Finite 4 (-9)) (ofZ 0) (ofZ 0).

(** Order 8, which is in no table. *)
Definition order8 : TradeData.t :=
  TradeData.mk 8 1 "KRW" "BTC" (ofZ 9500) (ofZ 3) (ofZ 1).

(** ** Further vocabulary: the worker pool *)

Module PoolProps.
Import WorkerPool.
Section Vocabulary.
Context {UserT TaskData Reply : Type}.

(** No task waits while a worker is idle. *)
Definition noIdleWhileWaiting (s : @Pool UserT TaskData Reply) : Prop :=
  pool s = [] \/ taskQueue s = [].

(** Every promise the pool knows of was handed out by [executeTask]. *)
Definition knownPromises (s : @Pool UserT TaskData Reply) : Prop :=
  (forall w l, onMessageResolve s !! w = Some l -> Forall (fun p => p < nextPromise s) l) /\
  (forall w l, onErrorReject s !! w = Some l -> Forall (fun p => p < nextPromise s) l) /\
  Forall (fun task => task_promise task < nextPromise s) (taskQueue s) /\
  (forall p v, promises s !! p = Some v -> p < nextPromise s).

(** The promise [p] belongs to a task that went to the queue: it was handed
    out, no 'error' listener holds its [reject], and it is not rejected. *)
Definition neverRejected (p : nat) (s : @Pool UserT TaskData Reply) : Prop :=
  p < nextPromise s /\
  (forall w l, onErrorReject s !! w = Some l -> p ∉ l) /\
  (forall error, promises s !! p <> Some (Rejected error)).

(** An event that is not a 'message' of a worker. *)
Definition isSilent (ev : @Event UserT TaskData Reply) : bool :=
  match ev with
  | Submit _ _ | Crash _ _ => true
  | Announce _ _ | Answer _ => false
  end.

(** The task data of the [Submit] events, in order. *)
Definition submitted (events : list (@Event UserT TaskData Reply)) : list TaskData :=
  omap (fun ev => match ev with Submit _ data => Some data | _ => None end) events.

End Vocabulary.
End PoolProps.

(** ** Further vocabulary: the asset table *)

(** The condition of [getAsset]: the holding of [assetName] in account [id]. *)
Definition isHolding (id : Z) (assetName : string) (r : Asset.t) : bool :=
  (Asset.account r =? id)%Z && String.eqb (Asset.assetName r) assetName.

(** An error of the asset repository as its callers see it. *)
Definition isInternalServerError (e : exn) : bool :=
  match e with InternalServerErrorException _ => true | _ => false end.

(** The three columns [updateAssetQuantityPrice] writes. *)
Definition withAmounts (price quantity availableQuantity : number) (r : Asset.t) : Asset.t :=
  Asset.mk (Asset.assetId r) (Asset.assetName r) price quantity availableQuantity
    (Asset.account r).

(** What identifies the rows of the asset table: id, name and owner, row by
    row. *)
Definition assetKeys (rows : Tables) : list (Z * string * Z) :=
  map (fun r => (Asset.assetId r, Asset.assetName r, Asset.account r)) (assets rows).

(** How a call of the repository can fail: with an
    InternalServerErrorException, the tables being as they were. *)
Definition failsCleanly {A} (rows : Tables) (outcome : Result A * Tables) : Prop :=
  match outcome with
  | (Ok _, _) => True
  | (Err e, rows') => isInternalServerError e = true /\ rows' = rows
  end.

(** [rows'] differs from [rows] at most in the amounts of the asset rows
    whose id is [assetId]. *)
Definition touchesOnly (assetId : Z) (rows rows' : Tables) : Prop :=
  assetKeys rows' = assetKeys rows /\
  trades rows' = trades rows /\ accounts rows' = accounts rows /\
  forall i r, assets rows !! i = Some r -> Asset.assetId r <> assetId ->
              assets rows' !! i = Some r.

(** The coins [getAssets] lists for an account. *)
Definition listing (accountId : Z) (rows : Tables) : list Coin :=
  map (fun asset => mkCoin ("KRW-" +:+ Asset.assetName asset) (Asset.price asset)
                      (Asset.quantity asset))
      (List.filter (fun r => (Asset.account r =? accountId)%Z) (assets rows)).

(** ** Further scenarios *)

(** A worker script that sends back the message it was posted. *)
Definition echo (m : @WorkerPool.Message Z string) : @WorkerPool.Message Z string := m.

(** A pool whose worker 0 has reported once and is idle. *)
Definition oneIdleWorker : @WorkerPool.Pool Z string (@WorkerPool.Message Z string) :=
  WorkerPool.run echo [WorkerPool.Announce 0 (WorkerPool.DataOnly "ready"%string)]
    WorkerPool.init.

(** Account 10 holds 1 BTC bought for 9000 KRW; account 20 holds 2 ETH. *)
Definition btc10 : Asset.t := Asset.mk 1 "BTC" (ofZ 9000) (ofZ 1) (ofZ 1) 10.
Definition eth20 : Asset.t := Asset.mk 2 "ETH" (ofZ 500) (ofZ 2) (ofZ 2) 20.
Definition holdings : Tables := mkTables [] [account10; account20] [btc10; eth20].

(** [btc10] after half a BTC more was bought for 4750 KRW. *)
Definition btc10More : Asset.t :=
  Asset.mk 1 "BTC" (ofZ 13750) (Finite 15 (-1)) (Finite 15 (-1)) 10.

(** An entity whose id no row has. *)
Definition stranger : Asset.t := Asset.mk 99 "XRP" (ofZ 1) (ofZ 1) (ofZ 1) 10.

(** A fill of order 7: 1 BTC at 9000 KRW. *)
Definition fill7 : Trade.t := Trade.mk 7 1 "buy" "KRW" "BTC" (ofZ 9000) (ofZ 1).

(** The storage layer refuses to publish to Redis. *)
Definition redisDown (op : StorageOp) : bool :=
  match op with OpRedis => true | _ => false end.


(** A later request object for order 7. *)
Definition order7Again : TradeData.t :=
  TradeData.mk 7 1 "KRW" "BTC" (ofZ 9400) (ofZ 3) (ofZ 1).

(** Order 9 of user 1: BUY 2 BTC at a limit of 9500 KRW. *)
Definition row9 : Trade.t := Trade.mk 9 1 "buy" "KRW" "BTC" (ofZ 9500) (ofZ 2).
Definition order9 : TradeData.t :=
  TradeData.mk 9 1 "KRW" "BTC" (ofZ 9500) (ofZ 2) (ofZ 1).
Definition world79 : World := emptyWorld (mkTables [row7; row9] [account10] []).

(** * Properties *)

#[local] Arguments makeBuyData : simpl never.
#[local] Arguments settleInMemory : simpl never.
#[local] Arguments updateTradeData : simpl never.
#[local] Arguments remainingAfter : simpl never.
#[local] Arguments rowsAfterFill : simpl never.

Ltac unfold_async :=
  unfold executeTransaction, withQueryRunner, commitTransaction, rollbackTransaction,
    release, startTransaction, queryOn, executeOn, onWorld, autocommit, spawn, consoleLog,
    storage,
    try_finally, try_catch, liftResult, bind, ret, throw, get, modify in *.

(** ** JavaScript numbers *)

Section NumberFacts.
Local Open Scope Z_scope.

Example toString_plain : toString (Finite 15 (-1)) = "1.5"%string.
Proof. reflexivity. Qed.
Example toString_small : toString (Finite 1 (-6)) = "0.000001"%string.
Proof. reflexivity. Qed.
Example toString_exponent : toString (Finite 1 (-7)) = "1e-7"%string.
Proof. reflexivity. Qed.
Example toString_exponent_point : toString (Finite 125 (-9)) = "1.25e-7"%string.
Proof. reflexivity. Qed.
Example toString_large : toString (Finite 1 21) = "1e+21"%string.
Proof. reflexivity. Qed.
Example toString_integer : toString (Finite 30000 0) = "30000"%string.
Proof. reflexivity. Qed.
Example toString_negative : toString (Finite (-5) (-1)) = "-0.5"%string.
Proof. reflexivity. Qed.
Example toString_nine_digits : toString (Finite 123456789 (-9)) = "0.123456789"%string.
Proof. reflexivity. Qed.
Example split_point : split "12.5" "."%char = ["12"%string; "5"%string].
Proof. reflexivity. Qed.

Lemma leb_refl x : isNaN x = false -> leb x x = true.
Proof.
  destruct x as [|s|m e]; [done| |]; intros _; unfold leb; simpl.
  - by destruct s.
  - by rewrite Z.ltb_irrefl.
Qed.

(** When [x < y] holds, [y < x] is false. *)
Lemma isLessThan_asym x y : isLessThan x y = Some true -> isLessThan y x = Some false.
Proof.
  destruct x as [|a|m1 e1], y as [|b|m2 e2]; simpl; try done.
  - destruct a, b; naive_solver.
  - destruct a; naive_solver.
  - destruct b; naive_solver.
  - unfold align. rewrite (Z.min_comm e2 e1).
    intros [= Hlt]. f_equal. apply Z.ltb_lt in Hlt. apply Z.ltb_ge. lia.
Qed.

Lemma isLessThan_defined x y :
  isNaN x = false -> isNaN y = false -> is_Some (isLessThan x y).
Proof.
  destruct x as [|a|m1 e1], y as [|b|m2 e2]; simpl; try done; eauto.
Qed.

(** The operand [executeBidTrade] picks, [q >= s ? s : q], is the smaller
    of the two whenever neither is NaN. *)
Lemma conditional_is_min q s :
  isNaN q = false -> isNaN s = false ->
  isMinOf (if geb q s then s else q) q s.
Proof.
  intros Hq Hs. unfold isMinOf, geb.
  destruct (isLessThan_defined q s Hq Hs) as [[|] Hlt]; rewrite Hlt.
  - split; [by left|]. split; [by apply leb_refl|].
    unfold leb. by rewrite (isLessThan_asym _ _ Hlt).
  - split; [by right|]. split; [|by apply leb_refl].
    unfold leb. by rewrite Hlt.
Qed.
End NumberFacts.

(** ** What [toString] prints, and what the check makes of it *)

Section PrintFacts.

Lemma string_of_uint_digits d :
  forallb isDigit (list_ascii_of_string (NilEmpty.string_of_uint d)) = true.
Proof. induction d; simpl; done. Qed.

Lemma digitsOf_digits n : forallb isDigit (digitsOf n) = true.
Proof.
  unfold digitsOf, NilZero.string_of_uint.
  destruct (N.to_uint n) as [|d|d|d|d|d|d|d|d|d|d]; [done|..];
    match goal with
    | |- context [NilEmpty.string_of_uint ?u] => apply (string_of_uint_digits u)
    end.
Qed.

Lemma isDigit_notPoint c : isDigit c = true -> notPoint c = true.
Proof.
  unfold notPoint. destruct (Ascii.eqb_spec c "."%char) as [->|]; [done|done].
Qed.

Lemma digits_notPoint l : forallb isDigit l = true -> forallb notPoint l = true.
Proof.
  rewrite !forallb_forall. intros Hl c Hc. apply isDigit_notPoint. by apply Hl.
Qed.

Lemma dropZeros_digits l : forallb isDigit l = true -> forallb isDigit (dropZeros l) = true.
Proof.
  induction l as [|c l IH]; [done|]. simpl. intros [Hc Hl]%andb_prop.
  destruct c as [[] [] [] [] [] [] [] []]; simpl; rewrite ?Hl; auto.
Qed.

Lemma significand_digits m : forallb isDigit (fst (significand m)) = true.
Proof.
  unfold significand. simpl.
  rewrite forallb_forall. intros c Hc%in_rev.
  pose proof (dropZeros_digits (rev (digitsOf (Z.abs_N m)))) as Hdrop.
  rewrite !forallb_forall in Hdrop. apply Hdrop; [|done].
  intros d Hd%in_rev. pose proof (digitsOf_digits (Z.abs_N m)) as Hall.
  rewrite forallb_forall in Hall. by apply Hall.
Qed.

Lemma includes_list l c :
  includes (string_of_list_ascii l) c = existsb (fun a => Ascii.eqb a c) l.
Proof. induction l as [|a l IH]; [done|]. simpl. by rewrite IH. Qed.

Lemma includes_notPoint l :
  forallb notPoint l = true -> includes (string_of_list_ascii l) "."%char = false.
Proof.
  rewrite includes_list. induction l as [|a l IH]; [done|]. simpl.
  intros [Ha Hl]%andb_prop. unfold notPoint in Ha.
  destruct (Ascii.eqb a "."%char); [done|]. by apply IH.
Qed.

Lemma split_notPoint l :
  forallb notPoint l = true ->
  split (string_of_list_ascii l) "."%char = [string_of_list_ascii l].
Proof.
  induction l as [|a l IH]; [done|]. simpl.
  intros [Ha Hl]%andb_prop. unfold notPoint in Ha.
  destruct (Ascii.eqb a "."%char); [done|]. by rewrite IH.
Qed.

Lemma split_at_point a b :
  forallb notPoint a = true ->
  split (string_of_list_ascii (a ++ "."%char :: b)) "."%char =
    string_of_list_ascii a :: split (string_of_list_ascii b) "."%char.
Proof.
  induction a as [|c a IH]; [done|]. simpl.
  intros [Hc Ha]%andb_prop. unfold notPoint in Hc.
  destruct (Ascii.eqb c "."%char); [done|]. by rewrite IH.
Qed.

Lemma length_string_of_list_ascii l :
  String.length (string_of_list_ascii l) = length l.
Proof. induction l as [|a l IH]; [done|]. simpl. by rewrite IH. Qed.

Lemma includes_point a b :
  includes (string_of_list_ascii (a ++ "."%char :: b)) "."%char = true.
Proof.
  rewrite includes_list, existsb_app. simpl. by rewrite orb_true_r.
Qed.

Lemma replicate_zero_notPoint n : forallb notPoint (replicate n "0"%char) = true.
Proof. induction n; [done|]. simpl. done. Qed.

(** The check on a text with one point, the rest being other characters. *)
Lemma check_with_point a b :
  forallb notPoint a = true -> forallb notPoint b = true ->
  let valueStr := string_of_list_ascii (a ++ "."%char :: b) in
  includes valueStr "."%char = true /\
  split valueStr "."%char = [string_of_list_ascii a; string_of_list_ascii b].
Proof.
  intros Ha Hb. split; [apply includes_point|].
  by rewrite split_at_point, split_notPoint.
Qed.

(** Where [toString] prints in plain notation, that is for a value whose
    decimal exponent [n] has [-6 < n <= 21], [ensureMax8Decimals] accepts the
    value exactly when it has at most 8 digits after the decimal point. *)
Lemma ensureMax8Decimals_plain m e fieldName :
  (m <> 0)%Z ->
  (-6 < decimalExponent m e <= 21)%Z ->
  isOk (ensureMax8Decimals (Finite m e) fieldName) = (fractionDigits (Finite m e) <=? 8)%Z.
Proof.
  intros Hm Hn. unfold ensureMax8Decimals, fractionDigits, toString, decimalExponent in *.
  cbn [isNaN isFinite orb negb].
  apply Z.eqb_neq in Hm. rewrite Hm.
  pose proof (significand_digits m) as Hdigits.
  destruct (significand m) as [s z]. cbn [fst] in Hdigits.
  set (n := (e + z + Z.of_nat (length s))%Z) in *.
  set (sign := if (m <? 0)%Z then ["-"%char] else []).
  assert (forallb notPoint sign = true) as Hsign by (unfold sign; by destruct (m <? 0)%Z).
  pose proof (digits_notPoint s Hdigits) as Hs.
  unfold render. fold n.
  destruct ((Z.of_nat (length s) <=? n)%Z && (n <=? 21)%Z) eqn:Hwhole.
  { (* a whole number *)
    rewrite includes_notPoint.
    - symmetry. apply Z.leb_le. apply andb_prop in Hwhole as [Hk%Z.leb_le _]. lia.
    - rewrite !forallb_app, Hsign, Hs. simpl. apply replicate_zero_notPoint. }
  assert (n < Z.of_nat (length s))%Z as Hk.
  { apply andb_false_iff in Hwhole as [Hwhole%Z.leb_gt|Hwhole%Z.leb_gt]; lia. }
  destruct ((0 <? n)%Z && (n <=? 21)%Z) eqn:Hmixed.
  { (* digits on both sides of the point *)
    apply andb_prop in Hmixed as [Hpos%Z.ltb_lt _].
    assert (forallb notPoint (take (Z.to_nat n) s) = true /\
            forallb notPoint (drop (Z.to_nat n) s) = true) as [Htake Hdrop].
    { rewrite <- (take_drop (Z.to_nat n) s), forallb_app in Hs. by apply andb_prop in Hs. }
    destruct (check_with_point (sign ++ take (Z.to_nat n) s) (drop (Z.to_nat n) s))
      as [Hincl Hsplit]; [by rewrite forallb_app, Hsign, Htake|done|].
    rewrite app_assoc, Hincl, Hsplit, length_string_of_list_ascii, length_drop.
    destruct (8 <? length s - Z.to_nat n)%nat eqn:Hlen; simpl; symmetry.
    - apply Nat.ltb_lt in Hlen. apply Z.leb_gt. lia.
    - apply Nat.ltb_ge in Hlen. apply Z.leb_le. lia. }
  destruct ((-6 <? n)%Z && (n <=? 0)%Z) eqn:Hsmall.
  { (* zeros between the point and the digits *)
    apply andb_prop in Hsmall as [_ Hneg%Z.leb_le].
    replace (sign ++ "0"%char :: "."%char :: replicate (Z.to_nat (- n)) "0"%char ++ s)
      with ((sign ++ ["0"%char]) ++ "."%char :: (replicate (Z.to_nat (- n)) "0"%char ++ s))
      by by rewrite <- app_assoc.
    destruct (check_with_point (sign ++ ["0"%char]) (replicate (Z.to_nat (- n)) "0"%char ++ s))
      as [Hincl Hsplit].
    { by rewrite forallb_app, Hsign. }
    { by rewrite forallb_app, replicate_zero_notPoint, Hs. }
    rewrite Hincl, Hsplit, length_string_of_list_ascii, length_app, length_replicate.
    destruct (8 <? Z.to_nat (- n) + length s)%nat eqn:Hlen; simpl; symmetry.
    - apply Nat.ltb_lt in Hlen. apply Z.leb_gt. lia.
    - apply Nat.ltb_ge in Hlen. apply Z.leb_le. lia. }
  (* not reached: the exponent is in the plain range *)
  apply andb_false_iff in Hmixed, Hsmall.
  destruct Hmixed as [?%Z.ltb_ge|?%Z.leb_gt], Hsmall as [?%Z.ltb_ge|?%Z.leb_gt]; lia.
Qed.
End PrintFacts.

(** ** asset/utils/util.ts and asset/asset.repository.ts *)

Section AssetFacts.
Context `{Environment}.

Lemma ensureMax8Decimals_NaN fieldName :
  isOk (ensureMax8Decimals NaN fieldName) = false.
Proof. reflexivity. Qed.

Lemma ensureMax8Decimals_Infinity s fieldName :
  isOk (ensureMax8Decimals (Infinity s) fieldName) = false.
Proof. reflexivity. Qed.

(** A price or quantity that does not pass the check: nothing is written. *)
Lemma createAsset_invalid typeReceived account price quantity rows :
  isOk (ensureMax8Decimals price "price") = false \/
  isOk (ensureMax8Decimals quantity "quantity") = false ->
  createAsset typeReceived account price quantity rows =
    (Err (InternalServerErrorException "asset creation failed"), rows).
Proof.
  intros Hbad. unfold createAsset. unfold_async.
  destruct (ensureMax8Decimals price "price") as [[]|e1]; [|done].
  destruct Hbad as [Hbad|Hbad]; [done|].
  by destruct (ensureMax8Decimals quantity "quantity") as [[]|e2].
Qed.

(** Values that pass the check are stored as they are. *)
Lemma createAsset_valid typeReceived account price quantity rows :
  isOk (ensureMax8Decimals price "price") = true ->
  isOk (ensureMax8Decimals quantity "quantity") = true ->
  storageFails OpSaveAsset rows = false ->
  let saved := Asset.mk (nextAssetId (assets rows)) typeReceived price quantity quantity
                 (Account.id account) in
  createAsset typeReceived account price quantity rows =
    (Ok saved, set_assets (assets rows ++ [saved]) rows).
Proof.
  intros Hp Hq Hs saved. unfold createAsset, save. unfold_async.
  destruct (ensureMax8Decimals price "price") as [[]|e1]; [|done].
  destruct (ensureMax8Decimals quantity "quantity") as [[]|e2]; [|done].
  by rewrite Hs.
Qed.

Lemma updateAssetQuantityPrice_invalid asset rows :
  isOk (ensureMax8Decimals (Asset.price asset) "price") = false \/
  isOk (ensureMax8Decimals (Asset.quantity asset) "quantity") = false \/
  isOk (ensureMax8Decimals (Asset.availableQuantity asset) "availableQuantity") = false ->
  updateAssetQuantityPrice asset rows =
    (Err (InternalServerErrorException "asset update failed"), rows).
Proof.
  intros Hbad. unfold updateAssetQuantityPrice. unfold_async.
  destruct (ensureMax8Decimals (Asset.price asset) "price") as [[]|e1]; [|done].
  destruct Hbad as [Hbad|Hbad]; [done|].
  destruct (ensureMax8Decimals (Asset.quantity asset) "quantity") as [[]|e2]; [|done].
  destruct Hbad as [Hbad|Hbad]; [done|].
  by destruct (ensureMax8Decimals (Asset.availableQuantity asset) "availableQuantity")
    as [[]|e3].
Qed.

(** The check reads the digits after the point of [toString]: for a value
    that prints in plain notation with nine digits after the point it
    fails. *)
Example ensureMax8Decimals_nine_digits :
  ensureMax8Decimals (Finite 123456789 (-9)) "quantity" =
    Err (InternalServerErrorException
           "quantity cannot exceed 8 decimal places (input: 0.123456789)").
Proof. reflexivity. Qed.

(** A whole number beyond 1e21 prints with an exponent and a long
    significand, and is refused. *)
Example ensureMax8Decimals_large_integer :
  fractionDigits (Finite 1234567891 12) = 0%Z /\
  isOk (ensureMax8Decimals (Finite 1234567891 12) "price") = false.
Proof. split; reflexivity. Qed.
End AssetFacts.

(** C7.  The code at a failing input: [createAsset] is handed the quantity
    0.000000001 (1e-9), which has nine digits after the decimal point.
    [toString] prints it as "1e-9", [ensureMax8Decimals] finds no point in
    that string and accepts, and the row is stored with the nine-digit
    quantity and the nine-digit available quantity. *)
Theorem createAsset_stores_nine_fraction_digits :
  let quantity := Finite 1 (-9) in
  fractionDigits quantity = 9%Z /\
  toString quantity = "1e-9"%string /\
  ensureMax8Decimals quantity "quantity" = Ok tt /\
  @createAsset (calmMarket []) "BTC" account10 (ofZ 1) quantity (mkTables [] [account10] []) =
    (Ok (Asset.mk 1 "BTC" (ofZ 1) quantity quantity 10),
     mkTables [] [account10] [Asset.mk 1 "BTC" (ofZ 1) quantity quantity 10]).
Proof. repeat split; reflexivity. Qed.

(** ** trade/trade-bid.service.ts: one fill *)

Section FillFacts.
Context `{Environment}.

Lemma find_map_keeps {A} (P : A -> bool) (g : A -> A) (l : list A) :
  (forall x, P (g x) = P x) -> find P (map g l) = option_map g (find P l).
Proof.
  intros Hkeeps. induction l as [|x l IH]; [done|]. simpl. rewrite Hkeeps.
  by destruct (P x).
Qed.
Lemma find_filter_none {A} (P : A -> bool) (l : list A) :
  find P (List.filter (fun x => negb (P x)) l) = None.
Proof.
  induction l as [|x l IH]; [done|]. simpl.
  destruct (P x) eqn:HP; simpl; [done|]. by rewrite HP.
Qed.

(** The row of the order after the fill [buyData]: it carries the remaining
    quantity, or is gone when that is dust. *)
Lemma orderRow_afterFill bidDto tradeData buyData rows :
  orderRow bidDto rows = Some tradeData ->
  orderRow bidDto (rowsAfterFill tradeData buyData rows) =
    if isMinimumQuantity (remainingAfter tradeData buyData) then None
    else Some (Trade.set_quantity (remainingAfter tradeData buyData) tradeData).
Proof.
  intros Hrow. unfold orderRow in *.
  destruct (find_some _ _ Hrow) as [_ Hid]. apply Z.eqb_eq in Hid.
  unfold rowsAfterFill. cbn [trades set_trades]. rewrite Hid.
  destruct (isMinimumQuantity (remainingAfter tradeData buyData)).
  - apply find_filter_none.
  - rewrite find_map_keeps, Hrow.
    + cbn [option_map]. by rewrite Hid, Z.eqb_refl.
    + intros r. destruct (Trade.tradeId r =? TradeData.tradeId bidDto)%Z eqn:Hr;
        [exact Hr|by rewrite Hr].
Qed.
Lemma findTradeWithLock_eq bidDto rows :
  findTradeWithLock (TradeData.tradeId bidDto) rows =
    if storageFails OpFindTradeWithLock rows then (Err (Error "DB Error"), rows)
    else (Ok (orderRow bidDto rows), rows).
Proof. unfold findTradeWithLock. unfold_async. by destruct (storageFails _ _). Qed.

Lemma updateTradeData_eq tradeData buyData rows :
  updateTradeData tradeData buyData rows =
    if storageFails OpUpdateTrade rows then (Err (Error "DB Error"), rows)
    else (Ok (remainingAfter tradeData buyData), rowsAfterFill tradeData buyData rows).
Proof.
  unfold updateTradeData, rowsAfterFill, remainingAfter. unfold_async.
  by destruct (storageFails _ _).
Qed.

(** [executeBidTrade], branch by branch. *)
Lemma executeBidTrade_eq bidDto order user w :
  executeBidTrade bidDto order user w =
    if storageFails OpFindTradeWithLock (db w) then (Err (Error "DB Error"), w)
    else match orderRow bidDto (db w) with
         | None => (Ok zero, w)
         | Some tradeData =>
             if isMinimumQuantity (Trade.quantity tradeData) then (Ok zero, w)
             else
               let buyData := makeBuyData bidDto order tradeData in
               if isMinimumQuantity (Trade.quantity buyData) then (Ok zero, w)
               else if storageFails OpUpdateTrade (db w)
               then (Err (Error "DB Error"), withHistory user buyData w)
               else if storageFails OpCommit (rowsAfterFill tradeData buyData (db w))
               then (Err (Error "DB Error"), withHistory user buyData w)
               else match bidDtoAccount w !! TradeData.tradeId bidDto with
                    | Some account =>
                        (Ok (remainingAfter tradeData buyData),
                         worldAfterFill bidDto user buyData
                           (rowsAfterFill tradeData buyData (db w))
                           (settleInMemory bidDto buyData account) w)
                    | None =>
                        (Err (TypeError
                           "Cannot read properties of undefined (reading 'availableKRW')"),
                         set_db (rowsAfterFill tradeData buyData (db w))
                           (withHistory user buyData w))
                    end
         end.
Proof.
  unfold executeBidTrade. unfold_async.
  cbn [fst snd view isTransactionActive hasWritten].
  rewrite findTradeWithLock_eq.
  destruct (storageFails OpFindTradeWithLock (db w));
    cbn [fst snd view isTransactionActive hasWritten andb]; [done|].
  destruct (orderRow bidDto (db w)) as [tradeData|];
    cbn [fst snd view isTransactionActive hasWritten andb]; [|done].
  destruct (isMinimumQuantity (Trade.quantity tradeData));
    cbn [fst snd view isTransactionActive hasWritten andb]; [done|].
  cbv zeta.
  destruct (isMinimumQuantity (Trade.quantity (makeBuyData bidDto order tradeData)));
    cbn [fst snd view isTransactionActive hasWritten andb]; [done|].
  rewrite updateTradeData_eq.
  destruct (storageFails OpUpdateTrade (db w));
    cbn [fst snd view isTransactionActive hasWritten andb]; [done|].
  destruct (storageFails OpCommit _);
    cbn [fst snd view isTransactionActive hasWritten andb]; [done|].
  cbn [bidDtoAccount set_db set_detached].
  destruct (bidDtoAccount w !! TradeData.tradeId bidDto) as [account|];
    cbn [fst snd view isTransactionActive hasWritten andb]; [|done].
  unfold worldAfterFill, set_detached, set_bidDtoAccount, set_db; simpl.
  by rewrite <- !app_assoc.
Qed.

Lemma executeBidTrade_outcome bidDto order user w :
  FillOutcome bidDto order user w (executeBidTrade bidDto order user w).
Proof.
  rewrite executeBidTrade_eq.
  destruct (storageFails OpFindTradeWithLock (db w)) eqn:Hload; [by constructor|].
  destruct (orderRow bidDto (db w)) as [tradeData|] eqn:Hrow; [|constructor].
  destruct (isMinimumQuantity (Trade.quantity tradeData)) eqn:Hq; [constructor|].
  cbv zeta.
  destruct (isMinimumQuantity (Trade.quantity (makeBuyData bidDto order tradeData))) eqn:Hb;
    [constructor|].
  destruct (storageFails OpUpdateTrade (db w)); [by apply RolledBack|].
  destruct (storageFails OpCommit _); [by apply RolledBack|].
  destruct (bidDtoAccount w !! TradeData.tradeId bidDto) as [account|] eqn:Hacc.
  - by apply Filled.
  - by apply CommittedThenThrew.
Qed.

Lemma makeBuyData_price bidDto order tradeData :
  Trade.price (makeBuyData bidDto order tradeData) =
    formatQuantity (mul (OrderBookEntry.ask_price order) (TradeData.krw bidDto)).
Proof. reflexivity. Qed.

Lemma makeBuyData_quantity bidDto order tradeData :
  Trade.quantity (makeBuyData bidDto order tradeData) =
    formatQuantity (if geb (Trade.quantity tradeData) (OrderBookEntry.ask_size order)
                    then OrderBookEntry.ask_size order else Trade.quantity tradeData).
Proof. reflexivity. Qed.

(** What a call adds to the detached promises, and the fills among it. *)
Lemma executeBidTrade_detached bidDto order user w :
  exists new,
    detached (snd (executeBidTrade bidDto order user w)) = detached w ++ new /\
    (fillsOf new = [] \/
     exists tradeData,
       orderRow bidDto (db w) = Some tradeData /\
       fillsOf new = [makeBuyData bidDto order tradeData]).
Proof.
  destruct (executeBidTrade_outcome bidDto order user w)
    as [|e Hload|tradeData e Hrow|tradeData account Hrow Hq Hb Hacc|tradeData e Hrow Hacc];
    simpl.
  - exists []. by rewrite app_nil_r; auto.
  - exists []. by rewrite app_nil_r; auto.
  - eexists. split; [reflexivity|]. right. by exists tradeData.
  - eexists. split; [reflexivity|]. right. by exists tradeData.
  - eexists. split; [reflexivity|]. right. by exists tradeData.
Qed.

Lemma executeBidTrade_isProcessing bidDto order user w :
  isProcessing (snd (executeBidTrade bidDto order user w)) = isProcessing w.
Proof. by destruct (executeBidTrade_outcome bidDto order user w). Qed.




End FillFacts.



Section LoopFacts.
Context `{Environment}.

(** [bidLevel], branch by branch. *)
Lemma bidLevel_eq bidDto user order w :
  bidLevel bidDto user order w =
    if gtb (OrderBookEntry.ask_price order) (TradeData.receivedPrice bidDto)
    then (Ok true, w)
    else match executeBidTrade bidDto order user w with
         | (Ok remainingQuantity, w') => (Ok (isMinimumQuantity remainingQuantity), w')
         | (Err error, w') =>
             if instanceofTradeNotFound error then (Ok true, w') else (Err error, w')
         end.
Proof.
  unfold bidLevel, bidLevelAmid, await. unfold_async. cbn [snd].
  destruct (gtb _ _); [done|].
  destruct (executeBidTrade bidDto order user w) as [[remainingQuantity|error] w']; simpl.
  - by destruct (isMinimumQuantity remainingQuantity).
  - by destruct (instanceofTradeNotFound error).
Qed.

Lemma bidLoop_cons bidDto user order rest w :
  bidLoop bidDto user (order :: rest) w =
    match bidLevel bidDto user order w with
    | (Ok true, w') => (Ok tt, w')
    | (Ok false, w') => bidLoop bidDto user rest w'
    | (Err error, w') => (Err error, w')
    end.
Proof.
  unfold bidLoop, bidLevel. simpl. unfold bind.
  by destruct (bidLevelAmid (ret tt) bidDto user order w) as [[[|]|error] w'].
Qed.

(** A level at which the order is found gone or dust, or at which the fill
    would be dust, ends the walk and leaves the world as it was. *)
Lemma bidLoop_stops bidDto user order rest w :
  isMinimumQuantity zero = true ->
  executeBidTrade bidDto order user w = (Ok zero, w) ->
  bidLoop bidDto user (order :: rest) w = (Ok tt, w).
Proof.
  intros Hzero Hrun. rewrite bidLoop_cons, bidLevel_eq.
  destruct (gtb _ _); [done|]. by rewrite Hrun, Hzero.
Qed.

(** C4.  At a level where the locked row [tradeData] of the order is found
    with a quantity that is not dust, the quantity of the fill is
    [formatQuantity m], where [m] is the row's remaining quantity or the
    level's size, and the smaller of the two when neither is NaN.  When that
    quantity is not below the minimum and the storage layer works, the fill
    is executed with it: the call returns the remaining quantity
    [formatQuantity (q - quantity)], the row of the order is updated to it
    (or removed when it is dust), and the history entry, the asset update
    and the ledger update that are started carry this fill and no other.
    In every outcome, a fill handed to the history recorder is this one.
    When the quantity is below the minimum, the call returns 0 with the
    world unchanged, and the walk ends there with the world unchanged: no
    deeper level is processed. *)
Theorem fill_quantity_is_truncated_min bidDto order user rest w tradeData :
  storageFails OpFindTradeWithLock (db w) = false ->
  orderRow bidDto (db w) = Some tradeData ->
  isMinimumQuantity (Trade.quantity tradeData) = false ->
  isMinimumQuantity zero = true ->
  let q := Trade.quantity tradeData in
  let s := OrderBookEntry.ask_size order in
  let buyData := makeBuyData bidDto order tradeData in
  (exists m,
     Trade.quantity buyData = formatQuantity m /\
     (m = q \/ m = s) /\
     (isNaN q = false -> isNaN s = false -> isMinOf m q s)) /\
  (isMinimumQuantity (Trade.quantity buyData) = false ->
   storageFails OpUpdateTrade (db w) = false ->
   storageFails OpCommit (rowsAfterFill tradeData buyData (db w)) = false ->
   forall account,
     bidDtoAccount w !! TradeData.tradeId bidDto = Some account ->
     exists w',
       executeBidTrade bidDto order user w
         = (Ok (formatQuantity (sub q (Trade.quantity buyData))), w') /\
       db w' = rowsAfterFill tradeData buyData (db w) /\
       orderRow bidDto (db w') =
         (if isMinimumQuantity (formatQuantity (sub q (Trade.quantity buyData))) then None
          else Some (Trade.set_quantity (formatQuantity (sub q (Trade.quantity buyData)))
                       tradeData)) /\
       detached w' =
         detached w ++
           [CreateTradeHistory user buyData;
            ProcessAssetUpdate bidDto (Account.id account) buyData;
            UpdateAccountBalances bidDto buyData (settleInMemory bidDto buyData account)]) /\
  (exists new,
     detached (snd (executeBidTrade bidDto order user w)) = detached w ++ new /\
     Forall (fun fill => fill = buyData) (fillsOf new)) /\
  (isMinimumQuantity (Trade.quantity buyData) = true ->
     executeBidTrade bidDto order user w = (Ok zero, w) /\
     bidLoop bidDto user (order :: rest) w = (Ok tt, w)).
Proof.
  intros Hload Hrow Hq Hzero q s buyData. split; [|split; [|split]].
  - exists (if geb q s then s else q). split; [reflexivity|]. split.
    + destruct (geb q s); auto.
    + apply conditional_is_min.
  - intros Hfill Hupdate Hcommit account Haccount. eexists. split.
    + rewrite executeBidTrade_eq, Hload, Hrow, Hq. cbv zeta. fold buyData.
      rewrite Hfill, Hupdate, Hcommit, Haccount. reflexivity.
    + split; [reflexivity|]. split; [|reflexivity].
      unfold worldAfterFill. cbn [db set_db set_detached set_bidDtoAccount].
      by rewrite (orderRow_afterFill _ _ _ _ Hrow).
  - destruct (executeBidTrade_detached bidDto order user w)
      as (new & Hnew & [Hnone|(tradeData' & Hrow' & Hone)]);
      exists new; (split; [exact Hnew|]).
    + rewrite Hnone. constructor.
    + rewrite Hone. rewrite Hrow in Hrow'. injection Hrow' as <-.
      by repeat constructor.
  - intros Hdust.
    assert (executeBidTrade bidDto order user w = (Ok zero, w)) as Hrun.
    { rewrite executeBidTrade_eq, Hload, Hrow, Hq. cbv zeta. fold buyData.
      by rewrite Hdust. }
    split; [exact Hrun|]. by apply bidLoop_stops.
Qed.


(** C6.  When the locked load works and finds the order gone, or finds its
    remaining quantity below the minimum, the call returns 0, not an error,
    and the world is exactly what it was: no balance, order or asset
    changed and no promise was started; and the walk over the snapshot ends
    there, without an error and with the world unchanged. *)
Theorem vanished_order_ends_attempt bidDto order user rest w :
  storageFails OpFindTradeWithLock (db w) = false ->
  orderRow bidDto (db w) = None \/
  (exists tradeData,
     orderRow bidDto (db w) = Some tradeData /\
     isMinimumQuantity (Trade.quantity tradeData) = true) ->
  isMinimumQuantity zero = true ->
  executeBidTrade bidDto order user w = (Ok zero, w) /\
  bidLoop bidDto user (order :: rest) w = (Ok tt, w).
Proof.
  intros Hload Hgone Hzero.
  assert (executeBidTrade bidDto order user w = (Ok zero, w)) as Hrun.
  { rewrite executeBidTrade_eq, Hload.
    destruct Hgone as [->|(tradeData & -> & ->)]; done. }
  split; [exact Hrun|]. by apply bidLoop_stops.
Qed.
End LoopFacts.

(** At the level 9000 x 1 the fill of order 7 is min(3, 1) = 1: it is
    executed, 2 remain on the order, and the three promises carry the
    quantity 1.  At a level of size 0.000000004 the fill is
    min(3, 0.000000004) truncated to 8 digits, which is 0: dust.  Nothing
    happens and the walk ends before the three levels that follow. *)
Lemma fill_quantity_is_truncated_min_witness :
  let E := calmMarket [] in
  (exists w',
     @executeBidTrade E order7 (level 9000 1) (User.mk 1) world7InFlight = (Ok (ofZ 2), w') /\
     trades (db w') = [Trade.mk 7 1 "buy" "KRW" "BTC" (ofZ 9500) (ofZ 2)] /\
     map Trade.quantity (fillsOf (detached w')) = [ofZ 1] /\
     length (detached w') = 3) /\
  Trade.quantity (@makeBuyData E order7 thinLevel row7) = Finite 0 (-8) /\
  @executeBidTrade E order7 thinLevel (User.mk 1) world7InFlight = (Ok zero, world7InFlight) /\
  @bidLoop E order7 (User.mk 1) (thinLevel :: book3) world7InFlight
    = (Ok tt, world7InFlight).
Proof.
  intros E. split.
  - destruct (@fill_quantity_is_truncated_min E order7 (level 9000 1) (User.mk 1) book3
                world7InFlight row7) as (_ & Hfill & _); try reflexivity.
    destruct (Hfill eq_refl eq_refl eq_refl account10 eq_refl)
      as (w' & Hrun & Hdb & _ & Htasks).
    exists w'. split; [exact Hrun|]. split; [by rewrite Hdb|]. by rewrite Htasks.
  - destruct (@fill_quantity_is_truncated_min E order7 thinLevel (User.mk 1) book3
                world7InFlight row7) as (_ & _ & _ & Hdust); try reflexivity.
    split; [reflexivity|]. apply Hdust. reflexivity.
Defined.


(** What the rollback is for: a transaction that has updated the row of
    order 7 and whose connection is released before it is committed or
    rolled back leaves the update behind, uncommitted. *)
Example released_without_rollback :
  let unfinished :=
    @withQueryRunner unit
      (startTransaction ;;
       @executeOn number (@updateTradeData (calmMarket book3) row7 fill7) ;;
       release) in
  db (snd (unfinished world7)) = db world7 /\
  abandoned (snd (unfinished world7)) =
    [mkTables [Trade.mk 7 1 "buy" "KRW" "BTC" (ofZ 9500) (ofZ 2)] [account10] []].
Proof. split; reflexivity. Qed.

(** Order 8 is not in the table any more. *)
Lemma vanished_order_ends_attempt_witness :
  orderRow order8 (db world7InFlight) = None /\
  @executeBidTrade (calmMarket book3) order8 (level 9000 1) (User.mk 1) world7InFlight
    = (Ok zero, world7InFlight) /\
  @bidLoop (calmMarket book3) order8 (User.mk 1) book3 world7InFlight
    = (Ok tt, world7InFlight).
Proof.
  split; [reflexivity|].
  apply (@vanished_order_ends_attempt (calmMarket book3) order8 (level 9000 1) (User.mk 1)
           [level 9500 5; level 10000 2] world7InFlight); [reflexivity| |reflexivity].
  by left.
Defined.

Section WalkFacts.
Context `{Environment}.

Lemma bidLoop_eligible bidDto user book w :
  bidLoop bidDto user book w =
    bidLoop bidDto user (eligibleLevels (TradeData.receivedPrice bidDto) book) w.
Proof.
  revert w. induction book as [|order rest IH]; intros w; [done|].
  cbn [eligibleLevels].
  destruct (gtb (OrderBookEntry.ask_price order) (TradeData.receivedPrice bidDto)) eqn:Hcross.
  - by rewrite bidLoop_cons, bidLevel_eq, Hcross.
  - rewrite !bidLoop_cons.
    destruct (bidLevel bidDto user order w) as [[[|]|error] w']; try done.
Qed.

Lemma eligibleLevels_within limit book :
  Forall (fun level => gtb (OrderBookEntry.ask_price level) limit = false)
         (eligibleLevels limit book).
Proof.
  induction book as [|order rest IH]; simpl; [constructor|].
  destruct (gtb (OrderBookEntry.ask_price order) limit) eqn:Hcross; by constructor.
Qed.

(** The eligible levels are the snapshot up to its first level above the
    limit. *)
Lemma eligibleLevels_prefix limit book :
  exists beyond,
    book = eligibleLevels limit book ++ beyond /\
    match beyond with
    | [] => True
    | first :: _ => gtb (OrderBookEntry.ask_price first) limit = true
    end.
Proof.
  induction book as [|order rest (beyond & Hbook & Hfirst)]; simpl; [by exists []|].
  destruct (gtb (OrderBookEntry.ask_price order) limit) eqn:Hcross.
  - by exists (order :: rest).
  - exists beyond. split; [|done]. simpl. by f_equal.
Qed.

(** Every fill of a walk was made at an eligible level, at that level's
    price. *)
Lemma bidLoop_fills bidDto user book w :
  exists new,
    detached (snd (bidLoop bidDto user book w)) = detached w ++ new /\
    Forall (fun fill => exists level,
              level ∈ eligibleLevels (TradeData.receivedPrice bidDto) book /\
              Trade.price fill =
                formatQuantity (mul (OrderBookEntry.ask_price level) (TradeData.krw bidDto)))
           (fillsOf new).
Proof.
  revert w. induction book as [|order rest IH]; intros w.
  { exists []. simpl. by rewrite app_nil_r. }
  rewrite bidLoop_cons, bidLevel_eq. cbn [eligibleLevels].
  destruct (gtb (OrderBookEntry.ask_price order) (TradeData.receivedPrice bidDto)) eqn:Hcross.
  { exists []. simpl. by rewrite app_nil_r. }
  destruct (executeBidTrade_detached bidDto order user w) as (new1 & Hnew1 & Hfills1).
  assert (Forall (fun fill => exists level,
            level ∈ order :: eligibleLevels (TradeData.receivedPrice bidDto) rest /\
            Trade.price fill =
              formatQuantity (mul (OrderBookEntry.ask_price level) (TradeData.krw bidDto)))
            (fillsOf new1)) as Hhere.
  { destruct Hfills1 as [->|(tradeData & _ & ->)]; [constructor|].
    repeat constructor. exists order. split; [apply elem_of_cons; by left|apply makeBuyData_price]. }
  destruct (executeBidTrade bidDto order user w) as [[remainingQuantity|error] w1];
    simpl in Hnew1.
  - destruct (isMinimumQuantity remainingQuantity); [by exists new1|].
    destruct (IH w1) as (new2 & Hnew2 & Hfills2).
    exists (new1 ++ new2). split.
    + by rewrite Hnew2, Hnew1, app_assoc.
    + unfold fillsOf in *. rewrite omap_app. apply Forall_app. split; [done|].
      eapply Forall_impl; [exact Hfills2|].
      intros fill (level & Hin & Hprice). exists level.
      split; [apply elem_of_cons; by right|done].
  - destruct (instanceofTradeNotFound error); by exists new1.
Qed.

(** C2.  The walk of a BUY order over a snapshot is the walk over its
    eligible levels: the levels before the first one whose ask price is
    strictly above the limit price.  None of these is above the limit, the
    first level after them (if there is one) is, and every fill of the walk
    is made at one of them, at its price.  With levels at 9000, 9500 and
    10000 and a limit of 9500, the eligible levels are the first two, and
    the attempt on order 7 fills at 9000 and at 9500 and nowhere else. *)
Theorem price_crossing_stops_walk bidDto user book w :
  let limit := TradeData.receivedPrice bidDto in
  bidLoop bidDto user book w = bidLoop bidDto user (eligibleLevels limit book) w /\
  Forall (fun level => gtb (OrderBookEntry.ask_price level) limit = false)
         (eligibleLevels limit book) /\
  (exists beyond,
     book = eligibleLevels limit book ++ beyond /\
     match beyond with
     | [] => True
     | first :: _ => gtb (OrderBookEntry.ask_price first) limit = true
     end) /\
  (exists new,
     detached (snd (bidLoop bidDto user book w)) = detached w ++ new /\
     Forall (fun fill => exists level,
               level ∈ eligibleLevels limit book /\
               Trade.price fill =
                 formatQuantity (mul (OrderBookEntry.ask_price level) (TradeData.krw bidDto)))
            (fillsOf new)) /\
  eligibleLevels (ofZ 9500) book3 = [level 9000 1; level 9500 5] /\
  map (fun fill => (Trade.price fill, Trade.quantity fill))
      (fillsOf (detached (snd (@bidTradeService (calmMarket book3) order7 world7))))
    = [(ofZ 9000, ofZ 1); (ofZ 9500, ofZ 2)].
Proof.
  intros limit.
  split; [apply bidLoop_eligible|].
  split; [apply eligibleLevels_within|].
  split; [apply eligibleLevels_prefix|].
  split; [apply bidLoop_fills|].
  split; reflexivity.
Qed.

(** *** The in-flight guard *)

Lemma bidLevel_isProcessing bidDto user order w :
  isProcessing (snd (bidLevel bidDto user order w)) = isProcessing w.
Proof.
  rewrite bidLevel_eq. destruct (gtb _ _); [done|].
  pose proof (executeBidTrade_isProcessing bidDto order user w) as Hkeep.
  destruct (executeBidTrade bidDto order user w) as [[remainingQuantity|error] w']; [done|].
  by destruct (instanceofTradeNotFound error).
Qed.

Lemma bidLoop_isProcessing bidDto user book w :
  isProcessing (snd (bidLoop bidDto user book w)) = isProcessing w.
Proof.
  revert w. induction book as [|order rest IH]; intros w; [done|].
  rewrite bidLoop_cons.
  pose proof (bidLevel_isProcessing bidDto user order w) as Hkeep.
  destruct (bidLevel bidDto user order w) as [[[|]|error] w']; try done.
  simpl in Hkeep. by rewrite IH.
Qed.

Lemma set_db_same w : set_db (db w) w = w.
Proof. by destruct w. Qed.

(** [bidAttempt], branch by branch. *)
Lemma bidAttempt_eq bidDto w :
  bidAttempt bidDto w =
    if storageFails OpGetUser (db w) then (Err (Error "DB Error"), w)
    else if storageFails OpGetAccount (db w) then (Err (Error "DB Error"), w)
    else match find (fun a => (Account.user a =? TradeData.userId bidDto)%Z)
                    (accounts (db w)) with
         | None => (Err (TypeError "Cannot read properties of null"), w)
         | Some account =>
             bidLoop bidDto (User.mk (TradeData.userId bidDto))
               (getCoinOrderbookByBid bidDto) (withAccountContext bidDto account w)
         end.
Proof.
  unfold bidAttempt, bidAttemptAmid, await, getUser, getAccount. fold (bidLoop bidDto).
  unfold_async. cbn [snd].
  destruct (storageFails OpGetUser (db w)); [by rewrite set_db_same|]. cbn [db set_db].
  destruct (storageFails OpGetAccount (db w)); [by rewrite !set_db_same|].
  rewrite !set_db_same.
  by destruct (find _ _) as [account|].
Qed.

Lemma bidAttempt_isProcessing bidDto w :
  isProcessing (snd (bidAttempt bidDto w)) = isProcessing w.
Proof.
  rewrite bidAttempt_eq.
  destruct (storageFails OpGetUser (db w)); [done|].
  destruct (storageFails OpGetAccount (db w)); [done|].
  destruct (find _ _) as [account|]; [|done].
  by rewrite bidLoop_isProcessing.
Qed.

(** An invocation for an order whose guard is set. *)
Lemma bidTradeService_skips bidDto v :
  truthy (isProcessing v !! TradeData.tradeId bidDto) = true ->
  bidTradeService bidDto v = (Ok tt, v).
Proof.
  intros Hset. unfold bidTradeService, bidTradeServiceAmid. unfold_async. by rewrite Hset.
Qed.

(** An [await] of a call that leaves the guards alone, made while the guard
    of an order is set: invocations for that order that arrive meanwhile
    change nothing. *)
Lemma await_guarded {A} second (m : M World A) v :
  truthy (isProcessing v !! TradeData.tradeId second) = true ->
  isProcessing (snd (m v)) = isProcessing v ->
  await (bidTradeService second) m v = m v.
Proof.
  intros Hset Hkeep. unfold await. rewrite (bidTradeService_skips second v Hset). cbn [snd].
  destruct (m v) as [r v'] eqn:Hm. cbn [snd] in Hkeep.
  rewrite (bidTradeService_skips second v'); [done|]. by rewrite Hkeep.
Qed.

Lemma await_alone {A} (m : M World A) v : await (ret tt) m v = m v.
Proof. unfold await, ret. cbn [snd]. by destruct (m v). Qed.

Lemma bidLevel_guarded second bidDto user order v :
  truthy (isProcessing v !! TradeData.tradeId second) = true ->
  bidLevelAmid (bidTradeService second) bidDto user order v = bidLevel bidDto user order v.
Proof.
  intros Hset. unfold bidLevel, bidLevelAmid, try_catch.
  destruct (gtb _ _); [done|]. unfold bind.
  rewrite await_guarded, await_alone; [done|done|apply executeBidTrade_isProcessing].
Qed.

Lemma bidLoop_guarded second bidDto user book v :
  truthy (isProcessing v !! TradeData.tradeId second) = true ->
  bidLoopAmid (bidTradeService second) bidDto user book v = bidLoop bidDto user book v.
Proof.
  revert v. induction book as [|order rest IH]; intros v Hset; [done|].
  rewrite bidLoop_cons. cbn [bidLoopAmid]. unfold bind at 1.
  rewrite bidLevel_guarded by done.
  pose proof (bidLevel_isProcessing bidDto user order v) as Hkeep.
  destruct (bidLevel bidDto user order v) as [[[|]|error] v']; try done.
  apply IH. cbn [snd] in Hkeep. by rewrite Hkeep.
Qed.

Lemma bind_agree {S A B} (m1 m2 : M S A) (k1 k2 : A -> M S B) s :
  m1 s = m2 s ->
  (forall a s', m2 s = (Ok a, s') -> k1 a s' = k2 a s') ->
  bind m1 k1 s = bind m2 k2 s.
Proof.
  intros Hm Hk. unfold bind. rewrite Hm.
  destruct (m2 s) as [[a|e] s']; [by apply Hk|done].
Qed.

Lemma autocommit_isProcessing {A} (stmt : DB A) v :
  isProcessing (snd (autocommit stmt v)) = isProcessing v.
Proof. unfold autocommit. by destruct (stmt (db v)). Qed.

Lemma bidAttempt_guarded second bidDto v :
  truthy (isProcessing v !! TradeData.tradeId second) = true ->
  bidAttemptAmid (bidTradeService second) bidDto v = bidAttempt bidDto v.
Proof.
  intros Hset. unfold bidAttempt, bidAttemptAmid. cbv zeta.
  apply bind_agree.
  { rewrite await_guarded, await_alone; [done|done|apply autocommit_isProcessing]. }
  intros user v1 Hv1. rewrite await_alone in Hv1.
  pose proof (autocommit_isProcessing (getUser (TradeData.userId bidDto)) v) as Hkeep1.
  rewrite Hv1 in Hkeep1. cbn [snd] in Hkeep1.
  apply bind_agree.
  { rewrite await_guarded, await_alone;
      [done|by rewrite Hkeep1|apply autocommit_isProcessing]. }
  intros account v2 Hv2. rewrite await_alone in Hv2.
  pose proof (autocommit_isProcessing (getAccount (TradeData.userId bidDto)) v1) as Hkeep2.
  rewrite Hv2 in Hkeep2. cbn [snd] in Hkeep2.
  destruct account as [account|]; [|done].
  unfold bind, modify. apply bidLoop_guarded.
  cbn [isProcessing set_bidDtoAccount set_bidDtoAccountBalance].
  by rewrite Hkeep2, Hkeep1.
Qed.

(** C8.  The per-order attempt and a second invocation for the same order
    id.  A second invocation that finds the guard set returns at once and
    leaves the world as it is.  The attempt itself sets the guard before
    its first [await] and keeps it set until its end: when invocations for
    the same id arrive at every [await] of the attempt, before and after
    the user is loaded, the account is loaded and each level is filled, the
    attempt returns what it returns alone and leaves the world it leaves
    alone, so none of them walked the snapshot, filled, or changed a
    balance.  A fill, which has suspension points of its own, never touches
    a guard.  And when the attempt has ended, whether it returned or threw,
    the guard of its order is no longer set and every other guard is what it
    was. *)
Theorem in_flight_guard bidDto second w :
  TradeData.tradeId second = TradeData.tradeId bidDto ->
  let tradeId := TradeData.tradeId bidDto in
  (truthy (isProcessing w !! tradeId) = true -> bidTradeService second w = (Ok tt, w)) /\
  bidTradeServiceAmid (bidTradeService second) bidDto w = bidTradeService bidDto w /\
  (forall order user v,
     isProcessing (snd (executeBidTrade bidDto order user v)) = isProcessing v) /\
  (truthy (isProcessing w !! tradeId) = false ->
   isProcessing (snd (bidTradeService bidDto w)) = delete tradeId (isProcessing w)) /\
  isProcessing (snd (bidTradeService bidDto w)) !! tradeId =
    (if truthy (isProcessing w !! tradeId) then Some true else None).
Proof.
  intros Hsame tradeId.
  assert (truthy (isProcessing w !! tradeId) = false ->
          isProcessing (snd (bidTradeService bidDto w)) = delete tradeId (isProcessing w))
    as Hrelease.
  { intros Hfree. unfold bidTradeService, bidTradeServiceAmid. fold (bidAttempt bidDto).
    unfold_async. fold tradeId. rewrite Hfree.
    pose proof (bidAttempt_isProcessing bidDto
                  (set_isProcessing (<[tradeId := true]>) w)) as Hkeep.
    destruct (bidAttempt bidDto _) as [r w']. simpl in *. rewrite Hkeep.
    apply delete_insert_eq. }
  split; [|split; [|split; [|split]]].
  - intros Hset. apply bidTradeService_skips. by rewrite Hsame.
  - unfold bidTradeService at 2. unfold bidTradeServiceAmid. unfold bind, get, modify.
    destruct (truthy _); [done|]. unfold try_finally.
    rewrite bidAttempt_guarded; [done|].
    rewrite Hsame. cbn [isProcessing set_isProcessing]. by rewrite lookup_insert_eq.
  - intros order user v. apply executeBidTrade_isProcessing.
  - exact Hrelease.
  - destruct (truthy (isProcessing w !! tradeId)) eqn:Hguard.
    + rewrite (bidTradeService_skips bidDto w Hguard). simpl.
      destruct (isProcessing w !! tradeId) as [[|]|]; done.
    + rewrite (Hrelease eq_refl). apply lookup_delete_eq.
Qed.
End WalkFacts.

(** Order 7 is attempted over the three levels while, at every [await], the
    next cycle invokes the attempt for order 7 again: the fills, the result
    and the world are those of the attempt alone, and the guard is gone at
    the end. *)
Lemma in_flight_guard_witness :
  let E := calmMarket book3 in
  @bidTradeServiceAmid E (@bidTradeService E order7Again) order7 world79
    = @bidTradeService E order7 world79 /\
  map Trade.tradeId
      (fillsOf (detached (snd (@bidTradeServiceAmid E (@bidTradeService E order7Again)
                                 order7 world79)))) = [7%Z; 7%Z] /\
  isProcessing (snd (@bidTradeService E order7 world79)) = delete 7%Z ∅.
Proof.
  intros E.
  destruct (@in_flight_guard E order7 order7Again world79 eq_refl)
    as (_ & Hsame & _ & Hrelease & _).
  split; [exact Hsame|]. split; [reflexivity|]. apply Hrelease. reflexivity.
Defined.

(** The suspension points are real: when the invocation that arrives at the
    [await]s of the attempt for order 7 is for order 9, whose guard is not
    set, it runs, and order 9 is filled before order 7. *)
Example another_order_is_let_in :
  let E := calmMarket book3 in
  map Trade.tradeId
      (fillsOf (detached (snd (@bidTradeServiceAmid E (@bidTradeService E order9) order7
                                 world79)))) = [9%Z; 9%Z; 7%Z; 7%Z] /\
  map Trade.tradeId (fillsOf (detached (snd (@bidTradeService E order7 world79))))
    = [7%Z; 7%Z].
Proof. split; reflexivity. Qed.

(** The owner of order 7 cannot be loaded: the attempt throws, and the guard
    of order 7 is gone all the same. *)
Example guard_released_after_throw :
  let E := roughMarket book3 (fun op => match op with OpGetUser => true | _ => false end) in
  fst (@bidTradeService E order7 world7) = Err (Error "DB Error") /\
  isProcessing (snd (@bidTradeService E order7 world7)) = ∅.
Proof. split; reflexivity. Qed.

(** ** trade/trade-bid.service.ts: what is not awaited *)

Section DetachedFacts.

Lemma executeBidTrade_independent (E1 E2 : Environment) bidDto order user w :
  sameUpToReconciliation E1 E2 ->
  @executeBidTrade E1 bidDto order user w = @executeBidTrade E2 bidDto order user w.
Proof.
  intros (Hadd & Hmul & Hformat & Hminimum & _ & Hstorage).
  rewrite (@executeBidTrade_eq E1), (@executeBidTrade_eq E2).
  unfold makeBuyData, rowsAfterFill, remainingAfter, settleInMemory, orderRow, sub.
  rewrite Hadd, Hmul, Hformat, Hminimum.
  rewrite (Hstorage OpFindTradeWithLock) by done.
  destruct (@storageFails E2 OpFindTradeWithLock (db w)); [done|].
  destruct (find _ _) as [tradeData|]; [|done].
  destruct (@isMinimumQuantity E2 (Trade.quantity tradeData)); [done|].
  cbv zeta. destruct (@isMinimumQuantity E2 _); [done|].
  rewrite (Hstorage OpUpdateTrade) by done.
  destruct (@storageFails E2 OpUpdateTrade (db w)); [done|].
  by rewrite (Hstorage OpCommit).
Qed.

Lemma bidLoop_independent (E1 E2 : Environment) bidDto user book w :
  sameUpToReconciliation E1 E2 ->
  @bidLoop E1 bidDto user book w = @bidLoop E2 bidDto user book w.
Proof.
  intros Hsame. revert w. induction book as [|order rest IH]; intros w; [done|].
  rewrite (@bidLoop_cons E1), (@bidLoop_cons E2), (@bidLevel_eq E1), (@bidLevel_eq E2).
  rewrite (executeBidTrade_independent E1 E2) by done.
  destruct Hsame as (_ & _ & _ & Hminimum & _). rewrite Hminimum.
  destruct (gtb _ _); [done|].
  destruct (@executeBidTrade E2 bidDto order user w) as [[remainingQuantity|error] w'].
  - destruct (@isMinimumQuantity E2 remainingQuantity); [done|apply IH].
  - by destruct (instanceofTradeNotFound error).
Qed.

Lemma bidTradeService_independent (E1 E2 : Environment) bidDto w :
  sameUpToReconciliation E1 E2 ->
  @bidTradeService E1 bidDto w = @bidTradeService E2 bidDto w.
Proof.
  intros Hsame. unfold bidTradeService, bidTradeServiceAmid, bind, get, try_finally, modify.
  fold (@bidAttempt E1 bidDto) (@bidAttempt E2 bidDto).
  destruct (truthy _); [done|].
  rewrite (@bidAttempt_eq E1), (@bidAttempt_eq E2).
  destruct Hsame as (Hadd & Hmul & Hformat & Hminimum & Hbook & Hstorage).
  rewrite (Hstorage OpGetUser), (Hstorage OpGetAccount) by done. rewrite Hbook.
  destruct (@storageFails E2 OpGetUser _); [done|].
  destruct (@storageFails E2 OpGetAccount _); [done|].
  destruct (find _ _) as [account|]; [|done].
  by rewrite (bidLoop_independent E1 E2).
Qed.

(** C10.  Take two environments that agree on everything but the storage
    layer's verdict on the calls the reconciliation makes (asset look-up,
    asset insert and update, ledger update, history append).  A call of
    [executeBidTrade] gives the same result, the remaining quantity
    included, and the same world in both; so does the walk over a snapshot,
    and so does a whole attempt.  What the reconciliation of a fill will
    come to has no bearing on what the fill reports. *)
Theorem reconciliation_is_not_awaited (E1 E2 : Environment) bidDto order user book w :
  sameUpToReconciliation E1 E2 ->
  @executeBidTrade E1 bidDto order user w = @executeBidTrade E2 bidDto order user w /\
  @bidLoop E1 bidDto user book w = @bidLoop E2 bidDto user book w /\
  @bidTradeService E1 bidDto w = @bidTradeService E2 bidDto w.
Proof.
  intros Hsame. split; [|split].
  - by apply executeBidTrade_independent.
  - by apply bidLoop_independent.
  - by apply bidTradeService_independent.
Qed.

(** A detached promise that rejects ends in the list of unhandled
    rejections; [settleTask] has no error to give back. *)
Lemma settleTask_rejection `{Environment} t w e w' :
  runTask t w = (Err e, w') ->
  settleTask t w = set_unhandledRejections (unhandledRejections w' ++ [e]) w'.
Proof. intros Hrun. unfold settleTask. by rewrite Hrun. Qed.

End DetachedFacts.

(** With the reconciliation doomed, the fill of order 7 at 9000 x 1 reports
    the remaining quantity 2 as it does in the calm market; when the three
    detached promises run they reject, the ledger and the asset table stay as
    they were, and the three errors end as unhandled rejections. *)
Lemma reconciliation_is_not_awaited_witness :
  let calm := calmMarket book3 in
  let doomed := roughMarket book3 reconciliationDown in
  let out := @executeBidTrade doomed order7 (level 9000 1) (User.mk 1) world7InFlight in
  sameUpToReconciliation calm doomed /\
  out = @executeBidTrade calm order7 (level 9000 1) (User.mk 1) world7InFlight /\
  fst out = Ok (ofZ 2) /\
  accounts (db (@settle doomed (snd out))) = [account10] /\
  assets (db (@settle doomed (snd out))) = [] /\
  unhandledRejections (@settle doomed (snd out)) =
    [Error "DB Error"; InternalServerErrorException "asset lookup failed"; Error "DB Error"].
Proof.
  intros calm doomed out.
  assert (sameUpToReconciliation calm doomed) as Hsame.
  { repeat split. intros op rows. by destruct op. }
  split; [exact Hsame|].
  split.
  { symmetry.
    apply (reconciliation_is_not_awaited calm doomed order7 (level 9000 1) (User.mk 1) book3
             world7InFlight Hsame). }
  repeat split; reflexivity.
Defined.

(** ** trade/trade-bid.service.ts: order creation *)

Section CreationFacts.
Context `{Environment}.

(** Past the minimum-amount check, [createBidTrade] has no way to reject:
    whatever is thrown inside its [try] is logged and dropped. *)
Lemma createBidTrade_resolves userId bidDto w :
  isMinimumQuantity (mul (TradeData.receivedAmount bidDto) (TradeData.receivedPrice bidDto))
    = false ->
  isOk (fst (createBidTrade userId bidDto w)) = true.
Proof.
  intros Hminimum. unfold createBidTrade. rewrite Hminimum.
  unfold try_catch.
  match goal with
  | |- context [match ?body w with _ => _ end] => by destruct (body w) as [[v|e] w']
  end.
Qed.

(** An order the available balance does not cover: the rejection of
    [checkCurrencyBalance] is logged, the promise resolves with
    [undefined], and nothing is written. *)
Lemma createBidTrade_insufficient userId bidDto w account e :
  isMinimumQuantity (mul (TradeData.receivedAmount bidDto) (TradeData.receivedPrice bidDto))
    = false ->
  leb (TradeData.receivedAmount bidDto) zero = false ->
  storageFails OpGetAccount (db w) = false ->
  find (fun a => (Account.user a =? userId)%Z) (accounts (db w)) = Some account ->
  checkCurrencyBalance bidDto account = Err e ->
  createBidTrade userId bidDto w = (Ok None, set_console (console w ++ [e]) w).
Proof.
  intros Hminimum Hpositive Hstorage Haccount Hfunds.
  unfold createBidTrade, createBidTradeCallback, validateUserAccount.
  rewrite Hminimum. unfold_async. cbn [fst snd view isTransactionActive hasWritten].
  rewrite Hpositive, Hstorage, Haccount, Hfunds.
  cbn [fst snd view isTransactionActive hasWritten andb]. by destruct w.
Qed.
End CreationFacts.

(** C3.  The code at a failing input: user 2 holds 100 KRW available and
    asks for 3 BTC at 9500 KRW.  [checkCurrencyBalance] rejects with the
    insufficient-funds error, and no order is inserted; but [createBidTrade]
    catches the error, logs it, and its promise resolves (with [undefined])
    instead of rejecting. *)
Theorem createBidTrade_swallows_insufficient_funds :
  checkCurrencyBalance (H := calmMarket []) request2 account20
    = Err (UnprocessableEntityException "insufficient assets") /\
  @createBidTrade (calmMarket []) 2 request2 world20
    = (Ok None,
       set_console [UnprocessableEntityException "insufficient assets"] world20) /\
  trades (db (snd (@createBidTrade (calmMarket []) 2 request2 world20))) = [].
Proof. repeat split; reflexivity. Qed.

(** ** trade/worker-pool.service.ts *)

Section PoolFacts.
Import WorkerPool.
Context {UserT TaskData Reply : Type} (work : @Message UserT TaskData -> Reply).

Lemma pop_snoc {A} (l : list A) (x : A) : pop (l ++ [x]) = (Some x, l).
Proof. unfold pop. rewrite rev_app_distr. simpl. by rewrite rev_involutive. Qed.

(** With an idle worker, the task is posted to it at once: the last idle
    worker leaves the pool, the message is in its inbox, and the queue is
    what it was. *)
Lemma executeTask_idle user taskData (s : @Pool UserT TaskData Reply) idle worker :
  pool s = idle ++ [worker] ->
  let s' := snd (executeTask user taskData s) in
  pool s' = idle /\
  inbox s' !! worker = Some (default [] (inbox s !! worker) ++ [UserAndData user taskData]) /\
  taskQueue s' = taskQueue s.
Proof.
  intros Hpool. unfold executeTask. cbn [pool]. rewrite Hpool, pop_snoc. simpl.
  by rewrite lookup_insert_eq.
Qed.

(** With no idle worker, the task goes to the end of the queue and nothing
    is posted. *)
Lemma executeTask_busy user taskData (s : @Pool UserT TaskData Reply) :
  pool s = [] ->
  let s' := snd (executeTask user taskData s) in
  taskQueue s' = taskQueue s ++ [mkQueuedTask user taskData (nextPromise s)] /\
  inbox s' = inbox s /\
  pool s' = [].
Proof. intros Hpool. unfold executeTask. cbn [pool]. by rewrite Hpool. Qed.

(** Settling promises leaves the pool, the queue and the inboxes alone. *)
Lemma settle_all_frame listeners v (s : @Pool UserT TaskData Reply) :
  let s' := fold_left (fun s p => settlePromise p v s) listeners s in
  taskQueue s' = taskQueue s /\ inbox s' = inbox s /\ pool s' = pool s.
Proof.
  revert s. induction listeners as [|p listeners IH]; intros s; [done|].
  simpl. destruct (IH (settlePromise p v s)) as (-> & -> & ->).
  unfold settlePromise. by destruct (promises s !! p).
Qed.

(** A worker that reports claims the oldest queued task: its data is
    posted to that worker and the rest of the queue keeps its order. *)
Lemma emitMessage_claims_oldest worker result (s : @Pool UserT TaskData Reply) task rest :
  taskQueue s = task :: rest ->
  let s' := emitMessage worker result s in
  taskQueue s' = rest /\
  inbox s' !! worker = Some (default [] (inbox s !! worker) ++ [DataOnly (task_data task)]) /\
  pool s' = pool s.
Proof.
  intros Hqueue. unfold emitMessage.
  destruct (settle_all_frame
              (default [] (onMessageResolve (poolOnMessage worker result s) !! worker))
              (Resolved result) (poolOnMessage worker result s)) as (-> & -> & ->).
  unfold poolOnMessage. rewrite Hqueue.
  unfold settlePromise, postMessage. simpl.
  destruct (promises s !! task_promise task); simpl; by rewrite lookup_insert_eq.
Qed.

(** With an empty queue, the worker that reports becomes idle. *)
Lemma emitMessage_idle worker result (s : @Pool UserT TaskData Reply) :
  taskQueue s = [] ->
  pool (emitMessage worker result s) = pool s ++ [worker].
Proof.
  intros Hqueue. unfold emitMessage.
  destruct (settle_all_frame
              (default [] (onMessageResolve (poolOnMessage worker result s) !! worker))
              (Resolved result) (poolOnMessage worker result s)) as (_ & _ & ->).
  unfold poolOnMessage. by rewrite Hqueue.
Qed.
End PoolFacts.

(** C9.  The code at a failing input: worker 0 is idle; caller 1 submits
    task "A", which is posted to worker 0, and caller 2 submits task "B",
    which is queued.  Workers echo what they are sent, so a reply names its
    task.  When worker 0 reports the reply of "A", the 'message' listener
    takes "B" from the queue, posts it, and resolves the promise of "B" with
    the reply that just arrived: caller 2 receives the result of "A".  The
    reply that worker 0 later gives for "B" settles nothing. *)
Theorem queued_task_receives_previous_result :
  let events :=
    [WorkerPool.Announce 0 (WorkerPool.DataOnly "ready"%string);
     WorkerPool.Submit 1%Z "A"%string;
     WorkerPool.Submit 2%Z "B"%string;
     WorkerPool.Answer 0] in
  let s := WorkerPool.run (fun m => m) events WorkerPool.init in
  let s' := WorkerPool.run (fun m => m) [WorkerPool.Answer 0] s in
  WorkerPool.promises s !! 0
    = Some (WorkerPool.Resolved (WorkerPool.UserAndData 1%Z "A"%string)) /\
  WorkerPool.promises s !! 1
    = Some (WorkerPool.Resolved (WorkerPool.UserAndData 1%Z "A"%string)) /\
  WorkerPool.inbox s !! 0 = Some [WorkerPool.DataOnly "B"%string] /\
  WorkerPool.promises s' !! 1
    = Some (WorkerPool.Resolved (WorkerPool.UserAndData 1%Z "A"%string)) /\
  WorkerPool.pool s' = [0].
Proof. repeat split; vm_compute; reflexivity. Qed.

(** * Further properties *)

(** ** asset/utils/util.ts and asset/asset.repository.ts *)

Section CheckFacts.

Lemma split_has_two valueStr :
  includes valueStr "."%char = true -> exists a b rest, split valueStr "."%char = a :: b :: rest.
Proof.
  induction valueStr as [|c valueStr IH]; [done|]. simpl.
  destruct (Ascii.eqb c "."%char); simpl.
  - intros _. destruct valueStr as [|d valueStr']; simpl; [by eexists _, _, _|].
    destruct (Ascii.eqb d "."%char); [by eexists _, _, _|].
    destruct (split valueStr' "."%char); by eexists _, _, _.
  - intros Hin. destruct (IH Hin) as (a & b & rest & ->). by eexists _, _, _.
Qed.

(** X1.  Whatever the value, the check either passes or throws an
    InternalServerErrorException: the destructured [decimalPart] is never
    [undefined]. *)
Theorem ensureMax8Decimals_throws_only_internal_error value fieldName :
  match ensureMax8Decimals value fieldName with
  | Ok _ => True
  | Err e => isInternalServerError e = true
  end.
Proof.
  unfold ensureMax8Decimals.
  destruct (isNaN value || negb (isFinite value)); [done|].
  destruct (includes (toString value) "."%char) eqn:Hpoint; [|done].
  destruct (split_has_two _ Hpoint) as (a & b & rest & ->).
  by destruct (8 <? String.length b)%nat.
Qed.

Lemma digitsOf_notPoint n : forallb notPoint (digitsOf n) = true.
Proof. apply digits_notPoint, digitsOf_digits. Qed.

(** X2.  A value with a single significant digit passes the check whatever its
    magnitude: 1e-9 or 5e-300 as well as 3e25, 0.5 or 7. *)
Theorem ensureMax8Decimals_accepts_single_digit m e fieldName :
  (m <> 0)%Z ->
  length (fst (significand m)) = 1 ->
  ensureMax8Decimals (Finite m e) fieldName = Ok tt.
Proof.
  intros Hm Hone.
  assert (isOk (ensureMax8Decimals (Finite m e) fieldName) = true) as Hok.
  { destruct (decide (-6 < decimalExponent m e <= 21)%Z) as [Hplain|Hexp].
    - rewrite ensureMax8Decimals_plain by done.
      unfold fractionDigits, decimalExponent in *. apply Z.eqb_neq in Hm. rewrite Hm.
      destruct (significand m) as [s z]. simpl in Hone. rewrite Hone in Hplain.
      apply Z.leb_le. lia.
    - unfold ensureMax8Decimals, toString, decimalExponent in *.
      cbn [isNaN isFinite orb negb]. apply Z.eqb_neq in Hm. rewrite Hm.
      pose proof (significand_digits m) as Hdigits.
      destruct (significand m) as [s z]. cbn [fst] in Hdigits, Hone.
      set (n := (e + z + Z.of_nat (length s))%Z) in *.
      unfold render. fold n. rewrite Hone.
      change (Z.of_nat 1) with 1%Z.
      destruct (Z.leb_spec 1 n), (Z.leb_spec n 21), (Z.ltb_spec 0 n), (Z.ltb_spec (-6) n),
        (Z.leb_spec n 0); cbn [andb]; try lia.
      all: cbn [Z.eqb Pos.eqb].
      all: rewrite includes_notPoint; [done|].
      all: rewrite !forallb_app; cbn [forallb].
      all: rewrite (digits_notPoint s Hdigits), digitsOf_notPoint.
      all: by destruct (m <? 0)%Z, (n - 1 <? 0)%Z. }
  by destruct (ensureMax8Decimals (Finite m e) fieldName) as [[]|].
Qed.
End CheckFacts.

(** 5e-300, which has 300 digits after the decimal point, is accepted. *)
Lemma ensureMax8Decimals_accepts_single_digit_witness :
  ensureMax8Decimals (Finite 5 (-300)) "quantity" = Ok tt.
Proof. apply ensureMax8Decimals_accepts_single_digit; [discriminate|reflexivity]. Defined.

Section RepositoryFacts.
Context `{Environment}.

Lemma set_assets_same rows : set_assets (assets rows) rows = rows.
Proof. by destruct rows. Qed.

Lemma find_append {A} (P : A -> bool) (l l' : list A) :
  find P (l ++ l') = match find P l with Some x => Some x | None => find P l' end.
Proof. induction l as [|x l IH]; simpl; [done|]. by destruct (P x). Qed.

Lemma assetId_below_next (rows : list Asset.t) r :
  r ∈ rows -> (Asset.assetId r < nextAssetId rows)%Z.
Proof.
  unfold nextAssetId. induction rows as [|r' rows IH]; intros Hin.
  { by apply elem_of_nil in Hin. }
  simpl. apply elem_of_cons in Hin as [->|Hin]; [lia|]. apply IH in Hin. lia.
Qed.

(** [createAsset], branch by branch. *)
Lemma createAsset_eq typeReceived account price quantity rows :
  createAsset typeReceived account price quantity rows =
    if isOk (ensureMax8Decimals price "price") && isOk (ensureMax8Decimals quantity "quantity")
       && negb (storageFails OpSaveAsset rows)
    then
      let saved := Asset.mk (nextAssetId (assets rows)) typeReceived price quantity quantity
                     (Account.id account) in
      (Ok saved, set_assets (assets rows ++ [saved]) rows)
    else (Err (InternalServerErrorException "asset creation failed"), rows).
Proof.
  unfold createAsset, save. unfold_async.
  destruct (ensureMax8Decimals price "price") as [[]|e1]; [|done].
  destruct (ensureMax8Decimals quantity "quantity") as [[]|e2]; [|done].
  by destruct (storageFails OpSaveAsset rows).
Qed.

Lemma getAsset_eq id assetName rows :
  getAsset id assetName rows =
    if storageFails OpFindAsset rows
    then (Err (InternalServerErrorException "asset lookup failed"), rows)
    else (Ok (find (isHolding id assetName) (assets rows)), rows).
Proof. unfold getAsset, findOneAsset. unfold_async. by destruct (storageFails _ _). Qed.

Lemma getAssets_eq accountId rows :
  getAssets accountId rows =
    if storageFails OpFindAsset rows
    then (Err (InternalServerErrorException "asset price lookup failed"), rows)
    else (Ok (map (fun asset => mkCoin ("KRW-" +:+ Asset.assetName asset) (Asset.price asset)
                                  (Asset.quantity asset))
                  (List.filter (fun r => (Asset.account r =? accountId)%Z) (assets rows))),
          rows).
Proof. unfold getAssets, findAssets. unfold_async. by destruct (storageFails _ _). Qed.

(** [updateAssetQuantityPrice], branch by branch. *)
Lemma updateAssetQuantityPrice_eq asset rows :
  updateAssetQuantityPrice asset rows =
    if isOk (ensureMax8Decimals (Asset.price asset) "price")
       && isOk (ensureMax8Decimals (Asset.quantity asset) "quantity")
       && isOk (ensureMax8Decimals (Asset.availableQuantity asset) "availableQuantity")
       && negb (storageFails OpUpdateAsset rows)
    then
      (Ok tt,
       set_assets
         (map (fun r => if (Asset.assetId r =? Asset.assetId asset)%Z
                        then withAmounts (Asset.price asset) (Asset.quantity asset)
                               (Asset.availableQuantity asset) r
                        else r)
              (assets rows))
         rows)
    else (Err (InternalServerErrorException "asset update failed"), rows).
Proof.
  unfold updateAssetQuantityPrice, updateWhereAssetId. unfold_async.
  destruct (ensureMax8Decimals (Asset.price asset) "price") as [[]|e1]; [|done].
  destruct (ensureMax8Decimals (Asset.quantity asset) "quantity") as [[]|e2]; [|done].
  destruct (ensureMax8Decimals (Asset.availableQuantity asset) "availableQuantity")
    as [[]|e3]; [|done].
  by destruct (storageFails OpUpdateAsset rows).
Qed.

(** X3.  A new holding can be read back: when the account has no holding of the
    asset yet, a successful [createAsset] is followed by a [getAsset] that
    returns the row just saved, with the price and the quantity as given and
    the whole quantity available; before, [getAsset] returned nothing. *)
Theorem createAsset_then_getAsset typeReceived account price quantity rows :
  isOk (ensureMax8Decimals price "price") = true ->
  isOk (ensureMax8Decimals quantity "quantity") = true ->
  storageFails OpSaveAsset rows = false ->
  (forall rows', storageFails OpFindAsset rows' = false) ->
  getAsset (Account.id account) typeReceived rows = (Ok None, rows) ->
  exists saved rows',
    createAsset typeReceived account price quantity rows = (Ok saved, rows') /\
    getAsset (Account.id account) typeReceived rows' = (Ok (Some saved), rows') /\
    Asset.price saved = price /\ Asset.quantity saved = quantity /\
    Asset.availableQuantity saved = quantity /\
    Asset.assetName saved = typeReceived /\ Asset.account saved = Account.id account.
Proof.
  intros Hprice Hquantity Hsave Hfind Hnone.
  rewrite getAsset_eq, Hfind in Hnone. injection Hnone as Hnone.
  eexists _, _. split.
  { by rewrite createAsset_eq, Hprice, Hquantity, Hsave. }
  split; [|done].
  rewrite getAsset_eq, Hfind. cbn [assets set_assets]. do 2 f_equal.
  rewrite find_append. fold (isHolding (Account.id account) typeReceived). rewrite Hnone. unfold isHolding. cbn [find Asset.account Asset.assetName].
  by rewrite Z.eqb_refl, String.eqb_refl.
Qed.

(** X4.  [createAsset] does not look for an existing holding: when the account
    already holds the asset and the storage layer takes the insert, a second
    row is added for the same account and asset, under an id of its own, and
    [getAsset] goes on returning the old row. *)
Theorem createAsset_beside_existing_holding typeReceived account price quantity rows old :
  isOk (ensureMax8Decimals price "price") = true ->
  isOk (ensureMax8Decimals quantity "quantity") = true ->
  storageFails OpSaveAsset rows = false ->
  (forall rows', storageFails OpFindAsset rows' = false) ->
  getAsset (Account.id account) typeReceived rows = (Ok (Some old), rows) ->
  exists saved rows',
    createAsset typeReceived account price quantity rows = (Ok saved, rows') /\
    assets rows' = assets rows ++ [saved] /\
    isHolding (Account.id account) typeReceived saved = true /\
    Asset.assetId saved <> Asset.assetId old /\
    getAsset (Account.id account) typeReceived rows' = (Ok (Some old), rows').
Proof.
  intros Hprice Hquantity Hsave Hfind Hold.
  rewrite getAsset_eq, Hfind in Hold. injection Hold as Hold.
  eexists _, _. split.
  { by rewrite createAsset_eq, Hprice, Hquantity, Hsave. }
  split; [done|]. split.
  { unfold isHolding. cbn [Asset.account Asset.assetName]. by rewrite Z.eqb_refl, String.eqb_refl. }
  split.
  { cbn [Asset.assetId]. apply find_some in Hold as [Hin _].
    apply list_elem_of_In, assetId_below_next in Hin. lia. }
  rewrite getAsset_eq, Hfind. cbn [assets set_assets]. rewrite find_append. fold (isHolding (Account.id account) typeReceived). by rewrite Hold.
Qed.

Lemma updateWhereAssetId_eq assetId f rows :
  updateWhereAssetId assetId f rows =
    if storageFails OpUpdateAsset rows then (Err (Error "DB Error"), rows)
    else (Ok tt,
          set_assets (map (fun r => if (Asset.assetId r =? assetId)%Z then f r else r)
                          (assets rows)) rows).
Proof. unfold updateWhereAssetId. unfold_async. by destruct (storageFails _ _). Qed.

Lemma touchesOnly_refl assetId rows : touchesOnly assetId rows rows.
Proof. by repeat split. Qed.

Lemma touchesOnly_update assetId (f : Asset.t -> Asset.t) rows :
  (forall r, Asset.assetId (f r) = Asset.assetId r /\
             Asset.assetName (f r) = Asset.assetName r /\
             Asset.account (f r) = Asset.account r) ->
  touchesOnly assetId rows
    (set_assets (map (fun r => if (Asset.assetId r =? assetId)%Z then f r else r)
                     (assets rows)) rows).
Proof.
  intros Hkeys. unfold touchesOnly, assetKeys. cbn [assets set_assets trades accounts].
  split; [|split; [done|split; [done|]]].
  - rewrite map_map. apply map_ext. intros r. destruct (_ =? _)%Z; [|done].
    destruct (Hkeys r) as (-> & -> & ->). done.
  - intros i r Hi Hid. change (map ?g ?l) with (g <$> l). rewrite list_lookup_fmap, Hi.
    cbn [fmap option_fmap option_map]. destruct (Z.eqb_spec (Asset.assetId r) assetId); done.
Qed.

Lemma updater_touchesOnly (check : Result unit) assetId f message rows :
  (forall r, Asset.assetId (f r) = Asset.assetId r /\
             Asset.assetName (f r) = Asset.assetName r /\
             Asset.account (f r) = Asset.account r) ->
  touchesOnly assetId rows
    (snd (try_catch (liftResult check ;; updateWhereAssetId assetId f)
            (fun error => throw (InternalServerErrorException message)) rows)).
Proof.
  intros Hkeys. unfold try_catch, bind, liftResult, throw.
  destruct check as [[]|e]; [|apply touchesOnly_refl].
  rewrite updateWhereAssetId_eq. destruct (storageFails _ _); [apply touchesOnly_refl|].
  by apply touchesOnly_update.
Qed.

Lemma updater_failsCleanly (check : Result unit) assetId f message rows :
  failsCleanly rows
    (try_catch (liftResult check ;; updateWhereAssetId assetId f)
       (fun error => throw (InternalServerErrorException message)) rows).
Proof.
  unfold try_catch, bind, liftResult, throw, failsCleanly.
  destruct check as [[]|e]; [|done].
  rewrite updateWhereAssetId_eq. by destruct (storageFails _ _).
Qed.

Lemma bind_liftResult {S B} (r1 r2 : Result unit) (k : M S B) :
  (liftResult r1 ;; liftResult r2 ;; k)%async =
  (liftResult (match r1 with Ok _ => r2 | Err e => Err e end) ;; k)%async.
Proof.
  unfold bind, liftResult. destruct r1 as [[]|e1]; [|done]. done.
Qed.

(** X5.  Whatever goes wrong inside the repository, the check of the decimals
    or the storage layer, reaches the caller as an
    InternalServerErrorException, and the failed call has written nothing:
    this holds for every method of the repository. *)
Theorem repository_fails_cleanly typeReceived account price quantity asset id assetName rows :
  failsCleanly rows (createAsset typeReceived account price quantity rows) /\
  failsCleanly rows (updateAssetQuantityPrice asset rows) /\
  failsCleanly rows (updateAssetQuantityPriceWithQR asset rows) /\
  failsCleanly rows (updateAssetQuantity asset rows) /\
  failsCleanly rows (updateAssetAvailableQuantity asset rows) /\
  failsCleanly rows (updateAssetPrice asset rows) /\
  failsCleanly rows (getAssetWithQR id assetName rows) /\
  failsCleanly rows (getAsset id assetName rows) /\
  failsCleanly rows (getAssets id rows).
Proof.
  split. { rewrite createAsset_eq. by destruct (_ && _). }
  split. { unfold updateAssetQuantityPrice. rewrite !bind_liftResult.
           apply updater_failsCleanly. }
  split. { unfold updateAssetQuantityPriceWithQR. rewrite !bind_liftResult.
           apply updater_failsCleanly. }
  split. { apply updater_failsCleanly. }
  split. { apply updater_failsCleanly. }
  split. { unfold updateAssetPrice. rewrite !bind_liftResult. apply updater_failsCleanly. }
  split. { unfold getAssetWithQR, findOneAsset. unfold_async.
           by destruct (storageFails _ _). }
  split. { rewrite getAsset_eq. by destruct (storageFails _ _). }
  rewrite getAssets_eq. by destruct (storageFails _ _).
Qed.

(** X6.  The five updates rewrite amounts only: whatever their outcome, the ids,
    names and owners of the asset rows stay as they were, row by row, no row
    is added or removed, the rows with another id are unchanged, and the
    trades and accounts are not touched.  The three look-ups change
    nothing. *)
Theorem updates_touch_only_their_asset asset id assetName rows :
  touchesOnly (Asset.assetId asset) rows (snd (updateAssetQuantityPrice asset rows)) /\
  touchesOnly (Asset.assetId asset) rows (snd (updateAssetQuantityPriceWithQR asset rows)) /\
  touchesOnly (Asset.assetId asset) rows (snd (updateAssetQuantity asset rows)) /\
  touchesOnly (Asset.assetId asset) rows (snd (updateAssetAvailableQuantity asset rows)) /\
  touchesOnly (Asset.assetId asset) rows (snd (updateAssetPrice asset rows)) /\
  snd (getAsset id assetName rows) = rows /\
  snd (getAssetWithQR id assetName rows) = rows /\
  snd (getAssets id rows) = rows.
Proof.
  split. { unfold updateAssetQuantityPrice. rewrite !bind_liftResult.
           by apply updater_touchesOnly. }
  split. { unfold updateAssetQuantityPriceWithQR. rewrite !bind_liftResult.
           by apply updater_touchesOnly. }
  split. { by apply updater_touchesOnly. }
  split. { by apply updater_touchesOnly. }
  split. { unfold updateAssetPrice. rewrite !bind_liftResult. by apply updater_touchesOnly. }
  split. { rewrite getAsset_eq. by destruct (storageFails _ _). }
  split. { unfold getAssetWithQR, findOneAsset. unfold_async.
           by destruct (storageFails _ _). }
  rewrite getAssets_eq. by destruct (storageFails _ _).
Qed.

(** X7.  An update can be read back: when [getAsset] finds the row [old] for an
    account and an asset, a successful [updateAssetQuantityPrice] of an
    entity with the id of [old] makes the next [getAsset] return [old] with
    the entity's price, quantity and available quantity, and with the id,
    name and owner [old] had. *)
Theorem updateAssetQuantityPrice_then_getAsset asset id assetName old rows rows' :
  (forall rows, storageFails OpFindAsset rows = false) ->
  getAsset id assetName rows = (Ok (Some old), rows) ->
  Asset.assetId asset = Asset.assetId old ->
  updateAssetQuantityPrice asset rows = (Ok tt, rows') ->
  getAsset id assetName rows' =
    (Ok (Some (withAmounts (Asset.price asset) (Asset.quantity asset)
                 (Asset.availableQuantity asset) old)), rows').
Proof.
  intros Hfind Hold Hid Hupdate.
  rewrite getAsset_eq, Hfind in Hold. injection Hold as Hold.
  rewrite updateAssetQuantityPrice_eq in Hupdate.
  destruct (_ && _); [|done]. injection Hupdate as <-.
  rewrite getAsset_eq, Hfind. cbn [assets set_assets]. do 2 f_equal.
  rewrite find_map_keeps, Hold.
  - cbn [option_map]. by rewrite Hid, Z.eqb_refl.
  - intros r. by destruct (_ =? _)%Z.
Qed.

(** X8.  An update of an asset id that no row has is not an error: the call
    succeeds and the tables are as before, so the caller cannot tell that
    nothing was written. *)
Theorem update_of_unknown_asset_is_silent asset rows :
  (forall r, r ∈ assets rows -> Asset.assetId r <> Asset.assetId asset) ->
  isOk (ensureMax8Decimals (Asset.price asset) "price") = true ->
  isOk (ensureMax8Decimals (Asset.quantity asset) "quantity") = true ->
  isOk (ensureMax8Decimals (Asset.availableQuantity asset) "availableQuantity") = true ->
  storageFails OpUpdateAsset rows = false ->
  updateAssetQuantityPrice asset rows = (Ok tt, rows).
Proof.
  intros Hunknown Hprice Hquantity Havailable Hstorage.
  rewrite updateAssetQuantityPrice_eq, Hprice, Hquantity, Havailable, Hstorage.
  cbn [andb negb]. f_equal.
  assert (map (fun r => if (Asset.assetId r =? Asset.assetId asset)%Z
                        then withAmounts (Asset.price asset) (Asset.quantity asset)
                               (Asset.availableQuantity asset) r
                        else r) (assets rows) = assets rows) as ->.
  { rewrite <- (map_id (assets rows)) at 2. apply map_ext_in. intros r Hin.
    apply list_elem_of_In, Hunknown in Hin.
    by destruct (Z.eqb_spec (Asset.assetId r) (Asset.assetId asset)). }
  apply set_assets_same.
Qed.

(** X9.  The listing follows the table: after a successful [createAsset] for an
    account, [getAssets] of that account lists what it listed before and the
    new coin, under the code KRW-<name> with the price and the quantity
    given; the listing of every other account is unchanged. *)
Theorem createAsset_extends_listing typeReceived account price quantity rows saved rows'
    accountId :
  (forall rows, storageFails OpFindAsset rows = false) ->
  createAsset typeReceived account price quantity rows = (Ok saved, rows') ->
  exists coins,
    getAssets accountId rows' = (Ok coins, rows') /\
    getAssets accountId rows = (Ok (listing accountId rows), rows) /\
    (if (accountId =? Account.id account)%Z
     then coins ≡ₚ mkCoin ("KRW-" +:+ typeReceived) price quantity :: listing accountId rows
     else coins = listing accountId rows).
Proof.
  intros Hfind Hcreate. rewrite createAsset_eq in Hcreate.
  destruct (_ && _); [|done]. injection Hcreate as <- <-.
  rewrite !getAssets_eq, !Hfind. eexists. split; [done|]. split; [done|].
  fold (listing accountId rows). cbn [assets set_assets].
  rewrite List.filter_app, map_app.
  cbn [List.filter Asset.account]. rewrite (Z.eqb_sym (Account.id account)).
  destruct (_ =? _)%Z; cbn [map].
  - cbn [Asset.assetName Asset.price Asset.quantity]. symmetry. apply Permutation_cons_append.
  - by rewrite app_nil_r.
Qed.

(** X10.  Writing the price and the quantity with [updateAssetPrice] and then the
    available quantity with [updateAssetAvailableQuantity] leaves the tables
    as the single [updateAssetQuantityPrice] does. *)
Theorem two_updates_make_the_full_update asset rows rows1 rows2 :
  updateAssetPrice asset rows = (Ok tt, rows1) ->
  updateAssetAvailableQuantity asset rows1 = (Ok tt, rows2) ->
  updateAssetQuantityPrice asset rows = (Ok tt, rows2).
Proof.
  intros Hfirst Hsecond. rewrite updateAssetQuantityPrice_eq.
  unfold updateAssetPrice, updateAssetAvailableQuantity in *.
  unfold try_catch, bind, liftResult, throw in Hfirst, Hsecond.
  destruct (ensureMax8Decimals (Asset.price asset) "price") as [[]|]; [|done].
  destruct (ensureMax8Decimals (Asset.quantity asset) "quantity") as [[]|]; [|done].
  destruct (ensureMax8Decimals (Asset.availableQuantity asset) "availableQuantity")
    as [[]|]; [|done].
  rewrite updateWhereAssetId_eq in Hfirst, Hsecond.
  destruct (storageFails OpUpdateAsset rows); [done|].
  destruct (storageFails OpUpdateAsset rows1); [done|].
  injection Hfirst as <-. injection Hsecond as <-.
  destruct rows as [ts acs ass]. unfold set_assets.
  cbn [isOk andb negb assets trades accounts]. do 2 f_equal.
  rewrite map_map. apply map_ext. intros r. unfold withAmounts.
  destruct (Z.eqb_spec (Asset.assetId r) (Asset.assetId asset)) as [Heq|Hne].
  - cbn [Asset.assetId]. by destruct (Z.eqb_spec (Asset.assetId r) (Asset.assetId asset)).
  - by destruct (Z.eqb_spec (Asset.assetId r) (Asset.assetId asset)).
Qed.
End RepositoryFacts.

(** Account 10, which holds BTC only, is given 2.5 ETH for 500. *)
Lemma createAsset_then_getAsset_witness :
  exists saved rows',
    @createAsset (calmMarket []) "ETH" account10 (ofZ 500) (Finite 25 (-1)) holdings
      = (Ok saved, rows') /\
    @getAsset (calmMarket []) (Account.id account10) "ETH" rows' = (Ok (Some saved), rows') /\
    Asset.price saved = ofZ 500 /\ Asset.quantity saved = Finite 25 (-1) /\
    Asset.availableQuantity saved = Finite 25 (-1) /\
    Asset.assetName saved = "ETH"%string /\ Asset.account saved = Account.id account10.
Proof.
  apply (@createAsset_then_getAsset (calmMarket [])); reflexivity.
Defined.

(** Account 10 already holds BTC and is given a second BTC row. *)
Lemma createAsset_beside_existing_holding_witness :
  exists saved rows',
    @createAsset (calmMarket []) "BTC" account10 (ofZ 4750) (Finite 5 (-1)) holdings
      = (Ok saved, rows') /\
    assets rows' = assets holdings ++ [saved] /\
    isHolding (Account.id account10) "BTC" saved = true /\
    Asset.assetId saved <> Asset.assetId btc10 /\
    @getAsset (calmMarket []) (Account.id account10) "BTC" rows' = (Ok (Some btc10), rows').
Proof.
  apply (@createAsset_beside_existing_holding (calmMarket [])); reflexivity.
Defined.

(** The BTC row of account 10 is updated to [btc10More] and read back. *)
Lemma updateAssetQuantityPrice_then_getAsset_witness :
  let rows' := snd (@updateAssetQuantityPrice (calmMarket []) btc10More holdings) in
  @getAsset (calmMarket []) 10 "BTC" rows' = (Ok (Some btc10More), rows').
Proof.
  intros rows'.
  apply (@updateAssetQuantityPrice_then_getAsset (calmMarket []) btc10More 10 "BTC"%string
           btc10 holdings rows'); reflexivity.
Defined.

(** No row has the id 99 of [stranger]. *)
Lemma update_of_unknown_asset_is_silent_witness :
  @updateAssetQuantityPrice (calmMarket []) stranger holdings = (Ok tt, holdings).
Proof.
  apply (@update_of_unknown_asset_is_silent (calmMarket [])); try reflexivity.
  intros r Hin. cbn in Hin. rewrite !elem_of_cons, elem_of_nil in Hin.
  destruct Hin as [->|[->|[]]]; discriminate.
Defined.

(** The listing of account 10 after it was given 2.5 ETH. *)
Lemma createAsset_extends_listing_witness :
  let created := @createAsset (calmMarket []) "ETH" account10 (ofZ 500) (Finite 25 (-1))
                   holdings in
  exists coins,
    @getAssets (calmMarket []) 10 (snd created) = (Ok coins, snd created) /\
    @getAssets (calmMarket []) 10 holdings = (Ok (listing 10 holdings), holdings) /\
    coins ≡ₚ mkCoin "KRW-ETH" (ofZ 500) (Finite 25 (-1)) :: listing 10 holdings.
Proof.
  intros created.
  apply (@createAsset_extends_listing (calmMarket []) "ETH"%string account10 (ofZ 500)
           (Finite 25 (-1)) holdings
           (Asset.mk 3 "ETH" (ofZ 500) (Finite 25 (-1)) (Finite 25 (-1)) 10) (snd created) 10);
    reflexivity.
Defined.

(** The two partial updates of the BTC row of account 10 to [btc10More]. *)
Lemma two_updates_make_the_full_update_witness :
  @updateAssetQuantityPrice (calmMarket []) btc10More holdings
    = (Ok tt, mkTables [] [account10; account20] [btc10More; eth20]).
Proof.
  apply (@two_updates_make_the_full_update (calmMarket []) btc10More holdings
           (mkTables [] [account10; account20]
              [Asset.mk 1 "BTC" (ofZ 13750) (Finite 15 (-1)) (ofZ 1) 10; eth20]));
    reflexivity.
Defined.

(** ** trade/trade-bid.service.ts: the reconciliation of a fill *)

Section ReconciliationFacts.
Context `{Environment}.

(** [processAssetUpdate], branch by branch. *)
Lemma processAssetUpdate_eq bidDto accountId buyData w :
  processAssetUpdate bidDto accountId buyData w =
    if storageFails OpFindAsset (db w)
    then (Err (InternalServerErrorException "asset lookup failed"), w)
    else
      match find (isHolding accountId (TradeData.typeReceived bidDto)) (assets (db w)) with
      | Some asset =>
          let updated :=
            updateAssetQuantityPrice
              (withAmounts
                 (formatQuantity (add (Asset.price asset)
                                      (mul (Trade.price buyData) (Trade.quantity buyData))))
                 (formatQuantity (add (Asset.quantity asset) (Trade.quantity buyData)))
                 (formatQuantity (add (Asset.availableQuantity asset)
                                      (Trade.quantity buyData)))
                 asset)
              (db w) in
          (fst updated, set_db (snd updated) w)
      | None =>
          match bidDtoAccount w !! TradeData.tradeId bidDto with
          | None =>
              (Err (TypeError "Cannot read properties of undefined (reading 'id')"), w)
          | Some account =>
              let created :=
                createAsset (TradeData.typeReceived bidDto) account
                  (formatQuantity (mul (Trade.price buyData) (Trade.quantity buyData)))
                  (formatQuantity (Trade.quantity buyData)) (db w) in
              (match fst created with Ok _ => Ok tt | Err e => Err e end,
               set_db (snd created) w)
          end
      end.
Proof.
  unfold processAssetUpdate, autocommit, bind. rewrite getAsset_eq.
  destruct (storageFails OpFindAsset (db w)); [by rewrite set_db_same|].
  rewrite set_db_same. fold (isHolding accountId (TradeData.typeReceived bidDto)).
  destruct (find _ _) as [asset|].
  - unfold withAmounts. by destruct (updateAssetQuantityPrice _ _).
  - unfold get. destruct (bidDtoAccount w !! TradeData.tradeId bidDto) as [account|]; [|done].
    cbv zeta. destruct (createAsset _ _ _ _ _) as [[saved|e] rows]; done.
Qed.

(** X11.  The holding follows the fills.  When the reconciliation of a fill
    succeeds and the account already holds the asset, that row keeps its id,
    name and owner and its price, quantity and available quantity grow by
    the fill's cost, quantity and quantity, each sum passed through
    [formatQuantity]; no row is added.  When the account does not hold the
    asset, one row is appended for the account of the order, with the
    formatted cost and quantity of the fill. *)
Theorem processAssetUpdate_upserts bidDto accountId buyData w w' :
  processAssetUpdate bidDto accountId buyData w = (Ok tt, w') ->
  let name := TradeData.typeReceived bidDto in
  let cost := mul (Trade.price buyData) (Trade.quantity buyData) in
  let quantity := Trade.quantity buyData in
  match find (isHolding accountId name) (assets (db w)) with
  | Some old =>
      assetKeys (db w') = assetKeys (db w) /\
      find (isHolding accountId name) (assets (db w')) =
        Some (withAmounts (formatQuantity (add (Asset.price old) cost))
                (formatQuantity (add (Asset.quantity old) quantity))
                (formatQuantity (add (Asset.availableQuantity old) quantity)) old)
  | None =>
      exists account,
        bidDtoAccount w !! TradeData.tradeId bidDto = Some account /\
        assets (db w') =
          assets (db w) ++
            [Asset.mk (nextAssetId (assets (db w))) name (formatQuantity cost)
               (formatQuantity quantity) (formatQuantity quantity) (Account.id account)]
  end.
Proof.
  intros Hrun name cost quantity. rewrite processAssetUpdate_eq in Hrun.
  destruct (storageFails OpFindAsset (db w)); [done|]. fold name in Hrun.
  destruct (find (isHolding accountId name) (assets (db w))) as [old|] eqn:Hold.
  - cbv zeta in Hrun. rewrite updateAssetQuantityPrice_eq in Hrun.
    destruct (_ && _); [|done]. cbn [fst snd] in Hrun. injection Hrun as <-.
    destruct w as [guards rows history published balances contexts tasks rejections logged leftovers].
    cbn [db set_db] in *. split.
    + unfold assetKeys. cbn [assets set_assets]. rewrite map_map. apply map_ext.
      intros r. by destruct (_ =? _)%Z.
    + cbn [assets set_assets]. rewrite find_map_keeps.
      * rewrite Hold. cbn [option_map withAmounts Asset.assetId].
        by rewrite Z.eqb_refl.
      * intros r. by destruct (_ =? _)%Z.
  - destruct (bidDtoAccount w !! TradeData.tradeId bidDto) as [account|]; [|done].
    cbv zeta in Hrun. rewrite createAsset_eq in Hrun.
    destruct (_ && _); [|done]. cbn [fst snd] in Hrun. injection Hrun as <-.
    exists account. split; [done|].
    by destruct w as [guards rows history published balances contexts tasks rejections logged leftovers].
Qed.

(** X12.  A reconciliation that fails has written nothing, and it fails with the
    repository's InternalServerErrorException, unless the order has no
    account to create the holding for. *)
Theorem processAssetUpdate_failure_writes_nothing bidDto accountId buyData w e w' :
  processAssetUpdate bidDto accountId buyData w = (Err e, w') ->
  w' = w /\
  (isInternalServerError e = true \/
   bidDtoAccount w !! TradeData.tradeId bidDto = None).
Proof.
  intros Hrun. rewrite processAssetUpdate_eq in Hrun.
  destruct (storageFails OpFindAsset (db w)).
  { injection Hrun as <- <-. by split; [|left]. }
  destruct (find _ _) as [old|].
  - cbv zeta in Hrun. rewrite updateAssetQuantityPrice_eq in Hrun.
    destruct (_ && _); [done|]. cbn [fst snd] in Hrun. injection Hrun as <- <-.
    rewrite set_db_same. by split; [|left].
  - destruct (bidDtoAccount w !! TradeData.tradeId bidDto) as [account|].
    + cbv zeta in Hrun. rewrite createAsset_eq in Hrun.
      destruct (_ && _); [done|]. cbn [fst snd] in Hrun. injection Hrun as <- <-.
      rewrite set_db_same. by split; [|left].
    + injection Hrun as <- <-. by split; [|right].
Qed.
End ReconciliationFacts.

(** The fill of order 7 over 1 BTC at 9000, for an account that holds
    nothing: one row is created. *)
Lemma processAssetUpdate_upserts_witness :
  exists account,
    bidDtoAccount world7InFlight !! 7%Z = Some account /\
    assets (db (snd (@processAssetUpdate (calmMarket []) order7 10 fill7 world7InFlight))) =
      [Asset.mk 1 "BTC" (ofZ 9000) (ofZ 1) (ofZ 1) (Account.id account)].
Proof.
  exact (@processAssetUpdate_upserts (calmMarket []) order7 10 fill7 world7InFlight
           (snd (@processAssetUpdate (calmMarket []) order7 10 fill7 world7InFlight))
           eq_refl).
Defined.

(** The asset look-up fails. *)
Lemma processAssetUpdate_failure_writes_nothing_witness :
  let failed :=
    @processAssetUpdate (roughMarket [] reconciliationDown) order7 10 fill7 world7InFlight in
  snd failed = world7InFlight /\
  (isInternalServerError (InternalServerErrorException "asset lookup failed") = true \/
   bidDtoAccount world7InFlight !! TradeData.tradeId order7 = None).
Proof.
  intros failed.
  apply (@processAssetUpdate_failure_writes_nothing (roughMarket [] reconciliationDown)
           order7 10 fill7 world7InFlight
           (InternalServerErrorException "asset lookup failed") (snd failed)).
  reflexivity.
Defined.

Section SettlementFacts.
Context `{Environment}.

(** The ledger update, whatever its outcome, writes the accounts table only. *)
Lemma settleTask_ledger bidDto buyData userAccount w :
  let w' := settleTask (UpdateAccountBalances bidDto buyData userAccount) w in
  assets (db w') = assets (db w) /\ detached w' = detached w.
Proof.
  unfold settleTask, runTask, updateAccountBalances, updateAccountCurrencyWithBid,
    updateAccountRow. unfold_async.
  destruct (storageFails OpUpdateAccount (db w)); [done|].
  destruct (find _ (accounts (db w))) as [stored|]; [|done].
  destruct (Account.increase _ _ _ stored) as [changed|]; [|done].
  by destruct (Account.increase _ _ _ changed).
Qed.

(** X13.  The first fill of an order for an asset the account does not hold yet:
    once the detached promises have run, with the storage layer at work and
    the cost and the quantity of the fill passing the check of the decimals,
    the account holds the asset, with the formatted cost as price and the
    formatted fill quantity as quantity and available quantity, and no
    promise is left pending. *)
Theorem first_fill_creates_the_holding bidDto order user w tradeData account :
  (forall op rows, storageFails op rows = false) ->
  detached w = [] ->
  orderRow bidDto (db w) = Some tradeData ->
  isMinimumQuantity (Trade.quantity tradeData) = false ->
  let buyData := makeBuyData bidDto order tradeData in
  isMinimumQuantity (Trade.quantity buyData) = false ->
  bidDtoAccount w !! TradeData.tradeId bidDto = Some account ->
  find (isHolding (Account.id account) (TradeData.typeReceived bidDto)) (assets (db w))
    = None ->
  let cost := formatQuantity (mul (Trade.price buyData) (Trade.quantity buyData)) in
  let quantity := formatQuantity (Trade.quantity buyData) in
  isOk (ensureMax8Decimals cost "price") = true ->
  isOk (ensureMax8Decimals quantity "quantity") = true ->
  let settled := settle (snd (executeBidTrade bidDto order user w)) in
  assets (db settled) =
    assets (db w) ++
      [Asset.mk (nextAssetId (assets (db w))) (TradeData.typeReceived bidDto) cost quantity
         quantity (Account.id account)] /\
  detached settled = [].
Proof.
  intros Hstorage Hdetached Hrow Hquantity buyData Hfill Haccount Hnone cost quantity
    Hcost Hfilled settled.
  unfold settled. rewrite executeBidTrade_eq, Hrow, Hquantity. cbv zeta.
  fold buyData. rewrite Hfill, Haccount, !Hstorage. cbn [snd].
  unfold settle, worldAfterFill. cbn [detached set_detached]. rewrite Hdetached.
  cbn [app fold_left].
  match goal with
  | |- context [settleTask (UpdateAccountBalances ?b ?d ?a) ?v] =>
      pose proof (settleTask_ledger b d a v) as Hledger; cbv zeta in Hledger;
      destruct Hledger as [-> ->]
  end.
  assert (forall v, settleTask (CreateTradeHistory user buyData) v =
                    set_tradeHistory (tradeHistory v ++ [(user, buyData)]) v) as ->.
  { intros v. unfold settleTask, runTask, createTradeHistory, autocommit, storage, bind,
      modify. rewrite Hstorage. by rewrite set_db_same. }
  assert (assets (rowsAfterFill tradeData buyData (db w)) = assets (db w)) as Hassets.
  { unfold rowsAfterFill. by destruct (db w). }
  unfold settleTask, runTask. rewrite processAssetUpdate_eq, Hstorage.
  cbn [db set_db set_bidDtoAccount set_detached set_tradeHistory bidDtoAccount].
  rewrite Hassets.
  change (Account.id (settleInMemory bidDto buyData account)) with (Account.id account).
  rewrite Hnone, lookup_insert_eq. cbv zeta. rewrite createAsset_eq. fold cost quantity.
  rewrite Hcost, Hfilled, Hstorage.
  cbn [andb negb fst snd db set_db assets set_assets detached].
  change (Account.id (settleInMemory bidDto buyData account)) with (Account.id account).
  by rewrite Hassets.
Qed.
End SettlementFacts.

(** Order 7 takes the level 9000 x 1; after the detached promises have run,
    account 10 holds 1 BTC bought for 9000. *)
Lemma first_fill_creates_the_holding_witness :
  let settled :=
    @settle (calmMarket [])
      (snd (@executeBidTrade (calmMarket []) order7 (level 9000 1) (User.mk 1)
              world7InFlight)) in
  assets (db settled) = [Asset.mk 1 "BTC" (ofZ 9000) (ofZ 1) (ofZ 1) 10] /\
  detached settled = [].
Proof.
  apply (@first_fill_creates_the_holding (calmMarket []) order7 (level 9000 1) (User.mk 1)
           world7InFlight row7 account10); reflexivity.
Defined.

(** ** trade/trade-bid.service.ts: placing an order *)

Section PlacementFacts.
Context `{Environment}.

Lemma executeTransaction_ok {A} (callback : DB A) w r w1 :
  executeTransaction callback w = (Ok r, w1) ->
  exists rows, callback (db w) = (Ok r, rows) /\ w1 = set_db rows w.
Proof.
  unfold executeTransaction. unfold_async.
  cbn [fst snd view isTransactionActive hasWritten].
  destruct (callback (db w)) as [[a|e] rows];
    cbn [fst snd view isTransactionActive hasWritten andb]; [|done].
  destruct (storageFails OpCommit rows);
    cbn [fst snd view isTransactionActive hasWritten andb]; [done|].
  intros [= <- <-]. by exists rows.
Qed.

Lemma createBidTradeCallback_ok userId bidDto rows r rows' :
  createBidTradeCallback userId bidDto rows = (Ok r, rows') ->
  snd r = mkTradeResponse 200 "trade registered" /\
  trades rows' = trades rows ++ [fst r] /\
  Trade.tradeId (fst r) = nextTradeId (trades rows).
Proof.
  unfold createBidTradeCallback, validateUserAccount, updateAccountCurrency,
    updateAccountRow, createTrade. unfold_async.
  destruct (leb _ _); [done|].
  destruct (storageFails OpGetAccount rows); [done|].
  destruct (find _ (accounts rows)) as [userAccount|]; [|done].
  destruct (checkCurrencyBalance bidDto userAccount); [|done].
  destruct (ensureMax8Decimals _ _) as [[]|]; [|done].
  destruct (storageFails OpUpdateAccount rows); [done|].
  destruct (find _ (accounts rows)) as [stored|].
  - destruct (Account.increase _ _ _ stored) as [changed|]; [|done].
    destruct (storageFails OpInsertTrade _); [done|].
    intros [= <- <-]. by destruct rows.
  - destruct (storageFails OpInsertTrade _); [done|].
    intros [= <- <-]. by destruct rows.
Qed.

(** X14.  [createBidTrade] rejects in one case only: the notional
    [receivedAmount * receivedPrice] is below the minimum.  Then the error
    is the BadRequestException and nothing was done; in every other case the
    promise resolves, whatever happened inside. *)
Theorem createBidTrade_rejects_only_below_minimum userId bidDto w :
  let notional := mul (TradeData.receivedAmount bidDto) (TradeData.receivedPrice bidDto) in
  match createBidTrade userId bidDto w with
  | (Ok _, _) => isMinimumQuantity notional = false
  | (Err e, w') =>
      isMinimumQuantity notional = true /\ w' = w /\
      e = BadRequestException "below the minimum trade amount"
  end.
Proof.
  intros notional. destruct (isMinimumQuantity notional) eqn:Hminimum.
  - unfold createBidTrade. fold notional. by rewrite Hminimum.
  - pose proof (createBidTrade_resolves userId bidDto w Hminimum) as Hresolves.
    by destruct (createBidTrade userId bidDto w) as [[response|e] w'].
Qed.

(** X15.  The order is published after its transaction has committed, under the
    id the insert gave it: when the transaction succeeds and Redis takes the
    record, the caller gets the 200 of the callback, the order's row is in
    the trades table, and the record sent to Redis carries that row's id with
    the user, the currencies, the price and the amount of the request. *)
Theorem createBidTrade_publishes_committed_order userId bidDto w r w1 :
  isMinimumQuantity (mul (TradeData.receivedAmount bidDto) (TradeData.receivedPrice bidDto))
    = false ->
  executeTransaction (createBidTradeCallback userId bidDto) w = (Ok r, w1) ->
  storageFails OpRedis (db w1) = false ->
  let published :=
    mkTradeDataRedis (Trade.tradeId (fst r)) userId TRADE_TYPES_BUY
      (TradeData.typeGiven bidDto) (TradeData.typeReceived bidDto)
      (TradeData.receivedPrice bidDto) (TradeData.receivedAmount bidDto) in
  createBidTrade userId bidDto w = (Ok (Some (snd r)), set_redis (redis w1 ++ [published]) w1) /\
  statusCode (snd r) = 200%Z /\
  fst r ∈ trades (db w1).
Proof.
  intros Hminimum Htransaction Hredis published.
  destruct (executeTransaction_ok _ _ _ _ Htransaction) as (rows & Hcallback & ->).
  destruct (createBidTradeCallback_ok _ _ _ _ _ Hcallback) as (Hresponse & Htrades & Hid).
  split; [|split; [by rewrite Hresponse|]].
  - unfold createBidTrade. rewrite Hminimum. unfold try_catch, bind at 1.
    rewrite Htransaction. cbv zeta. rewrite Hresponse. cbn [statusCode Z.eqb Pos.eqb].
    unfold redisCreateTrade, autocommit, storage, bind, modify, ret. rewrite Hredis.
    by rewrite set_db_same.
  - destruct w as [guards tables history published' balances contexts tasks rejections logged leftovers].
    cbn [db set_db]. rewrite Htrades. apply elem_of_app. right. apply list_elem_of_singleton.
    done.
Qed.

(** X16.  When the transaction has committed and publishing to Redis fails, the
    error is logged and the promise resolves with [undefined]: the caller
    gets no response although the order is stored, and nothing is
    published. *)
Theorem createBidTrade_loses_response_after_commit userId bidDto w r w1 :
  isMinimumQuantity (mul (TradeData.receivedAmount bidDto) (TradeData.receivedPrice bidDto))
    = false ->
  executeTransaction (createBidTradeCallback userId bidDto) w = (Ok r, w1) ->
  storageFails OpRedis (db w1) = true ->
  createBidTrade userId bidDto w =
    (Ok None, set_console (console w1 ++ [Error "DB Error"]) w1) /\
  fst r ∈ trades (db w1) /\
  redis w1 = redis w.
Proof.
  intros Hminimum Htransaction Hredis.
  destruct (executeTransaction_ok _ _ _ _ Htransaction) as (rows & Hcallback & ->).
  destruct (createBidTradeCallback_ok _ _ _ _ _ Hcallback) as (Hresponse & Htrades & Hid).
  split; [|split; [|by destruct w]].
  - unfold createBidTrade. rewrite Hminimum. unfold try_catch, bind at 1.
    rewrite Htransaction. cbv zeta. rewrite Hresponse. cbn [statusCode Z.eqb Pos.eqb].
    unfold redisCreateTrade, autocommit, storage, bind, modify, ret, consoleLog.
    rewrite Hredis. by rewrite set_db_same.
  - destruct w as [guards tables history published balances contexts tasks rejections logged leftovers].
    cbn [db set_db]. rewrite Htrades. apply elem_of_app. right. apply list_elem_of_singleton.
    done.
Qed.
End PlacementFacts.

(** User 1 places order 7 beside the stored row 7: the new row gets its own
    id, and that id is published. *)
Lemma createBidTrade_publishes_committed_order_witness :
  exists r w1,
    @executeTransaction (calmMarket []) _ (@createBidTradeCallback (calmMarket []) 1 order7)
      world7 = (Ok r, w1) /\
    @createBidTrade (calmMarket []) 1 order7 world7 =
      (Ok (Some (snd r)),
       set_redis
         (redis w1 ++ [mkTradeDataRedis (Trade.tradeId (fst r)) 1 "buy" "KRW" "BTC" (ofZ 9500)
                         (ofZ 3)])
         w1) /\
    statusCode (snd r) = 200%Z /\
    fst r ∈ trades (db w1).
Proof.
  eexists _, _. split; [vm_compute; reflexivity|].
  apply (@createBidTrade_publishes_committed_order (calmMarket []) 1 order7 world7);
    vm_compute; reflexivity.
Defined.

(** The same order with Redis down. *)
Lemma createBidTrade_loses_response_after_commit_witness :
  exists r w1,
    @executeTransaction (roughMarket [] redisDown) _
      (@createBidTradeCallback (roughMarket [] redisDown) 1 order7) world7 = (Ok r, w1) /\
    @createBidTrade (roughMarket [] redisDown) 1 order7 world7 =
      (Ok None, set_console (console w1 ++ [Error "DB Error"]) w1) /\
    fst r ∈ trades (db w1) /\
    redis w1 = redis world7.
Proof.
  eexists _, _. split; [vm_compute; reflexivity|].
  apply (@createBidTrade_loses_response_after_commit (roughMarket [] redisDown) 1 order7
           world7);
    vm_compute; reflexivity.
Defined.

(** ** trade/worker-pool.service.ts *)

Section PoolInvariants.
Import WorkerPool PoolProps.
Context {UserT TaskData Reply : Type} (work : @Message UserT TaskData -> Reply).

Local Abbreviation Pool := (@Pool UserT TaskData Reply).

Lemma pop_nil_inv {A} (l : list A) : fst (pop l) = None -> l = [].
Proof.
  unfold pop. destruct (rev l) as [|x r] eqn:Hrev; [|done].
  intros _. apply (f_equal (@rev A)) in Hrev. by rewrite rev_involutive in Hrev.
Qed.

Lemma pop_some_inv {A} (l : list A) x rest : pop l = (Some x, rest) -> l = rest ++ [x].
Proof.
  unfold pop. destruct (rev l) as [|y r] eqn:Hrev; [done|].
  intros [= -> <-]. apply (f_equal (@rev A)) in Hrev.
  rewrite rev_involutive in Hrev. by rewrite Hrev.
Qed.

Lemma settle_all_promises_other listeners v (s : Pool) p :
  p ∉ listeners ->
  promises (fold_left (fun s q => settlePromise q v s) listeners s) !! p = promises s !! p.
Proof.
  revert s. induction listeners as [|q listeners IH]; intros s Hp; [done|].
  simpl. rewrite IH by (intros Hin; apply Hp; by apply elem_of_cons; right).
  unfold settlePromise. destruct (promises s !! q) eqn:Hq; [done|]. simpl.
  apply lookup_insert_ne. intros ->. apply Hp. by apply elem_of_cons; left.
Qed.

Lemma settlePromise_keeps q v (s : Pool) p u :
  promises s !! p = Some u -> promises (settlePromise q v s) !! p = Some u.
Proof.
  intros Hp. unfold settlePromise. destruct (promises s !! q) eqn:Hq; [done|]. simpl.
  rewrite lookup_insert_ne; [done|]. intros ->. congruence.
Qed.

Lemma settle_all_keeps listeners v (s : Pool) p u :
  promises s !! p = Some u ->
  promises (fold_left (fun s q => settlePromise q v s) listeners s) !! p = Some u.
Proof.
  revert s. induction listeners as [|q listeners IH]; intros s Hp; [done|].
  simpl. apply IH. by apply settlePromise_keeps.
Qed.

Lemma settle_all_listeners listeners v (s : Pool) :
  let s' := fold_left (fun s q => settlePromise q v s) listeners s in
  onMessageResolve s' = onMessageResolve s /\ onErrorReject s' = onErrorReject s /\
  nextPromise s' = nextPromise s.
Proof.
  revert s. induction listeners as [|q listeners IH]; intros s; [done|].
  simpl. destruct (IH (settlePromise q v s)) as (-> & -> & ->).
  unfold settlePromise. by destruct (promises s !! q).
Qed.


Lemma step_noIdleWhileWaiting (s : Pool) ev :
  noIdleWhileWaiting s -> noIdleWhileWaiting (step work s ev).
Proof.
  unfold noIdleWhileWaiting.
  assert (forall worker result (t : Pool),
            pool t = [] \/ taskQueue t = [] ->
            pool (emitMessage worker result t) = [] \/
            taskQueue (emitMessage worker result t) = []) as Hemit.
  { intros worker result t Ht.
    destruct (taskQueue t) as [|task rest] eqn:Hqueue.
    - right. unfold emitMessage.
      destruct (settle_all_frame
                  (default [] (onMessageResolve (poolOnMessage worker result t) !! worker))
                  (Resolved result) (poolOnMessage worker result t)) as (-> & _ & _).
      unfold poolOnMessage. by rewrite Hqueue.
    - left. destruct Ht as [Ht|Ht]; [|done].
      destruct (emitMessage_claims_oldest worker result t task rest Hqueue) as (_ & _ & ->).
      done. }
  intros Hs. destruct ev as [user taskData|worker value|worker|worker error]; simpl.
  - unfold executeTask. cbn [pool].
    destruct (pop (pool s)) as [[availableWorker|] rest] eqn:Hpop; simpl.
    + right. destruct Hs as [Hs|Hs]; [|done]. by rewrite Hs in Hpop.
    + left. apply pop_nil_inv. by rewrite Hpop.
  - by apply Hemit.
  - destruct (default [] (inbox s !! worker)) as [|m rest]; [done|]. by apply Hemit.
  - unfold emitError.
    by destruct (settle_all_frame (default [] (onErrorReject s !! worker)) (Rejected error) s)
      as (-> & _ & ->).
Qed.

(** X18.  From the constructor on, whatever callers and workers do, the pool never
    holds an idle worker while a task waits in the queue. *)
Theorem no_task_waits_beside_idle_worker events :
  noIdleWhileWaiting (run work events (@init UserT TaskData Reply)).
Proof.
  assert (forall s : Pool, noIdleWhileWaiting s -> noIdleWhileWaiting (run work events s))
    as Hrun.
  { induction events as [|ev events IH]; intros s Hs; [done|].
    simpl. apply IH. by apply step_noIdleWhileWaiting. }
  apply Hrun. by left.
Qed.

Lemma Forall_lt_S (l : list nat) n : Forall (fun p => p < n) l -> Forall (fun p => p < S n) l.
Proof. intros Hl. eapply Forall_impl; [exact Hl|]. simpl. lia. Qed.

Lemma settlePromise_known q v (s : Pool) :
  q < nextPromise s -> knownPromises s -> knownPromises (settlePromise q v s).
Proof.
  intros Hq (Hresolve & Hreject & Hqueue & Hsettled). unfold settlePromise.
  destruct (promises s !! q) eqn:Hlook; [done|].
  repeat split; try done. simpl. intros p u.
  destruct (decide (q = p)) as [->|Hne]; [done|].
  rewrite lookup_insert_ne by done. apply Hsettled.
Qed.

Lemma settle_all_known listeners v (s : Pool) :
  Forall (fun p => p < nextPromise s) listeners ->
  knownPromises s ->
  knownPromises (fold_left (fun s q => settlePromise q v s) listeners s).
Proof.
  revert s. induction listeners as [|q listeners IH]; intros s Hall Hs; [done|].
  simpl. apply Forall_cons in Hall as [Hq Hall]. apply IH.
  - replace (nextPromise (settlePromise q v s)) with (nextPromise s); [done|].
    unfold settlePromise. by destruct (promises s !! q).
  - by apply settlePromise_known.
Qed.

Lemma default_listeners_known (m : gmap nat (list nat)) n worker :
  (forall w l, m !! w = Some l -> Forall (fun p => p < n) l) ->
  Forall (fun p => p < n) (default [] (m !! worker)).
Proof. intros Hm. destruct (m !! worker) as [l|] eqn:Hl; [by eapply Hm|constructor]. Qed.

Lemma emitMessage_known worker result (s : Pool) :
  knownPromises s -> knownPromises (emitMessage worker result s).
Proof.
  intros Hs. unfold emitMessage.
  assert (knownPromises (poolOnMessage worker result s)) as Hpool.
  { unfold poolOnMessage. destruct (taskQueue s) as [|task rest] eqn:Hqueue.
    - destruct Hs as (Hresolve & Hreject & Hq & Hsettled). by repeat split.
    - destruct Hs as (Hresolve & Hreject & Hq & Hsettled).
      rewrite Hqueue in Hq. apply Forall_cons in Hq as [Htask Hrest].
      apply settlePromise_known; [done|]. by repeat split. }
  apply settle_all_known; [|done].
  destruct Hpool as (Hresolve & _). by apply default_listeners_known.
Qed.

Lemma step_known (s : Pool) ev : knownPromises s -> knownPromises (step work s ev).
Proof.
  intros Hs. destruct ev as [user taskData|worker value|worker|worker error]; simpl.
  - destruct Hs as (Hresolve & Hreject & Hqueue & Hsettled).
    unfold executeTask. cbn [pool nextPromise].
    destruct (pop (pool s)) as [[availableWorker|] rest]; simpl.
    + repeat split; simpl.
      * intros w l. destruct (decide (availableWorker = w)) as [->|Hne].
        -- rewrite lookup_insert_eq. intros [= <-]. apply Forall_app. split.
           ++ apply Forall_lt_S. by apply default_listeners_known.
           ++ repeat constructor.
        -- rewrite lookup_insert_ne by done. intros Hl. apply Forall_lt_S. by eapply Hresolve.
      * intros w l. destruct (decide (availableWorker = w)) as [->|Hne].
        -- rewrite lookup_insert_eq. intros [= <-]. apply Forall_app. split.
           ++ apply Forall_lt_S. by apply default_listeners_known.
           ++ repeat constructor.
        -- rewrite lookup_insert_ne by done. intros Hl. apply Forall_lt_S. by eapply Hreject.
      * eapply Forall_impl; [exact Hqueue|]. simpl. lia.
      * intros p v Hp. apply Hsettled in Hp. lia.
    + repeat split; simpl.
      * intros w l Hl. apply Forall_lt_S. by eapply Hresolve.
      * intros w l Hl. apply Forall_lt_S. by eapply Hreject.
      * apply Forall_app. split; [|repeat constructor; simpl; lia].
        eapply Forall_impl; [exact Hqueue|]. simpl. lia.
      * intros p v Hp. apply Hsettled in Hp. lia.
  - by apply emitMessage_known.
  - destruct (default [] (inbox s !! worker)) as [|m rest]; [done|].
    apply emitMessage_known. destruct Hs as (Hresolve & Hreject & Hqueue & Hsettled).
    by repeat split.
  - unfold emitError. apply settle_all_known; [|done].
    destruct Hs as (_ & Hreject & _). by apply default_listeners_known.
Qed.

Lemma run_known events (s : Pool) : knownPromises s -> knownPromises (run work events s).
Proof.
  revert s. induction events as [|ev events IH]; intros s Hs; [done|].
  simpl. apply IH. by apply step_known.
Qed.

Lemma init_known : knownPromises (@init UserT TaskData Reply).
Proof. by repeat split. Qed.

Lemma settlePromise_resolved_not_rejected q result (s : Pool) p :
  (forall error, promises s !! p <> Some (Rejected error)) ->
  forall error, promises (settlePromise q (Resolved result) s) !! p <> Some (Rejected error).
Proof.
  intros Hp error. unfold settlePromise. destruct (promises s !! q) eqn:Hq; [apply Hp|].
  simpl. destruct (decide (q = p)) as [->|Hne].
  - by rewrite lookup_insert_eq.
  - rewrite lookup_insert_ne by done. apply Hp.
Qed.

Lemma settle_all_resolved_not_rejected listeners result (s : Pool) p :
  (forall error, promises s !! p <> Some (Rejected error)) ->
  forall error,
    promises (fold_left (fun s q => settlePromise q (Resolved result) s) listeners s) !! p
      <> Some (Rejected error).
Proof.
  revert s. induction listeners as [|q listeners IH]; intros s Hp; [done|].
  simpl. apply IH. by apply settlePromise_resolved_not_rejected.
Qed.

Lemma emitMessage_neverRejected worker result (s : Pool) p :
  neverRejected p s -> neverRejected p (emitMessage worker result s).
Proof.
  intros (Hlt & Hlisten & Hp). unfold emitMessage.
  destruct (settle_all_listeners
              (default [] (onMessageResolve (poolOnMessage worker result s) !! worker))
              (Resolved result) (poolOnMessage worker result s)) as (_ & Herr & Hnext).
  assert (onErrorReject (poolOnMessage worker result s) = onErrorReject s /\
          nextPromise (poolOnMessage worker result s) = nextPromise s /\
          forall error, promises (poolOnMessage worker result s) !! p <> Some (Rejected error))
    as (Herr' & Hnext' & Hp').
  { unfold poolOnMessage. destruct (taskQueue s) as [|task rest]; [done|].
    split; [|split].
    - unfold settlePromise, postMessage. simpl. by destruct (promises s !! task_promise task).
    - unfold settlePromise, postMessage. simpl. by destruct (promises s !! task_promise task).
    - by apply settlePromise_resolved_not_rejected. }
  split; [|split].
  - by rewrite Hnext, Hnext'.
  - by rewrite Herr, Herr'.
  - by apply settle_all_resolved_not_rejected.
Qed.

Lemma step_neverRejected (s : Pool) ev p :
  neverRejected p s -> neverRejected p (step work s ev).
Proof.
  intros Hs. destruct ev as [user taskData|worker value|worker|worker error]; simpl.
  - destruct Hs as (Hlt & Hlisten & Hp).
    unfold executeTask. cbn [pool nextPromise].
    destruct (pop (pool s)) as [[availableWorker|] rest]; simpl.
    + unfold neverRejected. simpl. split; [lia|]. split; [|done]. intros w l.
      destruct (decide (availableWorker = w)) as [->|Hne].
      * rewrite lookup_insert_eq. intros [= <-]. rewrite elem_of_app, list_elem_of_singleton.
        intros [Hin| ->]; [|lia].
        destruct (onErrorReject s !! w) as [l|] eqn:Hl; simpl in Hin.
        -- by eapply Hlisten.
        -- by apply elem_of_nil in Hin.
      * rewrite lookup_insert_ne by done. apply Hlisten.
    + unfold neverRejected. simpl. split; [lia|]. by split.
  - by apply emitMessage_neverRejected.
  - destruct (default [] (inbox s !! worker)) as [|m rest]; [done|].
    apply emitMessage_neverRejected. destruct Hs as (Hlt & Hlisten & Hp). by repeat split.
  - destruct Hs as (Hlt & Hlisten & Hp). unfold emitError, neverRejected.
    destruct (settle_all_listeners (default [] (onErrorReject s !! worker)) (Rejected error) s)
      as (_ & -> & ->).
    repeat split; [done|done|]. intros error'.
    rewrite settle_all_promises_other; [apply Hp|].
    destruct (onErrorReject s !! worker) as [l|] eqn:Hl; simpl.
    + by eapply Hlisten.
    + apply not_elem_of_nil.
Qed.

(** X19.  A task that found no idle worker and went to the queue: whatever
    happens afterwards, a worker's 'error' never rejects its promise.  The
    [reject] stored with the queued task is never called. *)
Theorem queued_task_is_never_rejected before user taskData after error :
  let s := run work before (@init UserT TaskData Reply) in
  pool s = [] ->
  let submitted := executeTask user taskData s in
  promises (run work after (snd submitted)) !! fst submitted <> Some (Rejected error).
Proof.
  intros s Hpool submitted.
  assert (neverRejected (fst submitted) (snd submitted)) as Hstart.
  { destruct (run_known before _ init_known) as (_ & Hreject & _ & Hsettled). fold s in Hreject, Hsettled.
    unfold submitted, executeTask. cbn [pool]. rewrite Hpool.
    unfold neverRejected. simpl. split; [lia|]. split.
    - intros w l Hl Hin. apply Hreject in Hl. rewrite Forall_forall in Hl.
      apply Hl in Hin. lia.
    - intros error' Hp. apply Hsettled in Hp. lia. }
  clearbody submitted. clear Hpool. revert Hstart. generalize (snd submitted) as t.
  induction after as [|ev after IH]; intros t (Hlt & Hlisten & Hp); [apply Hp|].
  simpl. apply IH. by apply step_neverRejected.
Qed.

Lemma settle_all_resolves_member listeners v (s : Pool) p :
  p ∈ listeners -> promises s !! p = None ->
  promises (fold_left (fun s q => settlePromise q v s) listeners s) !! p = Some v.
Proof.
  revert s. induction listeners as [|q listeners IH]; intros s Hin Hp.
  { by apply elem_of_nil in Hin. }
  simpl. destruct (decide (q = p)) as [->|Hne].
  - apply settle_all_keeps. unfold settlePromise. rewrite Hp. simpl. apply lookup_insert_eq.
  - apply IH.
    + apply elem_of_cons in Hin as [->|Hin]; done.
    + unfold settlePromise. destruct (promises s !! q); [done|]. simpl.
      by rewrite lookup_insert_ne.
Qed.

Lemma executeTask_idle_eq user taskData (s : Pool) idle worker :
  pool s = idle ++ [worker] ->
  executeTask user taskData s =
    (nextPromise s,
     mkPool idle (taskQueue s)
       (<[worker := default [] (inbox s !! worker) ++ [UserAndData user taskData]]> (inbox s))
       (<[worker := default [] (onMessageResolve s !! worker) ++ [nextPromise s]]>
          (onMessageResolve s))
       (<[worker := default [] (onErrorReject s !! worker) ++ [nextPromise s]]>
          (onErrorReject s))
       (promises s) (S (nextPromise s))).
Proof. intros Hpool. unfold executeTask. cbn [pool]. by rewrite Hpool, pop_snoc. Qed.

(** X20.  A task that is handed to an idle worker with nothing else to answer
    receives, at that worker's next 'message', the reply to its own message;
    and the worker is idle again. *)
Theorem direct_task_receives_own_result user taskData (s : Pool) idle worker :
  pool s = idle ++ [worker] ->
  taskQueue s = [] ->
  default [] (inbox s !! worker) = [] ->
  promises s !! nextPromise s = None ->
  let submitted := executeTask user taskData s in
  let answered := step work (snd submitted) (Answer worker) in
  promises answered !! fst submitted = Some (Resolved (work (UserAndData user taskData))) /\
  pool answered = idle ++ [worker] /\
  default [] (inbox answered !! worker) = [].
Proof.
  intros Hpool Hqueue Hinbox Hfresh submitted answered.
  unfold answered, submitted. rewrite (executeTask_idle_eq _ _ _ idle worker Hpool).
  cbn [step snd fst inbox]. rewrite lookup_insert_eq, Hinbox. cbn [default from_option id app].
  unfold emitMessage, poolOnMessage. cbn [taskQueue]. rewrite Hqueue.
  cbn [onMessageResolve pool inbox onErrorReject promises nextPromise taskQueue].
  rewrite lookup_insert_eq. cbn [default from_option id].
  match goal with
  | |- context [fold_left ?f ?l ?t] =>
      destruct (settle_all_frame l (Resolved (work (UserAndData user taskData))) t)
        as (_ & Hinbox' & Hpool');
      pose proof (settle_all_resolves_member l (Resolved (work (UserAndData user taskData)))
                    t (nextPromise s)) as Hresolved
  end.
  cbv zeta in Hinbox', Hpool'. rewrite Hinbox', Hpool'. cbn [pool inbox].
  split; [|split; [done|by rewrite lookup_insert_eq]].
  apply Hresolved; [|done].
  rewrite elem_of_app, list_elem_of_singleton. by right.
Qed.

(** X21.  Workers that report while tasks wait take them oldest first: after as
    many 'message' events of a worker as [values] has entries, that worker
    was posted the data of the first so many waiting tasks, in the order
    they were waiting, and the rest of the queue is as it was. *)
Theorem waiting_tasks_are_claimed_in_order worker values (s : Pool) :
  length values <= length (taskQueue s) ->
  let s' := run work (map (Announce worker) values) s in
  taskQueue s' = drop (length values) (taskQueue s) /\
  default [] (inbox s' !! worker)
    = default [] (inbox s !! worker)
        ++ map (fun task => DataOnly (task_data task)) (take (length values) (taskQueue s)) /\
  pool s' = pool s.
Proof.
  revert s. induction values as [|value values IH]; intros s Hlen.
  { simpl. by rewrite app_nil_r. }
  destruct (taskQueue s) as [|task rest] eqn:Hqueue; [simpl in Hlen; lia|].
  cbn [map run fold_left step length].
  destruct (emitMessage_claims_oldest worker value s task rest Hqueue)
    as (Hrest & Hinbox & Hpool).
  change (fold_left (step work) (map (Announce worker) values) (emitMessage worker value s))
    with (run work (map (Announce worker) values) (emitMessage worker value s)).
  destruct (IH (emitMessage worker value s)) as (-> & -> & ->).
  { rewrite Hrest. simpl in Hlen. lia. }
  rewrite Hrest, Hinbox, Hpool. cbn [default from_option id drop take map].
  by rewrite <- app_assoc.
Qed.

Lemma run_silent events (s : Pool) :
  forallb isSilent events = true ->
  pool s = [] -> onErrorReject s = ∅ -> promises s = ∅ -> inbox s = ∅ ->
  let s' := run work events s in
  pool s' = [] /\ promises s' = ∅ /\ inbox s' = ∅ /\
  map task_data (taskQueue s') = map task_data (taskQueue s) ++ submitted events.
Proof.
  revert s. induction events as [|ev events IH]; intros s Hsilent Hpool Hreject Hpromises Hinbox.
  { simpl. by rewrite app_nil_r. }
  simpl in Hsilent. apply andb_prop in Hsilent as [Hev Hsilent].
  unfold run in *. cbv zeta in IH.
  destruct ev as [user taskData|worker value|worker|worker error]; try done.
  - cbn [fold_left step]. unfold executeTask. cbn [pool]. rewrite Hpool. cbn [pop rev snd].
    match goal with
    | |- context [fold_left (step work) events ?t] =>
        destruct (IH t Hsilent) as (-> & -> & -> & ->); try done
    end.
    cbn [taskQueue]. rewrite map_app. cbn [map task_data submitted omap].
    by rewrite <- app_assoc.
  - cbn [fold_left step]. unfold emitError. rewrite Hreject, lookup_empty.
    cbn [default from_option id fold_left].
    by apply IH.
Qed.

(** X22.  The constructor puts no worker into the pool: until some worker sends a
    'message', no worker is idle, so every task that is submitted goes to
    the queue, in order, nothing is posted to a worker, and no promise is
    settled, whatever 'error' events occur. *)
Theorem fresh_pool_dispatches_nothing events :
  forallb isSilent events = true ->
  let s := run work events (@init UserT TaskData Reply) in
  pool s = [] /\ inbox s = ∅ /\ promises s = ∅ /\
  map task_data (taskQueue s) = submitted events.
Proof.
  intros Hsilent s.
  destruct (run_silent events init Hsilent) as (Hpool & Hpromises & Hinbox & Hqueue); try done.
Qed.
End PoolInvariants.


(** Task B is queued behind task A in a fresh pool; two workers crash. *)
Lemma queued_task_is_never_rejected_witness :
  let s := WorkerPool.run echo [WorkerPool.Submit 1%Z "A"%string] WorkerPool.init in
  let submitted := WorkerPool.executeTask 2%Z "B"%string s in
  WorkerPool.promises
    (WorkerPool.run echo [WorkerPool.Crash 0 "exit"%string; WorkerPool.Crash 1 "exit"%string]
       (snd submitted)) !! fst submitted
    <> Some (WorkerPool.Rejected "exit"%string).
Proof.
  apply (queued_task_is_never_rejected echo [WorkerPool.Submit 1%Z "A"%string]).
  reflexivity.
Defined.

(** Task A goes to the idle worker 0 and is answered. *)
Lemma direct_task_receives_own_result_witness :
  let submitted := WorkerPool.executeTask 1%Z "A"%string oneIdleWorker in
  let answered := WorkerPool.step echo (snd submitted) (WorkerPool.Answer 0) in
  WorkerPool.promises answered !! fst submitted
    = Some (WorkerPool.Resolved (echo (WorkerPool.UserAndData 1%Z "A"%string))) /\
  WorkerPool.pool answered = [] ++ [0] /\
  default [] (WorkerPool.inbox answered !! 0) = [].
Proof. apply direct_task_receives_own_result; vm_compute; reflexivity. Defined.

(** Three tasks wait; worker 0 reports twice and is posted A, then B. *)
Lemma waiting_tasks_are_claimed_in_order_witness :
  let s := WorkerPool.run echo
             [WorkerPool.Submit 1%Z "A"%string; WorkerPool.Submit 2%Z "B"%string;
              WorkerPool.Submit 3%Z "C"%string] WorkerPool.init in
  let values := [WorkerPool.DataOnly "ready"%string; WorkerPool.DataOnly "again"%string] in
  let s' := WorkerPool.run echo (map (WorkerPool.Announce 0) values) s in
  WorkerPool.taskQueue s' = drop (length values) (WorkerPool.taskQueue s) /\
  default [] (WorkerPool.inbox s' !! 0)
    = default [] (WorkerPool.inbox s !! 0)
        ++ map (fun task => WorkerPool.DataOnly (WorkerPool.task_data task))
             (take (length values) (WorkerPool.taskQueue s)) /\
  WorkerPool.pool s' = WorkerPool.pool s.
Proof.
  intros s values. apply (waiting_tasks_are_claimed_in_order echo 0 values s).
  vm_compute. lia.
Defined.

(** Two tasks and a crash in a fresh pool. *)
Lemma fresh_pool_dispatches_nothing_witness :
  let events :=
    [WorkerPool.Submit 1%Z "A"%string; WorkerPool.Crash 0 "exit"%string;
     WorkerPool.Submit 2%Z "B"%string] in
  let s := WorkerPool.run echo events WorkerPool.init in
  WorkerPool.pool s = [] /\ WorkerPool.inbox s = ∅ /\ WorkerPool.promises s = ∅ /\
  map WorkerPool.task_data (WorkerPool.taskQueue s) = PoolProps.submitted events.
Proof. intros events. apply (fresh_pool_dispatches_nothing echo events). reflexivity. Defined.
